(** * XYZMeasurementCorrelation: correlation measurement for models with
      diagonal interactions

    A shallow embedding of [src/XYZ/XYZMeasurementCorrelation.cpp] and the
    properties of its susceptibility kernel, its write-back loop, its cutoff
    cache and its result store.

    Numbers are IEEE-754 binary32 values ([float] in the source), taken from
    the executable specification [SpecFloat] of the standard library with
    [prec = 24] and [emax = 128]; the few [double] sub-expressions of the
    source ([M_PI] and products with it) are binary64 values narrowed with the
    same rounding.  No algebraic law of the reals is used anywhere: every
    statement is about the expressions the source evaluates, in the order in
    which it evaluates them. *)

From Stdlib Require Import ZArith Floats.SpecFloat.
From stdpp Require Import gmap strings list fin_maps pretty sorting.

(** ** Single-precision arithmetic *)

Module Float.

Definition prec : Z := 24.
Definition emax : Z := 128.

Definition add : spec_float -> spec_float -> spec_float := SFadd prec emax.
Definition sub : spec_float -> spec_float -> spec_float := SFsub prec emax.
Definition mul : spec_float -> spec_float -> spec_float := SFmul prec emax.
Definition div : spec_float -> spec_float -> spec_float := SFdiv prec emax.
Definition neg : spec_float -> spec_float := SFopp.

(** [a == b], [a != b], [a < b] and [a > b] of C++: every comparison with a
    NaN is false, except [!=], which is true. *)
Definition eqb (a b : spec_float) : bool := SFeqb a b.
Definition neb (a b : spec_float) : bool := negb (SFeqb a b).
Definition ltb (a b : spec_float) : bool := SFltb a b.
Definition gtb (a b : spec_float) : bool := SFltb b a.

(** The literals of the source. *)
Definition of_Z (z : Z) : spec_float := binary_normalize prec emax z 0 false.
Definition zero : spec_float := S754_zero false.
Definition one : spec_float := of_Z 1.
Definition two : spec_float := of_Z 2.
Definition four : spec_float := of_Z 4.
Definition half : spec_float := binary_normalize prec emax 1 (-1) false.

(** [double] sub-expressions: [M_PI] is the binary64 number
    0x400921FB54442D18, a product of a [float] and a [double] is computed in
    binary64, and [float(...)] narrows the result to binary32. *)
Definition dmul : spec_float -> spec_float -> spec_float := SFmul 53 1024.
Definition M_PI : spec_float := S754_finite false 7074237752028440 (-51).
Definition widen (x : spec_float) : spec_float := x.
Definition narrow (d : spec_float) : spec_float :=
  match d with
  | S754_finite s m e => binary_round prec emax s m e
  | _ => d
  end.

(** [float(M_PI)], [float(4.0f * M_PI)] and [float(4.0f * M_PI * M_PI)]. *)
Definition pi : spec_float := narrow M_PI.
Definition four_pi : spec_float := narrow (dmul (widen four) M_PI).
Definition four_pi_pi : spec_float := narrow (dmul (dmul (widen four) M_PI) M_PI).

End Float.

Abbreviation float := spec_float.
Abbreviation double := spec_float.

Declare Scope float32_scope.
Delimit Scope float32_scope with F.
Infix "+" := Float.add : float32_scope.
Infix "-" := Float.sub : float32_scope.
Infix "*" := Float.mul : float32_scope.
Infix "/" := Float.div : float32_scope.
Notation "- x" := (Float.neg x) : float32_scope.
Infix "==" := Float.eqb (at level 70, no associativity) : float32_scope.
Infix "!=" := Float.neb (at level 70, no associativity) : float32_scope.
Infix "<" := Float.ltb : float32_scope.
Infix ">" := Float.gtb : float32_scope.

(** ** Spin components and value bundles *)

(** [enum class SpinComponent]; the source uses the enumerators [X], [Y], [Z]
    and [None], the last for the density channel. *)
Module SpinComponent.
Inductive t := X | Y | Z | None.

#[global] Instance eq_dec : EqDecision t.
Proof. solve_decision. Defined.
End SpinComponent.

(** [XYZVertexTwoParticle::FrequencyChannel]; only [None] is used here. *)
Module FrequencyChannel.
Inductive t := S | T | U | None | All.
End FrequencyChannel.

(** Modelled from the spec: [lib/ValueBundle.hpp] is not part of the sources.
    A bundle is "a per-channel numeric buffer sized to the full separation
    count"; a superbundle holds one bundle per channel.  [multSub] subtracts
    a weighted bundle ("subtracted from the result with per-channel
    weights"), [+=] and [*=] act on every entry, and a superbundle holds
    zeros when it is constructed and after [reset()] (the result "holds" only
    what the kernel adds to it). *)
Module ValueBundle.
Abbreviation t := (list float).

Definition zeros (size : nat) : t := replicate size Float.zero.
Definition multSub (factor : float) (self rhs : t) : t :=
  zip_with (fun a b => a - factor * b)%F self rhs.
Definition plus (self rhs : t) : t := zip_with Float.add self rhs.
Definition scale (self : t) (factor : float) : t :=
  (fun a => a * factor)%F <$> self.
(** [self[i] += v] *)
Definition addAt (i : nat) (v : float) (self : t) : t :=
  alter (fun a => a + v)%F i self.
End ValueBundle.

Module ValueSuperbundle.
Record t := mk { X : ValueBundle.t; Y : ValueBundle.t; Z : ValueBundle.t; N : ValueBundle.t }.

Definition bundle (sb : t) (c : SpinComponent.t) : ValueBundle.t :=
  match c with
  | SpinComponent.X => X sb
  | SpinComponent.Y => Y sb
  | SpinComponent.Z => Z sb
  | SpinComponent.None => N sb
  end.

(** Replace the bundle of one channel. *)
Definition update (c : SpinComponent.t) (f : ValueBundle.t -> ValueBundle.t) (sb : t) : t :=
  match c with
  | SpinComponent.X => mk (f (X sb)) (Y sb) (Z sb) (N sb)
  | SpinComponent.Y => mk (X sb) (f (Y sb)) (Z sb) (N sb)
  | SpinComponent.Z => mk (X sb) (Y sb) (f (Z sb)) (N sb)
  | SpinComponent.None => mk (X sb) (Y sb) (Z sb) (f (N sb))
  end.

Definition create (size : nat) : t :=
  let z := ValueBundle.zeros size in mk z z z z.
Definition plus (self rhs : t) : t :=
  mk (ValueBundle.plus (X self) (X rhs)) (ValueBundle.plus (Y self) (Y rhs))
     (ValueBundle.plus (Z self) (Z rhs)) (ValueBundle.plus (N self) (N rhs)).
Definition scale (self : t) (factor : float) : t :=
  mk (ValueBundle.scale (X self) factor) (ValueBundle.scale (Y self) factor)
     (ValueBundle.scale (Z self) factor) (ValueBundle.scale (N self) factor).
End ValueSuperbundle.

(** ** The collaborators of the measurement

    None of them is defined in this file of the repository: the lattice, the
    frequency discretization, the vertices and the integrator are taken as
    they are used, as records of the member functions called here. *)

Definition LatticeIterator := nat.
Definition FrequencyIterator := nat.

(** A position or lattice vector, with [double] coordinates. *)
Record Vec3 := { x : double; y : double; z : double }.

Record Lattice := {
  size : nat;
  zero : LatticeIterator;
  (** the sites visited from [getBasis()] to [end()] *)
  _basis : list LatticeIterator;
  (** the sites visited from [getRange(i)] to [end()] *)
  getRange : LatticeIterator -> list LatticeIterator;
  _bravaisLattice : list Vec3;
  getSitePosition : LatticeIterator -> Vec3;
  (** [symmetryTransform(i, j, component, sign)]: the representative index
      returned, together with the values left in [component] and [sign],
      which the source passes as lvalues *)
  symmetryTransform :
    LatticeIterator -> LatticeIterator -> SpinComponent.t -> float ->
    nat * SpinComponent.t * float
}.

(** [getRange(b)] for a basis index [b] *)
Definition getRangeOfBasis (L : Lattice) (b : nat) : list LatticeIterator :=
  match _basis L !! b with
  | Some i => getRange L i
  | None => []
  end.

Record FrequencyDiscretization := {
  beginNegative : FrequencyIterator;
  last : FrequencyIterator;
  (** [*it] *)
  deref : FrequencyIterator -> float
}.

Record XYZVertexSingleParticle := {
  getValue2 : float -> float
}.

Record XYZVertexTwoParticleAccessBuffer := {
  ab_s : float; ab_t : float; ab_u : float
}.

Record XYZVertexTwoParticle := {
  getValueSuperbundle : XYZVertexTwoParticleAccessBuffer -> ValueSuperbundle.t;
  getValue4 :
    LatticeIterator -> LatticeIterator -> float -> float -> float ->
    SpinComponent.t -> FrequencyChannel.t -> float
}.

Definition generateAccessBuffer (s t u : float) : XYZVertexTwoParticleAccessBuffer :=
  {| ab_s := s; ab_t := t; ab_u := u |}.

Record EffectiveAction := {
  cutoff : float;
  vertexSingleParticle : XYZVertexSingleParticle;
  vertexTwoParticle : XYZVertexTwoParticle
}.

(** [namespace ImplicitIntegrator]: each function returns what the source
    receives in its last argument. *)
Record ImplicitIntegrator := {
  integrateWithObscureRightBoundary :
    FrequencyIterator -> float -> (float -> ValueSuperbundle.t) -> ValueSuperbundle.t;
  integrateWithObscureBoundaries :
    float -> float -> (float -> ValueSuperbundle.t) -> ValueSuperbundle.t;
  integrateWithObscureLeftBoundary :
    float -> FrequencyIterator -> (float -> ValueSuperbundle.t) -> ValueSuperbundle.t
}.

(** ** The susceptibility kernel ([_calculateCorrelation], lines 100-183) *)

Section Kernel.

Context (lattice : Lattice) (frequency : FrequencyDiscretization)
        (integrator : ImplicitIntegrator).
Context (v2 : XYZVertexSingleParticle) (v4 : XYZVertexTwoParticle).
(** [nu] is the local [float nu = 0.0f] and [cut] the cutoff of the flowing
    functional. *)
Context (nu cut : float).

Local Open Scope float32_scope.

(** The three guarded integrations that the source spells out twice, once
    around [innerKernel] (lines 152-166) and once around [integralKernel]
    (lines 169-183); [acc] is the buffer the results are added to. *)
Definition integrateDomain (kernel : float -> ValueSuperbundle.t)
    (acc : ValueSuperbundle.t) : ValueSuperbundle.t :=
  let acc :=
    if - (nu + cut) > deref frequency (beginNegative frequency)
    then ValueSuperbundle.plus acc
           (integrateWithObscureRightBoundary integrator
              (beginNegative frequency) (- cut - nu) kernel)
    else acc in
  let acc :=
    if nu - cut > cut
    then ValueSuperbundle.plus acc
           (integrateWithObscureBoundaries integrator (- nu + cut) (- cut) kernel)
    else acc in
  if cut < deref frequency (last frequency)
  then ValueSuperbundle.plus acc
         (integrateWithObscureLeftBoundary integrator cut (last frequency) kernel)
  else acc.

(** The local [term1] of [integralKernel] (line 119). *)
Definition term1 (w : float) : float :=
  Float.one / ((w + getValue2 v2 w) * (w + nu + getValue2 v2 (w + nu))).

(** The local [normalization] of [innerKernel] (line 149). *)
Definition normalization (w wp : float) : float :=
  Float.one / ((w + getValue2 v2 w) * (w + nu + getValue2 v2 (w + nu))
               * (wp + getValue2 v2 wp) * (wp + nu + getValue2 v2 (wp + nu))
               * Float.four_pi_pi).

(** The locals [vx], [vy], [vz] and [vd] of [innerKernel] (lines 132-135). *)
Definition pointwise (w wp : float) (c : SpinComponent.t) : float :=
  getValue4 v4 (zero lattice) (zero lattice) (w + wp + nu) (w - wp) nu
            c FrequencyChannel.None.

(** [ret] and [returnBuffer] are buffers of the caller, made for the size of
    the lattice; after [reset()] they hold zeros. *)
Definition innerKernel (w wp : float) : ValueSuperbundle.t :=
  let ret := ValueSuperbundle.create (size lattice) in
  let ab0 := generateAccessBuffer (w + wp + nu) nu (w - wp) in
  let stackBuffer := getValueSuperbundle v4 ab0 in
  let vx := pointwise w wp SpinComponent.X in
  let vy := pointwise w wp SpinComponent.Y in
  let vz := pointwise w wp SpinComponent.Z in
  let vd := pointwise w wp SpinComponent.None in
  (* dumbbell diagram *)
  let multSub c factor ret :=
    ValueSuperbundle.update c
      (fun b => ValueBundle.multSub factor b (ValueSuperbundle.bundle stackBuffer c)) ret in
  let ret := multSub SpinComponent.X Float.one ret in
  let ret := multSub SpinComponent.Y Float.one ret in
  let ret := multSub SpinComponent.Z Float.one ret in
  let ret := multSub SpinComponent.None Float.four ret in
  (* egg diagram *)
  let ret := ValueSuperbundle.update SpinComponent.X
               (ValueBundle.addAt 0 (Float.half * (vx - vy - vz + vd))) ret in
  let ret := ValueSuperbundle.update SpinComponent.Y
               (ValueBundle.addAt 0 (Float.half * (- vx + vy - vz + vd))) ret in
  let ret := ValueSuperbundle.update SpinComponent.Z
               (ValueBundle.addAt 0 (Float.half * (- vx - vy + vz + vd))) ret in
  let ret := ValueSuperbundle.update SpinComponent.None
               (ValueBundle.addAt 0 (Float.two * (vx + vy + vz + vd))) ret in
  ValueSuperbundle.scale ret (normalization w wp).

(** The part of [integralKernel] before the inner integration (lines
    116-123). *)
Definition localBuffer (w : float) : ValueSuperbundle.t :=
  let returnBuffer := ValueSuperbundle.create (size lattice) in
  let returnBuffer := ValueSuperbundle.update SpinComponent.X
                        (ValueBundle.addAt 0 (term1 w / Float.four_pi)) returnBuffer in
  let returnBuffer := ValueSuperbundle.update SpinComponent.Y
                        (ValueBundle.addAt 0 (term1 w / Float.four_pi)) returnBuffer in
  let returnBuffer := ValueSuperbundle.update SpinComponent.Z
                        (ValueBundle.addAt 0 (term1 w / Float.four_pi)) returnBuffer in
  ValueSuperbundle.update SpinComponent.None
    (ValueBundle.addAt 0 (term1 w / Float.pi)) returnBuffer.

Definition integralKernel (w : float) : ValueSuperbundle.t :=
  (* term1 *)
  let returnBuffer := localBuffer w in
  (* term2 *)
  integrateDomain (innerKernel w) returnBuffer.

Definition susceptibility : ValueSuperbundle.t :=
    integrateDomain integralKernel (ValueSuperbundle.create (size lattice)).

End Kernel.


(** ** The measurement object and its flat correlation buffers *)

Record XYZMeasurementCorrelation := {
  outfile : string;
  _currentCutoff : float;
  _memoryStepLattice : nat;
  _correlationsXX : list float;
  _correlationsYY : list float;
  _correlationsZZ : list float;
  _correlationsDD : list float
}.

Definition set_currentCutoff (c : float) (m : XYZMeasurementCorrelation) :=
  {| outfile := outfile m; _currentCutoff := c;
     _memoryStepLattice := _memoryStepLattice m;
     _correlationsXX := _correlationsXX m; _correlationsYY := _correlationsYY m;
     _correlationsZZ := _correlationsZZ m; _correlationsDD := _correlationsDD m |}.

Definition set_correlations (xx yy zz dd : list float) (m : XYZMeasurementCorrelation) :=
  {| outfile := outfile m; _currentCutoff := _currentCutoff m;
     _memoryStepLattice := _memoryStepLattice m;
     _correlationsXX := xx; _correlationsYY := yy;
     _correlationsZZ := zz; _correlationsDD := dd |}.

(** The buffer of one channel, by its tag. *)
Definition correlations (m : XYZMeasurementCorrelation) (c : SpinComponent.t) : list float :=
  match c with
  | SpinComponent.X => _correlationsXX m
  | SpinComponent.Y => _correlationsYY m
  | SpinComponent.Z => _correlationsZZ m
  | SpinComponent.None => _correlationsDD m
  end.

(** [new float[n]] returns [n] floats of indeterminate value; [junk] stands
    for whatever the allocation holds. *)
Definition newFloatArray (junk : nat -> float) (n : nat) : list float :=
  junk <$> seq 0 n.

(** [buffer[offset] = v].  A store outside the allocation is undefined in
    C++; it is the [None] of the functions below, as is a read outside a
    bundle. *)
Definition store (offset : nat) (v : float) (buffer : list float) : option (list float) :=
  if decide (offset < length buffer) then Some (<[offset := v]> buffer) else None.

Section Correlation.

Context (lattice : Lattice) (frequency : FrequencyDiscretization)
        (integrator : ImplicitIntegrator).

(** The constructor (lines 19-75).  Both master stacks are registered with
    one linear iteration; the correlation stacks carry
    [latticeSizeBasis * latticeSizeExtended] values per iteration. *)
Definition construct (outfile : string) (junkXX junkYY junkZZ junkDD : nat -> float)
    : XYZMeasurementCorrelation :=
  let latticeSizeExtended := length (getRangeOfBasis lattice 0) in
  let latticeSizeBasis := length (_basis lattice) in
  {| outfile := outfile;
     _currentCutoff := (- Float.one)%F;
     _memoryStepLattice := latticeSizeBasis * latticeSizeExtended;
     _correlationsXX := newFloatArray junkXX (latticeSizeBasis * latticeSizeExtended);
     _correlationsYY := newFloatArray junkYY (latticeSizeBasis * latticeSizeExtended);
     _correlationsZZ := newFloatArray junkZZ (latticeSizeBasis * latticeSizeExtended);
     _correlationsDD := newFloatArray junkDD (latticeSizeBasis * latticeSizeExtended) |}.

(** The body of the inner loop (lines 190-209) for the pair [(i, j)]. *)
Definition storePair (susceptibility : ValueSuperbundle.t) (i j : LatticeIterator)
    (offset : nat) (m : XYZMeasurementCorrelation) : option XYZMeasurementCorrelation :=
  let sign := Float.one in
  let '(rid, component, sign) := symmetryTransform lattice i j SpinComponent.X sign in
  vxx ← ValueSuperbundle.bundle susceptibility component !! rid;
  xx ← store offset vxx (_correlationsXX m);
  let '(rid, component, sign) := symmetryTransform lattice i j SpinComponent.Y sign in
  vyy ← ValueSuperbundle.bundle susceptibility component !! rid;
  yy ← store offset vyy (_correlationsYY m);
  let '(rid, component, sign) := symmetryTransform lattice i j SpinComponent.Z sign in
  vzz ← ValueSuperbundle.bundle susceptibility component !! rid;
  zz ← store offset vzz (_correlationsZZ m);
  let '(rid, component, sign) := symmetryTransform lattice i j SpinComponent.None sign in
  vdd ← ValueSuperbundle.bundle susceptibility component !! rid;
  dd ← store offset vdd (_correlationsDD m);
  Some (set_correlations xx yy zz dd m).

(** The loop over [j] (line 188), returning the advanced [offset]. *)
Fixpoint storeRange (susceptibility : ValueSuperbundle.t) (i : LatticeIterator)
    (js : list LatticeIterator) (offset : nat) (m : XYZMeasurementCorrelation)
    : option (nat * XYZMeasurementCorrelation) :=
  match js with
  | [] => Some (offset, m)
  | j :: js =>
      m ← storePair susceptibility i j offset m;
      storeRange susceptibility i js (S offset) m
  end.

(** The loop over [i] (line 186). *)
Fixpoint storeBasis (susceptibility : ValueSuperbundle.t) (bs : list LatticeIterator)
    (offset : nat) (m : XYZMeasurementCorrelation)
    : option (nat * XYZMeasurementCorrelation) :=
  match bs with
  | [] => Some (offset, m)
  | i :: bs =>
      '(offset, m) ← storeRange susceptibility i (getRange lattice i) offset m;
      storeBasis susceptibility bs offset m
  end.

(** [_calculateCorrelation(iterator)], reading the flowing functional [flow]. *)
Definition _calculateCorrelation (flow : EffectiveAction) (iterator : nat)
    (m : XYZMeasurementCorrelation) : option XYZMeasurementCorrelation :=
  let nu := Float.zero in
  let cut := cutoff flow in
  let v2 := vertexSingleParticle flow in
  let v4 := vertexTwoParticle flow in
  let susceptibility := susceptibility lattice frequency integrator v2 v4 nu cut in
  let offset := iterator * _memoryStepLattice m in
  snd <$> storeBasis susceptibility (_basis lattice) offset m.

(** The site pairs in the order of the two loops. *)
Definition pairsOf (bs : list LatticeIterator) : list (LatticeIterator * LatticeIterator) :=
  i ← bs; (fun j => (i, j)) <$> getRange lattice i.

Definition sitePairs : list (LatticeIterator * LatticeIterator) :=
  pairsOf (_basis lattice).

(** The two loops as one loop over the site pairs. *)
Fixpoint storePairs (susceptibility : ValueSuperbundle.t)
    (pairs : list (LatticeIterator * LatticeIterator)) (offset : nat)
    (m : XYZMeasurementCorrelation) : option (nat * XYZMeasurementCorrelation) :=
  match pairs with
  | [] => Some (offset, m)
  | (i, j) :: pairs =>
      m ← storePair susceptibility i j offset m;
      storePairs susceptibility pairs (S offset) m
  end.

End Correlation.


(** ** The observable file, the log and the load manager *)

(** A dataset: its dataspace and the floats written to it. *)
Record Dataset := { shape : list nat; contents : list float }.

(** The group [meta] of an observable group. *)
Record MetaGroup := { latticeVectors : Dataset; basis : Dataset; sites : Dataset }.

(** What a link of a group leads to: a group, or an object of another type,
    which [H5Lexists] finds and [H5Gopen] does not open. *)
Inductive Link (A : Type) :=
| Group (a : A)
| NotAGroup.
Arguments Group {A} a.
Arguments NotAGroup {A}.

(** An object of the group [data]: a measurement group with its attribute
    [cutoff] and its dataset [data] (object type [H5G_GROUP]), or an object of
    another type.  The groups of a data collection are taken to carry the
    attribute, as every group made by [_writeOutfileCorrelation] does. *)
Inductive DataObject :=
| MeasurementGroup (cutoffAttribute : float) (data : Dataset)
| OtherObject.

(** The objects of a group [data], by their names. *)
Abbreviation DataCollection := (gmap string DataObject).

Record ObservableGroup := {
  meta : option (Link MetaGroup);
  data : option (Link DataCollection)
}.

(** What is found at the path [outfile()]. *)
Inductive File :=
| NoFile
| ForeignFile
| Hdf5File (root : gmap string (Link ObservableGroup)).

Inductive LogLine :=
| WarningMetaExists (file group : string)
| WarningDuplicate (cutoff : float).

Inductive Exception :=
| IOError (message : string).

(** The state outside the measurement object: the file, whether the path can
    be opened or created for writing, the log, the number of calls of
    [LoadManager::calculate], the flowing functional of the core, and what
    the floats of a fresh [new float[n]] hold before they are written. *)
Record World := {
  disk : File;
  accessible : bool;
  log : list LogLine;
  calculateCalls : nat;
  flowingFunctional : EffectiveAction;
  uninitialised : nat -> float
}.

Definition with_disk (d : File) (w : World) : World :=
  {| disk := d; accessible := accessible w; log := log w;
     calculateCalls := calculateCalls w; flowingFunctional := flowingFunctional w;
     uninitialised := uninitialised w |}.
Definition with_log (l : list LogLine) (w : World) : World :=
  {| disk := disk w; accessible := accessible w; log := l;
     calculateCalls := calculateCalls w; flowingFunctional := flowingFunctional w;
     uninitialised := uninitialised w |}.
Definition with_calculateCalls (n : nat) (w : World) : World :=
  {| disk := disk w; accessible := accessible w; log := log w;
     calculateCalls := n; flowingFunctional := flowingFunctional w;
     uninitialised := uninitialised w |}.
Definition with_flowingFunctional (f : EffectiveAction) (w : World) : World :=
  {| disk := disk w; accessible := accessible w; log := log w;
     calculateCalls := calculateCalls w; flowingFunctional := f;
     uninitialised := uninitialised w |}.

(** A member function either returns, throws, or runs into undefined
    behaviour; what it did to the world before throwing stays done. *)
Inductive Outcome (A : Type) :=
| Returns (a : A) (w : World)
| Throws (e : Exception) (w : World)
| Undefined.
Arguments Returns {A} a w.
Arguments Throws {A} e w.
Arguments Undefined {A}.

Definition Action (A : Type) : Type := World -> Outcome A.

#[global] Instance Action_ret : MRet Action := fun A a w => Returns a w.
#[global] Instance Action_bind : MBind Action := fun A B f act w =>
  match act w with
  | Returns a w' => f a w'
  | Throws e w' => Throws e w'
  | Undefined => Undefined
  end.

Definition warn (l : LogLine) : Action unit := fun w => Returns () (with_log (log w ++ [l]) w).

(** The world an outcome leaves behind, if any. *)
Definition finalWorld {A} (o : Outcome A) : option World :=
  match o with
  | Returns _ w | Throws _ w => Some w
  | Undefined => None
  end.

(** *** The HDF5 calls used by the source

    A negative identifier is [None].  Identifiers stay valid across the calls
    of one function, so each call below looks the object up again. *)

(** [H5Fis_hdf5(outfile) > 0] *)
Definition H5Fis_hdf5 (w : World) : bool :=
  match disk w with Hdf5File _ => true | _ => false end.

(** [H5Fopen(outfile, H5F_ACC_RDWR)] *)
Definition H5Fopen (w : World) : option (gmap string (Link ObservableGroup)) :=
  match disk w with
  | Hdf5File root => if accessible w then Some root else None
  | _ => None
  end.

(** [H5Fcreate(outfile, H5F_ACC_TRUNC)]: an existing file is truncated. *)
Definition H5Fcreate (w : World) : option (gmap string (Link ObservableGroup) * World) :=
  if accessible w then Some (∅, with_disk (Hdf5File ∅) w) else None.

(** [H5Gopen(loc, name)], from what the link [name] of [loc] leads to: the
    call fails when there is no link, or no group behind it. *)
Definition H5Gopen {A : Type} (link : option (Link A)) : option A :=
  match link with
  | Some (Group a) => Some a
  | _ => None
  end.

Definition emptyGroup : ObservableGroup := {| meta := None; data := None |}.

(** The observable group [name] of the file, if the file has one. *)
Definition observableGroup (w : World) (name : string) : option ObservableGroup :=
  match disk w with
  | Hdf5File root => H5Gopen (root !! name)
  | _ => None
  end.

(** Replace the observable group [name] in the file. *)
Definition putGroup (name : string) (g : ObservableGroup) (w : World) : World :=
  match disk w with
  | Hdf5File root => with_disk (Hdf5File (<[name := Group g]> root)) w
  | _ => w
  end.

(** [H5Gcreate(file, name)]: fails when the link exists. *)
Definition H5Gcreate (w : World) (name : string) : option (ObservableGroup * World) :=
  match disk w with
  | Hdf5File root =>
      match root !! name with
      | None => Some (emptyGroup, putGroup name emptyGroup w)
      | Some _ => None
      end
  | _ => None
  end.

(** [H5Gget_num_objs] and [H5Gget_objname_by_idx]: the objects of a group are
    indexed in the order of their names, compared byte by byte. *)
Definition byName (a b : string * DataObject) : Prop := String.leb a.1 b.1 = true.

#[global] Instance byName_dec (a b : string * DataObject) : Decision (byName a b).
Proof. unfold byName. apply _. Defined.

Definition objectsByIndex (objects : DataCollection) : list (string * DataObject) :=
  merge_sort byName (map_to_list objects).

(** [H5Dwrite(dataset, type, H5S_ALL, H5S_ALL, H5P_DEFAULT, buffer)] for a
    dataspace of [n] floats: the floats are read from the start of [buffer];
    reading beyond the buffer is undefined, which is [None]. *)
Definition readFloats (n : nat) (buffer : list float) : option (list float) :=
  if decide (n <= length buffer) then Some (take n buffer) else None.

(** The cutoffs of the measurement groups among some objects. *)
Fixpoint measurementCutoffs (objects : list (string * DataObject)) : list float :=
  match objects with
  | [] => []
  | (_, MeasurementGroup c _) :: objects => c :: measurementCutoffs objects
  | (_, OtherObject) :: objects => measurementCutoffs objects
  end.

(** The objects of the data collection of the observable group [name]; none
    when the file, the group or the collection is missing. *)
Definition objectsOf (w : World) (name : string) : DataCollection :=
  default ∅ (observableGroup w name ≫= fun g => H5Gopen (data g)).

(** The snapshots of the observable group [name], as stored cutoffs in the
    order of the index. *)
Definition snapshots (w : World) (name : string) : list float :=
  measurementCutoffs (objectsByIndex (objectsOf w name)).


(** ** Writing the observable file, and taking a measurement *)

Section Measurement.

Context (lattice : Lattice) (frequency : FrequencyDiscretization)
        (integrator : ImplicitIntegrator).

(** [float(p.x), float(p.y), float(p.z)] *)
Definition narrowPosition (p : Vec3) : list float :=
  [Float.narrow (x p); Float.narrow (y p); Float.narrow (z p)].

(** [buffer[3 * i] = float(p.x); buffer[3 * i + 1] = float(p.y);
    buffer[3 * i + 2] = float(p.z)] *)
Definition storePosition (i : nat) (p : Vec3) (buffer : list float) : option (list float) :=
  buffer ← store (3 * i) (Float.narrow (x p)) buffer;
  buffer ← store (3 * i + 1) (Float.narrow (y p)) buffer;
  store (3 * i + 2) (Float.narrow (z p)) buffer.

(** A loop that stores one position after the other, [i] counting them
    (the [i] of lines 237-244 and 256-263, the [j] of lines 282-292). *)
Fixpoint storePositions (ps : list Vec3) (i : nat) (buffer : list float)
    : option (list float) :=
  match ps with
  | [] => Some buffer
  | p :: ps =>
      buffer ← storePosition i p buffer;
      storePositions ps (S i) buffer
  end.

(** [inRangeCount]: the number of sites from [getRange(0)] to [end()]. *)
Definition inRangeCount : nat := length (getRangeOfBasis lattice 0).

(** The sites visited by the two loops of lines 283-292, in their order. *)
Definition rangeSites : list LatticeIterator :=
  b ← seq 0 (length (_basis lattice)); getRangeOfBasis lattice b.

(** "write lattice vectors" (lines 235-251): the buffer has room for three
    vectors; the dataspace has one element of three floats per vector. *)
Definition latticeVectorsDataset (junk : nat -> float) : option Dataset :=
  let latticeBuffer := newFloatArray junk (3 * 3) in
  latticeBuffer ← storePositions (_bravaisLattice lattice) 0 latticeBuffer;
  contents ← readFloats (3 * length (_bravaisLattice lattice)) latticeBuffer;
  Some {| shape := [length (_bravaisLattice lattice)]; contents := contents |}.

(** "write basis" (lines 253-271) *)
Definition basisDataset (junk : nat -> float) : option Dataset :=
  let basisBuffer := newFloatArray junk (3 * length (_basis lattice)) in
  basisBuffer ← storePositions (getSitePosition lattice <$> _basis lattice) 0 basisBuffer;
  contents ← readFloats (3 * length (_basis lattice)) basisBuffer;
  Some {| shape := [length (_basis lattice)]; contents := contents |}.

(** "write sites" (lines 273-297): the buffer has room for [inRangeCount]
    sites per basis site, and the loops store the sites in range of every
    basis site. *)
Definition sitesDataset (junk : nat -> float) : option Dataset :=
  let SitesReferenceBuffer :=
    newFloatArray junk (length (_basis lattice) * inRangeCount * 3) in
  SitesReferenceBuffer ←
    storePositions (getSitePosition lattice <$> rangeSites) 0 SitesReferenceBuffer;
  contents ← readFloats (3 * (length (_basis lattice) * inRangeCount)) SitesReferenceBuffer;
  Some {| shape := [length (_basis lattice); inRangeCount]; contents := contents |}.

(** The three datasets written below [meta] (lines 231-297); [None] when a
    loop stores beyond its buffer. *)
Definition metaGroup (junk : nat -> float) : option MetaGroup :=
  latticeVectors ← latticeVectorsDataset junk;
  basis ← basisDataset junk;
  sites ← sitesDataset junk;
  Some {| latticeVectors := latticeVectors; basis := basis; sites := sites |}.

Definition _writeOutfileHeader (m : XYZMeasurementCorrelation) (observableGroupName : string)
    : Action unit := fun w =>
  (* open file *)
  match H5Fopen w with
  | None =>
      Throws (IOError ("Could not open observable file [" +:+ outfile m +:+ "] for writing.")) w
  | Some file =>
      (* open group *)
      match H5Gopen (file !! observableGroupName) with
      | None =>
          Throws (IOError ("Could not open obsfile group [" +:+ observableGroupName
                           +:+ "] for writing. ")) w
      | Some group =>
          (* create meta group *)
          match meta group with
          | None =>
              match metaGroup (uninitialised w) with
              | Some mgroup =>
                  Returns () (putGroup observableGroupName
                                {| meta := Some (Group mgroup); data := data group |} w)
              | None => Undefined
              end
          | Some _ =>
              warn (WarningMetaExists (outfile m) observableGroupName) w
          end
      end
  end.

(** The loop of lines 337-360 over the objects of the data collection, in
    the order of their index: [None] when a measurement group with the
    current cutoff is found, otherwise the value of [datasetId] after the
    loop.  Names are taken whole (the name buffer of the source holds 31
    characters, more than the names made below), and [datasetId] is a
    natural number. *)
Fixpoint scanDatasets (objects : list (string * DataObject)) (currentCutoff : float)
    (datasetId : nat) : option nat :=
  match objects with
  | [] => Some datasetId
  | (_, MeasurementGroup c _) :: objects =>
      if (c == currentCutoff)%F then None
      else scanDatasets objects currentCutoff (S datasetId)
  | (_, OtherObject) :: objects => scanDatasets objects currentCutoff datasetId
  end.

(** Lines 361-384: the new measurement group.  [H5Gcreate] fails when the
    name is taken, and the calls on the invalid identifier then fail in
    turn: nothing is written and the buffer is not read.  Otherwise
    [H5Dwrite] reads one float per cell of the dataspace from the buffer;
    [None] when the buffer is shorter. *)
Definition createMeasurement (objects : DataCollection) (datasetId : nat)
    (currentCutoff : float) (correlation : list float) : option DataCollection :=
  let datasetName := "measurement_" +:+ pretty datasetId in
  (* create new measurement group *)
  if decide (is_Some (objects !! datasetName)) then Some objects
  else
    (* write data *)
    contents ← readFloats (length (_basis lattice) * inRangeCount) correlation;
    Some (<[datasetName :=
              MeasurementGroup currentCutoff
                {| shape := [length (_basis lattice); inRangeCount];
                   contents := contents |}]> objects).

(** The blocks of [_writeOutfileCorrelation], in the order of the source. *)

(** "open or create file" (line 319) *)
Definition openOrCreateFile (w : World)
    : option (gmap string (Link ObservableGroup) * World) :=
  if H5Fis_hdf5 w then (fun file => (file, w)) <$> H5Fopen w else H5Fcreate w.

(** "open or create group" (line 323) *)
Definition openOrCreateGroup (file : gmap string (Link ObservableGroup)) (name : string)
    (w : World) : option (ObservableGroup * World) :=
  if decide (is_Some (file !! name))
  then (fun group => (group, w)) <$> H5Gopen (file !! name)
  else H5Gcreate w name.

(** "open or create data collection" (line 330) *)
Definition openOrCreateData (name : string) (group : ObservableGroup) (w : World)
    : option (DataCollection * World) :=
  if decide (is_Some (data group))
  then (fun objects => (objects, w)) <$> H5Gopen (data group)
  else Some (∅, putGroup name {| meta := meta group; data := Some (Group ∅) |} w).

Definition _writeOutfileCorrelation (m : XYZMeasurementCorrelation)
    (observableGroupName : string) (correlation : list float) : Action unit := fun w =>
  (* open or create file *)
  match openOrCreateFile w with
  | None =>
      Throws (IOError ("Could not open observable file [" +:+ outfile m +:+ "] for writing")) w
  | Some (file, w) =>
      (* open or create group *)
      match openOrCreateGroup file observableGroupName w with
      | None =>
          Throws (IOError ("Could not open obsfile group [" +:+ observableGroupName
                           +:+ "] for writing")) w
      | Some (group, w) =>
          (* ensure that meta information is included *)
          match (if decide (meta group = None)
                 then _writeOutfileHeader m observableGroupName w
                 else Returns () w) with
          | Throws e w => Throws e w
          | Undefined => Undefined
          | Returns _ w =>
              (* the identifier [group] now shows what the header wrote *)
              let group := default group (observableGroup w observableGroupName) in
              (* open or create data collection *)
              match openOrCreateData observableGroupName group w with
              | None =>
                  Throws (IOError ("Could not open obsfile group [" +:+ observableGroupName
                                   +:+ "/data] for writing")) w
              | Some (objects, w) =>
                  (* determine unique dataset name and check for duplicate dataset *)
                  match scanDatasets (objectsByIndex objects) (_currentCutoff m) 0 with
                  | None => warn (WarningDuplicate (_currentCutoff m)) w
                  | Some datasetId =>
                      (* create new measurement group, write data *)
                      match createMeasurement objects datasetId (_currentCutoff m)
                              correlation with
                      | Some objects =>
                          Returns () (putGroup observableGroupName
                                        {| meta := meta group;
                                           data := Some (Group objects) |} w)
                      | None => Undefined
                      end
                  end
              end
          end
      end
  end.

(** Modelled from the spec: [LoadManager::calculate] is not part of the
    sources.  It "triggers computation ... for the named units (invoking
    callbacks where present)": the explicit master stack stores the value of
    its callback, the cutoff of the flowing functional, in [_currentCutoff];
    the implicit master stack calls [_calculateCorrelation] for each of its
    linear iterations, which also fills the three slave stacks.  Each call of
    [calculate] is counted in the world. *)
Definition linearSize : nat := 1.

Fixpoint calculateStack (flow : EffectiveAction) (iterators : list nat)
    (m : XYZMeasurementCorrelation) : option XYZMeasurementCorrelation :=
  match iterators with
  | [] => Some m
  | it :: iterators =>
      m ← _calculateCorrelation lattice frequency integrator flow it m;
      calculateStack flow iterators m
  end.

Definition calculate (m : XYZMeasurementCorrelation) : Action XYZMeasurementCorrelation :=
  fun w =>
  let flow := flowingFunctional w in
  let w := with_calculateCalls (S (calculateCalls w)) w in
  (* stack0 *)
  let m := set_currentCutoff (cutoff flow) m in
  (* stack1, with the slave stacks 2 to 4 *)
  match calculateStack flow (seq 0 linearSize) m with
  | Some m => Returns m w
  | None => Undefined
  end.

Definition takeMeasurement (state : EffectiveAction) (isMasterTask : bool)
    (m : XYZMeasurementCorrelation) : Action XYZMeasurementCorrelation :=
  m ← (if (_currentCutoff m != cutoff state)%F then calculate m else mret m);
  if isMasterTask then
    _writeOutfileCorrelation m "XYZCorXX" (_correlationsXX m);;
    _writeOutfileCorrelation m "XYZCorYY" (_correlationsYY m);;
    _writeOutfileCorrelation m "XYZCorZZ" (_correlationsZZ m);;
    _writeOutfileCorrelation m "XYZCorDD" (_correlationsDD m);;
    mret m
  else mret m.

(** The flow driver: the core moves to the cutoff [c] and takes a
    measurement of its flowing functional; a flow visits a list of cutoffs. *)
Definition measureAt (isMasterTask : bool) (c : float) (m : XYZMeasurementCorrelation)
    : Action XYZMeasurementCorrelation := fun w =>
  let flow := {| cutoff := c;
                 vertexSingleParticle := vertexSingleParticle (flowingFunctional w);
                 vertexTwoParticle := vertexTwoParticle (flowingFunctional w) |} in
  takeMeasurement flow isMasterTask m (with_flowingFunctional flow w).

Fixpoint measureFlow (isMasterTask : bool) (cutoffs : list float)
    (m : XYZMeasurementCorrelation) : Action XYZMeasurementCorrelation :=
  match cutoffs with
  | [] => mret m
  | c :: cutoffs => m ← measureAt isMasterTask c m; measureFlow isMasterTask cutoffs m
  end.

End Measurement.


(** ** The statements of the specification, and the sub-intervals of the code *)

(** A call of the integrator: the sub-interval and which of its ends are
    breakpoints rather than points of the frequency grid. *)
Inductive SubInterval :=
| RightBoundary (lower : FrequencyIterator) (upper : float)
| Boundaries (lower upper : float)
| LeftBoundary (lower : float) (upper : FrequencyIterator).

Definition integrate (integrator : ImplicitIntegrator) (s : SubInterval)
    (kernel : float -> ValueSuperbundle.t) : ValueSuperbundle.t :=
  match s with
  | RightBoundary lower upper => integrateWithObscureRightBoundary integrator lower upper kernel
  | Boundaries lower upper => integrateWithObscureBoundaries integrator lower upper kernel
  | LeftBoundary lower upper => integrateWithObscureLeftBoundary integrator lower upper kernel
  end.

(** The sub-intervals [integrateDomain] integrates, in the order of its three
    guards. *)
Definition subIntervals (frequency : FrequencyDiscretization) (nu cut : float)
    : list SubInterval :=
  (if (- (nu + cut) > deref frequency (beginNegative frequency))%F
   then [RightBoundary (beginNegative frequency) (- cut - nu)%F] else [])
  ++ (if (nu - cut > cut)%F then [Boundaries (- nu + cut)%F (- cut)%F] else [])
  ++ (if (cut < deref frequency (last frequency))%F
      then [LeftBoundary cut (last frequency)] else []).

(** The breakpoints among the ends of a sub-interval. *)
Definition breakpoints (s : SubInterval) : list float :=
  match s with
  | RightBoundary _ upper => [upper]
  | Boundaries lower upper => [lower; upper]
  | LeftBoundary lower _ => [lower]
  end.

(** The values of [component] and [rid] with which the source reads the
    susceptibility for the channel [c] of the pair [(i, j)]: [sign] is
    declared once per pair and handed from each call of [symmetryTransform]
    to the next. *)
Definition signBefore (lattice : Lattice) (i j : LatticeIterator) (c : SpinComponent.t) : float :=
  let after c s := (symmetryTransform lattice i j c s).2 in
  let s0 := Float.one in
  match c with
  | SpinComponent.X => s0
  | SpinComponent.Y => after SpinComponent.X s0
  | SpinComponent.Z => after SpinComponent.Y (after SpinComponent.X s0)
  | SpinComponent.None =>
      after SpinComponent.Z (after SpinComponent.Y (after SpinComponent.X s0))
  end.

Definition representative (lattice : Lattice) (i j : LatticeIterator) (c : SpinComponent.t)
    : nat * SpinComponent.t :=
  (symmetryTransform lattice i j c (signBefore lattice i j c)).1.

(** The value the source stores for the channel [c] of the pair [(i, j)]. *)
Definition representativeValue (lattice : Lattice) (susceptibility : ValueSuperbundle.t)
    (i j : LatticeIterator) (c : SpinComponent.t) : option float :=
  let '(rid, component) := representative lattice i j c in
  ValueSuperbundle.bundle susceptibility component !! rid.

(** Two site pairs are related by a symmetry of the lattice, for the channel
    [c], when the symmetry map sends them to the same representative. *)
Definition symmetryRelated (lattice : Lattice) (c : SpinComponent.t)
    (p q : LatticeIterator * LatticeIterator) : Prop :=
  forall s s' : float,
    (symmetryTransform lattice p.1 p.2 c s).1 = (symmetryTransform lattice q.1 q.2 c s').1.

(** The observable group of each channel (lines 91-94). *)
Definition observableName (c : SpinComponent.t) : string :=
  match c with
  | SpinComponent.X => "XYZCorXX"
  | SpinComponent.Y => "XYZCorYY"
  | SpinComponent.Z => "XYZCorZZ"
  | SpinComponent.None => "XYZCorDD"
  end.

(** The root group of the file, empty when there is no HDF5 file. *)
Definition rootOf (w : World) : gmap string (Link ObservableGroup) :=
  match disk w with
  | Hdf5File root => root
  | _ => ∅
  end.

(** The errors of [_writeOutfileCorrelation] (lines 320, 324 and 331). *)
Definition fileError (m : XYZMeasurementCorrelation) : Exception :=
  IOError ("Could not open observable file [" +:+ outfile m +:+ "] for writing").

Definition groupError (g : string) : Exception :=
  IOError ("Could not open obsfile group [" +:+ g +:+ "] for writing").

Definition dataError (g : string) : Exception :=
  IOError ("Could not open obsfile group [" +:+ g +:+ "/data] for writing").

(** The name the source gives to a new measurement group when it has counted
    [k] groups. *)
Definition measurementName (k : nat) : string := "measurement_" +:+ pretty k.

(** The floats of some positions, three per position. *)
Definition positions (ps : list Vec3) : list float := ps ≫= narrowPosition.

(** The lattices for which the loops of [_writeOutfileHeader] stay inside
    their buffers: at most three lattice vectors, and no more sites in the
    ranges of the basis sites than [inRangeCount] per basis site. *)
Definition headerFits (lattice : Lattice) : Prop :=
  length (_bravaisLattice lattice) <= 3
  /\ length (rangeSites lattice) <= length (_basis lattice) * inRangeCount lattice.

(** A data collection as the source builds it from an empty one: its
    objects are measurement groups, and their names are the first names of
    the sequence [measurement_0], [measurement_1], ... *)
Definition wellNamed (objects : DataCollection) : Prop :=
  forall (name : string) (o : DataObject),
    objects !! name = Some o ->
    (exists (c : float) (d : Dataset), o = MeasurementGroup c d)
    /\ exists k : nat, k < base.size objects /\ name = measurementName k.

(** No two measurement groups store cutoffs that are equal by [==]. *)
Definition distinctCutoffs (objects : DataCollection) : Prop :=
  forall (n1 n2 : string) (c1 c2 : float) (d1 d2 : Dataset),
    n1 <> n2 ->
    objects !! n1 = Some (MeasurementGroup c1 d1) ->
    objects !! n2 = Some (MeasurementGroup c2 d2) ->
    (c1 == c2)%F = false.

(** The measurement group that [_writeOutfileCorrelation] creates: the
    attribute [cutoff] and the dataset [data], one float per basis site and
    site in range. *)
Definition newMeasurementGroup (lattice : Lattice) (cutoff : float) (contents : list float)
    : DataObject :=
  MeasurementGroup cutoff
    {| shape := [length (_basis lattice); inRangeCount lattice]; contents := contents |}.

(** The number of floats of the dataspace of a snapshot. *)
Definition dataspaceSize (lattice : Lattice) : nat :=
  length (_basis lattice) * inRangeCount lattice.

(** The four snapshot writes of the master task (lines 91-94). *)
Definition writeSnapshots (lattice : Lattice) (m : XYZMeasurementCorrelation)
    : Action XYZMeasurementCorrelation :=
  _writeOutfileCorrelation lattice m "XYZCorXX" (_correlationsXX m);;
  _writeOutfileCorrelation lattice m "XYZCorYY" (_correlationsYY m);;
  _writeOutfileCorrelation lattice m "XYZCorZZ" (_correlationsZZ m);;
  _writeOutfileCorrelation lattice m "XYZCorDD" (_correlationsDD m);;
  mret m.

(** A data collection in which a snapshot write at the cutoff [current]
    writes nothing: the scan finds the cutoff, or the name it makes is
    taken. *)
Definition settled (objects : DataCollection) (current : float) : Prop :=
  scanDatasets (objectsByIndex objects) current 0 = None
  \/ exists datasetId : nat,
       scanDatasets (objectsByIndex objects) current 0 = Some datasetId
       /\ is_Some (objects !! measurementName datasetId).

(** What the link [meta] of the observable group [name] leads to. *)
Definition metaOf (w : World) (name : string) : option (Link MetaGroup) :=
  observableGroup w name ≫= meta.

(** Neither the link of the observable group [name] nor its link [data]
    leads to an object that is no group. *)
Definition openable (w : World) (name : string) : Prop :=
  rootOf w !! name <> Some NotAGroup
  /\ (observableGroup w name ≫= data) <> Some NotAGroup.

(** Every group of the file that has a data collection has a [meta] link. *)
Definition stamped (w : World) : Prop :=
  forall (g : string) (group : ObservableGroup),
    rootOf w !! g = Some (Group group) -> is_Some (data group) -> is_Some (meta group).

(** *** Flows

    The cutoffs a flow visits, one per measurement.  [recomputations cache
    cutoffs] counts the measurements at which the cache differs from the
    cutoff of the step, the cache being set at each of them. *)
Fixpoint recomputations (cache : float) (cutoffs : list float) : nat :=
  match cutoffs with
  | [] => 0
  | c :: cutoffs =>
      if (cache != c)%F then S (recomputations c cutoffs)
      else recomputations cache cutoffs
  end.

(** The distinct values among some cutoffs, by [==]: the first occurrence of
    each. *)
Fixpoint distinctValues (cutoffs : list float) : list float :=
  match cutoffs with
  | [] => []
  | c :: cutoffs => c :: List.filter (fun c' => (c' != c)%F) (distinctValues cutoffs)
  end.

(** A flow whose cutoff decreases monotonically: every cutoff is a number,
    and at most every cutoff visited before it. *)
Fixpoint decreasing (cutoffs : list float) : bool :=
  match cutoffs with
  | [] => true
  | c :: cutoffs =>
      (c == c)%F && forallb (fun c' => (c' < c)%F || (c' == c)%F) cutoffs
      && decreasing cutoffs
  end.

Module Spec.

(** Section 4.2 of the specification, 2a: the bundled vertex is "subtracted
    from the result with per-channel weights (-1, -1, -1, -4) for (X, Y, Z,
    Density)". *)
Definition dumbbellWeight (c : SpinComponent.t) : float :=
  match c with
  | SpinComponent.None => Float.four
  | _ => Float.one
  end.

(** 2b: "X += 0.5(vx-vy-vz+vd), Y += 0.5(-vx+vy-vz+vd),
    Z += 0.5(-vx-vy+vz+vd), Density += 2(vx+vy+vz+vd)". *)
Definition eggMixing (c : SpinComponent.t) (vx vy vz vd : float) : float :=
  match c with
  | SpinComponent.X => Float.half * (vx - vy - vz + vd)
  | SpinComponent.Y => Float.half * (- vx + vy - vz + vd)
  | SpinComponent.Z => Float.half * (- vx - vy + vz + vd)
  | SpinComponent.None => Float.two * (vx + vy + vz + vd)
  end%F.

(** The local term has "component weights 1/(4 pi) for X, Y, Z and 1/pi for
    Density". *)
Definition localDivisor (c : SpinComponent.t) : float :=
  match c with
  | SpinComponent.None => Float.pi
  | _ => Float.four_pi
  end.

(** The entry [k] of the channel [c] of the inner integrand, from the entry
    [s] of the bundled vertex, the four pointwise values and the
    normalization: (a) at every separation, (b) at separation zero only. *)
Definition innerIntegrand (c : SpinComponent.t) (k : nat) (s vx vy vz vd normalization : float)
    : float :=
  let a := (Float.zero - dumbbellWeight c * s)%F in
  ((if decide (k = 0) then a + eggMixing c vx vy vz vd else a) * normalization)%F.

(** The entry [k] of the channel [c] of the local term. *)
Definition localTerm (c : SpinComponent.t) (k : nat) (term1 : float) : float :=
  if decide (k = 0) then (Float.zero + term1 / localDivisor c)%F else Float.zero.

(** Section 4.2, step 3 and "Failure semantics": the domain is split at
    [-cutoff-offsetFreq], [-cutoff] and [cutoff], and a sub-interval with a
    breakpoint outside the extreme bounds of the grid is skipped. *)
Definition splitAt (nu cut : float) : list float := [(- cut - nu)%F; (- cut)%F; cut].

Definition insideGrid (frequency : FrequencyDiscretization) (b : float) : Prop :=
  (b < deref frequency (beginNegative frequency))%F = false
  /\ (b > deref frequency (last frequency))%F = false.

Definition domainSplit (frequency : FrequencyDiscretization) (nu cut : float) : Prop :=
  forall s b, s ∈ subIntervals frequency nu cut -> b ∈ breakpoints s ->
    b ∈ splitAt nu cut /\ insideGrid frequency b.

(** Section 4.3: one call of the callback for the index [it] "mutates
    exactly the four flat buffers at index [it]". *)
Definition writesOnlyOffset (lattice : Lattice) (frequency : FrequencyDiscretization)
    (integrator : ImplicitIntegrator) (flow : EffectiveAction) : Prop :=
  forall (it : nat) (m m' : XYZMeasurementCorrelation),
    _calculateCorrelation lattice frequency integrator flow it m = Some m' ->
    forall (c : SpinComponent.t) (k : nat),
      k <> it -> correlations m' c !! k = correlations m c !! k.

End Spec.

(** ** A small lattice, grid and flow for examples *)

Module Example.

(** A chain with one basis site and the sites 0, +1 and -1 in its range; the
    reflection of the chain maps the pair (0, -1) to the pair (0, +1), so that
    the reduced storage has the two entries 0 and 1. *)
Definition chain : Lattice :=
  {| size := 2;
     zero := 0;
     _basis := [0];
     getRange := fun _ => [0; 1; 2];
     _bravaisLattice := [ {| x := Float.one; y := Float.zero; z := Float.zero |} ];
     getSitePosition := fun i =>
       {| x := match i with 0 => Float.zero | 1 => Float.one | _ => (- Float.one)%F end;
          y := Float.zero; z := Float.zero |};
     symmetryTransform := fun _ j c s => (match j with 2 => 1 | _ => j end, c, s) |}.

(** The grid -2, -1, 0, 1, 2. *)
Definition grid : FrequencyDiscretization :=
  {| beginNegative := 0;
     last := 4;
     deref := fun it => Float.of_Z (Z.of_nat it - 2) |}.

(** A two-point trapezoid rule between the ends of the sub-interval, in the
    place of the integrator of the repository. *)
Definition trapezoid (lower upper : float)
    (kernel : float -> ValueSuperbundle.t) : ValueSuperbundle.t :=
  ValueSuperbundle.scale (ValueSuperbundle.plus (kernel lower) (kernel upper))
    (Float.half * (upper - lower))%F.

Definition integrator : ImplicitIntegrator :=
  {| integrateWithObscureRightBoundary := fun lower upper =>
       trapezoid (deref grid lower) upper;
     integrateWithObscureBoundaries := trapezoid;
     integrateWithObscureLeftBoundary := fun lower upper =>
       trapezoid lower (deref grid upper) |}.

(** Constant vertices: a vanishing self-energy, and a two-particle vertex
    with the value [v] in every channel and at every separation. *)
Definition selfEnergy : XYZVertexSingleParticle := {| getValue2 := fun _ => Float.zero |}.

Definition vertex (v : float) : XYZVertexTwoParticle :=
  {| getValueSuperbundle := fun _ =>
       let b := replicate (size chain) v in ValueSuperbundle.mk b b b b;
     getValue4 := fun _ _ _ _ _ _ _ => v |}.

Definition flow (c v : float) : EffectiveAction :=
  {| cutoff := c; vertexSingleParticle := selfEnergy; vertexTwoParticle := vertex v |}.

Definition measurement : XYZMeasurementCorrelation :=
  construct chain "obs.h5" (fun _ => Float.of_Z 9) (fun _ => Float.of_Z 9)
            (fun _ => Float.of_Z 9) (fun _ => Float.of_Z 9).

Definition world (d : File) (c : float) : World :=
  {| disk := d; accessible := true; log := []; calculateCalls := 0;
     flowingFunctional := flow c Float.zero;
     uninitialised := fun _ => Float.of_Z 7 |}.

(** The [meta] group that [_writeOutfileHeader] writes for the chain. *)
Definition geometry : MetaGroup :=
  {| latticeVectors :=
       {| shape := [1]; contents := [Float.one; Float.zero; Float.zero] |};
     basis :=
       {| shape := [1]; contents := [Float.zero; Float.zero; Float.zero] |};
     sites :=
       {| shape := [1; 3];
          contents := [Float.zero; Float.zero; Float.zero;
                       Float.one; Float.zero; Float.zero;
                       (- Float.one)%F; Float.zero; Float.zero] |} |}.

(** A file whose density group holds the given objects, with its [meta]
    group. *)
Definition holding (objects : DataCollection) : World :=
  world (Hdf5File {[ "XYZCorDD" := Group {| meta := Some (Group geometry);
                                            data := Some (Group objects) |} ]})
        Float.one.

Definition snapshot (c : float) : DataObject :=
  MeasurementGroup c {| shape := [1; 3]; contents := replicate 3 c |}.

(** A file that holds one snapshot of the density channel, at the cutoff 1. *)
Definition stored : World := holding {[ "measurement_0" := snapshot Float.one ]}.

(** A buffer of the size of the dataspace of the chain. *)
Definition buffer : list float := [Float.two; Float.two; Float.two].

(** A lattice with two basis sites, one site in the range of the first and
    three in the range of the second. *)
Definition uneven : Lattice :=
  {| size := 4;
     zero := 0;
     _basis := [0; 5];
     getRange := fun i => match i with 0 => [0] | _ => [5; 6; 7] end;
     _bravaisLattice := [ {| x := Float.one; y := Float.zero; z := Float.zero |} ];
     getSitePosition := fun _ => {| x := Float.zero; y := Float.zero; z := Float.zero |};
     symmetryTransform := fun _ j c s => (0, c, s) |}.

End Example.




(** * Properties *)

(** ** Value bundles *)

Lemma zeros_lookup (n k : nat) :
  k < n -> ValueBundle.zeros n !! k = Some Float.zero.
Proof. intros Hk. unfold ValueBundle.zeros. by apply lookup_replicate_2. Qed.

Lemma multSub_zeros_lookup (n k : nat) (factor s : float) (rhs : ValueBundle.t) :
  k < n -> rhs !! k = Some s ->
  ValueBundle.multSub factor (ValueBundle.zeros n) rhs !! k
  = Some (Float.zero - factor * s)%F.
Proof.
  intros Hk Hs. unfold ValueBundle.multSub.
  rewrite lookup_zip_with, (zeros_lookup n k Hk), Hs. reflexivity.
Qed.

Lemma addAt_lookup (i k : nat) (v : float) (b : ValueBundle.t) :
  ValueBundle.addAt i v b !! k
  = (fun a => if decide (k = i) then (a + v)%F else a) <$> b !! k.
Proof.
  unfold ValueBundle.addAt. rewrite list_lookup_alter.
  destruct (decide (i = k)) as [->|Hne].
  - destruct (b !! k); simpl; [|done]. by rewrite decide_True.
  - destruct (b !! k); simpl; [|done]. rewrite decide_False; [done|congruence].
Qed.

Lemma scale_lookup (k : nat) (factor : float) (b : ValueBundle.t) :
  ValueBundle.scale b factor !! k = (fun a => a * factor)%F <$> b !! k.
Proof. unfold ValueBundle.scale. apply list_lookup_fmap. Qed.

(** ** The integrands *)

Section KernelFacts.

Context (lattice : Lattice) (frequency : FrequencyDiscretization)
        (integrator : ImplicitIntegrator).
Context (v2 : XYZVertexSingleParticle) (v4 : XYZVertexTwoParticle).
Context (nu cut : float).

(** Channel by channel, [innerKernel] is one subtraction, one addition at the
    entry 0 and one scaling of a cleared bundle. *)
Lemma innerKernel_bundle (w wp : float) (c : SpinComponent.t) :
  ValueSuperbundle.bundle (innerKernel lattice v2 v4 nu w wp) c
  = ValueBundle.scale
      (ValueBundle.addAt 0
         (Spec.eggMixing c (pointwise lattice v4 nu w wp SpinComponent.X)
            (pointwise lattice v4 nu w wp SpinComponent.Y)
            (pointwise lattice v4 nu w wp SpinComponent.Z)
            (pointwise lattice v4 nu w wp SpinComponent.None))
         (ValueBundle.multSub (Spec.dumbbellWeight c)
            (ValueBundle.zeros (size lattice))
            (ValueSuperbundle.bundle
               (getValueSuperbundle v4
                  (generateAccessBuffer (w + wp + nu) nu (w - wp))%F) c)))
      (normalization v2 nu w wp).
Proof. destruct c; reflexivity. Qed.

Lemma localBuffer_bundle (w : float) (c : SpinComponent.t) :
  ValueSuperbundle.bundle (localBuffer lattice v2 nu w) c
  = ValueBundle.addAt 0 (term1 v2 nu w / Spec.localDivisor c)%F
      (ValueBundle.zeros (size lattice)).
Proof. destruct c; reflexivity. Qed.

Lemma innerKernel_entry (w wp : float) (c : SpinComponent.t) (k : nat) (s : float) :
  k < size lattice ->
  ValueSuperbundle.bundle
    (getValueSuperbundle v4 (generateAccessBuffer (w + wp + nu) nu (w - wp))%F) c !! k
  = Some s ->
  ValueSuperbundle.bundle (innerKernel lattice v2 v4 nu w wp) c !! k
  = Some (Spec.innerIntegrand c k s
            (pointwise lattice v4 nu w wp SpinComponent.X)
            (pointwise lattice v4 nu w wp SpinComponent.Y)
            (pointwise lattice v4 nu w wp SpinComponent.Z)
            (pointwise lattice v4 nu w wp SpinComponent.None)
            (normalization v2 nu w wp)).
Proof.
  intros Hk Hs.
  rewrite innerKernel_bundle, scale_lookup, addAt_lookup.
  rewrite (multSub_zeros_lookup _ _ _ s _ Hk Hs). simpl.
  unfold Spec.innerIntegrand. by destruct (decide (k = 0)).
Qed.

Lemma localBuffer_entry (w : float) (c : SpinComponent.t) (k : nat) :
  k < size lattice ->
  ValueSuperbundle.bundle (localBuffer lattice v2 nu w) c !! k
  = Some (Spec.localTerm c k (term1 v2 nu w)).
Proof.
  intros Hk. rewrite localBuffer_bundle, addAt_lookup, (zeros_lookup _ _ Hk). simpl.
  unfold Spec.localTerm. by destruct (decide (k = 0)).
Qed.

End KernelFacts.

(** C1.  For every frequency [w] and inner frequency [wp], every channel [c]
    and every separation [k] of the lattice: the entry of the inner integrand
    is the entry [s] of the bundled vertex at [(w+wp+nu, nu, w-wp)],
    subtracted with the weight 1 (X, Y, Z) or 4 (density) from zero, plus, at
    the separation 0 only, the mixing 0.5(vx-vy-vz+vd), 0.5(-vx+vy-vz+vd),
    0.5(-vx-vy+vz+vd) or 2(vx+vy+vz+vd) of the four pointwise values, the
    whole times the normalization; and the outer integrand is the inner
    integration added to a buffer that holds the local term
    [1/((w+Sigma(w))(w+nu+Sigma(w+nu)))], divided by [4 pi] (X, Y, Z) or by
    [pi] (density), at the separation 0 and zero elsewhere. *)
Theorem integrand_formula
    (lattice : Lattice) (frequency : FrequencyDiscretization)
    (integrator : ImplicitIntegrator)
    (v2 : XYZVertexSingleParticle) (v4 : XYZVertexTwoParticle)
    (nu cut w wp : float) (c : SpinComponent.t) (k : nat) (s : float) :
  k < size lattice ->
  ValueSuperbundle.bundle
    (getValueSuperbundle v4 (generateAccessBuffer (w + wp + nu) nu (w - wp))%F) c !! k
  = Some s ->
  ValueSuperbundle.bundle (innerKernel lattice v2 v4 nu w wp) c !! k
  = Some (Spec.innerIntegrand c k s
            (getValue4 v4 (zero lattice) (zero lattice) (w + wp + nu) (w - wp) nu
                       SpinComponent.X FrequencyChannel.None)
            (getValue4 v4 (zero lattice) (zero lattice) (w + wp + nu) (w - wp) nu
                       SpinComponent.Y FrequencyChannel.None)
            (getValue4 v4 (zero lattice) (zero lattice) (w + wp + nu) (w - wp) nu
                       SpinComponent.Z FrequencyChannel.None)
            (getValue4 v4 (zero lattice) (zero lattice) (w + wp + nu) (w - wp) nu
                       SpinComponent.None FrequencyChannel.None)
            (Float.one
             / ((w + getValue2 v2 w) * (w + nu + getValue2 v2 (w + nu))
                * (wp + getValue2 v2 wp) * (wp + nu + getValue2 v2 (wp + nu))
                * Float.four_pi_pi)))%F
  /\ integralKernel lattice frequency integrator v2 v4 nu cut w
     = integrateDomain frequency integrator nu cut (innerKernel lattice v2 v4 nu w)
         (localBuffer lattice v2 nu w)
  /\ ValueSuperbundle.bundle (localBuffer lattice v2 nu w) c !! k
     = Some (Spec.localTerm c k
               (Float.one / ((w + getValue2 v2 w) * (w + nu + getValue2 v2 (w + nu)))))%F.
Proof.
  intros Hk Hs. split; [|split].
  - exact (innerKernel_entry lattice v2 v4 nu w wp c k s Hk Hs).
  - reflexivity.
  - exact (localBuffer_entry lattice v2 nu w c k Hk).
Qed.

Lemma integrand_formula_witness :
  ValueSuperbundle.bundle
    (innerKernel Example.chain Example.selfEnergy (Example.vertex Float.one)
       Float.zero Float.one Float.two) SpinComponent.None !! 0
  = Some (S754_finite false 13599099 (-29)).
Proof.
  pose proof (integrand_formula Example.chain Example.grid Example.integrator
                Example.selfEnergy (Example.vertex Float.one)
                Float.zero Float.one Float.one Float.two SpinComponent.None 0 Float.one) as H.
  destruct H as [H _]; [simpl; lia | reflexivity |].
  rewrite H. vm_compute. reflexivity.
Defined.

(** ** The split of the frequency domain *)

Lemma integrateDomain_fold
    (frequency : FrequencyDiscretization) (integrator : ImplicitIntegrator)
    (nu cut : float) (kernel : float -> ValueSuperbundle.t) (acc : ValueSuperbundle.t) :
  integrateDomain frequency integrator nu cut kernel acc
  = foldl (fun acc s => ValueSuperbundle.plus acc (integrate integrator s kernel))
      acc (subIntervals frequency nu cut).
Proof.
  unfold integrateDomain, subIntervals.
  destruct (- (nu + cut) > deref frequency (beginNegative frequency))%F;
    destruct (nu - cut > cut)%F;
    destruct (cut < deref frequency (last frequency))%F; reflexivity.
Qed.

Lemma subIntervals_elem
    (frequency : FrequencyDiscretization) (nu cut : float) (s : SubInterval) :
  s ∈ subIntervals frequency nu cut <->
    (s = RightBoundary (beginNegative frequency) (- cut - nu)%F
       /\ (- (nu + cut) > deref frequency (beginNegative frequency))%F = true)
    \/ (s = Boundaries (- nu + cut)%F (- cut)%F /\ (nu - cut > cut)%F = true)
    \/ (s = LeftBoundary cut (last frequency)
       /\ (cut < deref frequency (last frequency))%F = true).
Proof.
  unfold subIntervals.
  destruct (- (nu + cut) > deref frequency (beginNegative frequency))%F;
    destruct (nu - cut > cut)%F;
    destruct (cut < deref frequency (last frequency))%F;
    simpl; rewrite ?elem_of_cons, ?elem_of_nil; intuition congruence.
Qed.

(** C2, as the code has it.  For every cutoff [cut] and offset frequency
    [nu], the outer integral (of [integralKernel], into a cleared buffer) and
    the inner integral (of [innerKernel w], into the buffer of the local
    term) are the sums, in this order, of the integrals over up to three
    sub-intervals: from the first point of the grid to [-cut-nu], integrated
    exactly when [-(nu+cut)] lies above the first point of the grid; from
    [-nu+cut] to [-cut], integrated exactly when [nu-cut > cut], whatever the
    bounds of the grid; and from [cut] to the last point of the grid,
    integrated exactly when [cut] lies below it.  A sub-interval whose guard
    fails adds nothing, and no case is an error. *)
Theorem integrateDomain_subIntervals
    (lattice : Lattice) (frequency : FrequencyDiscretization)
    (integrator : ImplicitIntegrator)
    (v2 : XYZVertexSingleParticle) (v4 : XYZVertexTwoParticle) (nu cut : float) :
  susceptibility lattice frequency integrator v2 v4 nu cut
  = foldl (fun acc s =>
             ValueSuperbundle.plus acc
               (integrate integrator s (integralKernel lattice frequency integrator v2 v4 nu cut)))
      (ValueSuperbundle.create (size lattice)) (subIntervals frequency nu cut)
  /\ (forall w : float,
        integralKernel lattice frequency integrator v2 v4 nu cut w
        = foldl (fun acc s =>
                   ValueSuperbundle.plus acc
                     (integrate integrator s (innerKernel lattice v2 v4 nu w)))
            (localBuffer lattice v2 nu w) (subIntervals frequency nu cut))
  /\ length (subIntervals frequency nu cut) <= 3
  /\ (forall s : SubInterval,
        s ∈ subIntervals frequency nu cut <->
          (s = RightBoundary (beginNegative frequency) (- cut - nu)%F
             /\ (- (nu + cut) > deref frequency (beginNegative frequency))%F = true)
          \/ (s = Boundaries (- nu + cut)%F (- cut)%F /\ (nu - cut > cut)%F = true)
          \/ (s = LeftBoundary cut (last frequency)
             /\ (cut < deref frequency (last frequency))%F = true)).
Proof.
  split; [|split; [|split]].
  - apply integrateDomain_fold.
  - intros w. apply integrateDomain_fold.
  - unfold subIntervals.
    destruct (- (nu + cut) > deref frequency (beginNegative frequency))%F;
      destruct (nu - cut > cut)%F;
      destruct (cut < deref frequency (last frequency))%F; simpl; lia.
  - apply subIntervals_elem.
Qed.

(** At the cutoff 1 on the grid from -2 to 2 the two sub-intervals that are
    integrated, up to -1 and from 1, have their breakpoints among the three of
    the specification and inside the grid. *)
Lemma domainSplit_ordinary :
  Spec.domainSplit Example.grid Float.zero Float.one.
Proof.
  intros s b Hs Hb. apply subIntervals_elem in Hs.
  destruct Hs as [[-> _]|[[-> H]|[-> _]]]; [| by vm_compute in H |];
    apply list_elem_of_singleton in Hb as ->; (split; [|by vm_compute]);
    vm_compute.
  - apply list_elem_of_here.
  - do 2 apply list_elem_of_further. apply list_elem_of_here.
Qed.

(** C2, as the specification has it, fails for the cutoff -3 on the grid
    from -2 to 2 (and the offset frequency 0 of the source): the first guard,
    [3 > -2], holds, and the sub-interval from the first point of the grid to
    the breakpoint 3, which lies above the last point of the grid, is
    integrated. *)
Lemma domainSplit_counterexample :
  ~ Spec.domainSplit Example.grid Float.zero (Float.of_Z (-3)).
Proof.
  intros H.
  destruct (H (RightBoundary 0 (Float.of_Z 3)) (Float.of_Z 3)) as [_ [_ Hgt]].
  - vm_compute. apply list_elem_of_here.
  - simpl. apply list_elem_of_here.
  - vm_compute in Hgt. discriminate Hgt.
Qed.

(** ** The write-back loop *)

Lemma store_Some (offset : nat) (v : float) (buffer buffer' : list float) :
  store offset v buffer = Some buffer' ->
  offset < length buffer /\ buffer' = <[offset := v]> buffer.
Proof.
  unfold store. destruct (decide (offset < length buffer)); [|done].
  intros [= <-]. done.
Qed.

Section WriteBack.

Context (lattice : Lattice) (susceptibility : ValueSuperbundle.t).

(** What one pass of the loop body does to the measurement. *)
Lemma storePair_stored (i j : LatticeIterator) (offset : nat)
    (m m' : XYZMeasurementCorrelation) :
  storePair lattice susceptibility i j offset m = Some m' ->
  outfile m' = outfile m /\ _currentCutoff m' = _currentCutoff m
  /\ _memoryStepLattice m' = _memoryStepLattice m
  /\ forall c : SpinComponent.t,
       exists v : float,
         representativeValue lattice susceptibility i j c = Some v
         /\ offset < length (correlations m c)
         /\ correlations m' c = <[offset := v]> (correlations m c).
Proof.
  unfold storePair, representativeValue, representative, signBefore.
  destruct (symmetryTransform lattice i j SpinComponent.X Float.one)
    as [[r1 c1] s1] eqn:E1.
  destruct (symmetryTransform lattice i j SpinComponent.Y s1) as [[r2 c2] s2] eqn:E2.
  destruct (symmetryTransform lattice i j SpinComponent.Z s2) as [[r3 c3] s3] eqn:E3.
  destruct (symmetryTransform lattice i j SpinComponent.None s3) as [[r4 c4] s4] eqn:E4.
  intros H. simplify_option_eq.
  repeat match goal with
         | H : store _ _ _ = Some _ |- _ => apply store_Some in H; destruct H as [? ->]
         end.
  do 3 (split; [done|]).
  intros []; simpl; repeat (progress (rewrite ?E1, ?E2, ?E3, ?E4; simpl)); eauto.
Qed.

(** The frame of a run of the loop over [pairs] that starts at [offset]: the
    entries of the block are the representative values, in the order of the
    pairs, and the entries outside the block are untouched. *)
Lemma storePairs_block (pairs : list (LatticeIterator * LatticeIterator)) :
  forall (offset offset' : nat) (m m' : XYZMeasurementCorrelation),
    storePairs lattice susceptibility pairs offset m = Some (offset', m') ->
    offset' = offset + length pairs
    /\ outfile m' = outfile m /\ _currentCutoff m' = _currentCutoff m
    /\ _memoryStepLattice m' = _memoryStepLattice m
    /\ forall c : SpinComponent.t,
         length (correlations m' c) = length (correlations m c)
         /\ (pairs <> [] -> offset + length pairs <= length (correlations m c))
         /\ (forall k, k < offset \/ offset + length pairs <= k ->
               correlations m' c !! k = correlations m c !! k)
         /\ (forall n i j, pairs !! n = Some (i, j) ->
               is_Some (correlations m' c !! (offset + n))
               /\ correlations m' c !! (offset + n)
                  = representativeValue lattice susceptibility i j c).
Proof.
  induction pairs as [|[i j] pairs IH]; intros offset offset' m m' H; simpl in H.
  - injection H as <- <-. simpl. split; [lia|]. do 3 (split; [done|]).
    intros c. split; [done|]. split; [done|]. split; [done|].
    intros n i j Hn. by rewrite lookup_nil in Hn.
  - destruct (storePair lattice susceptibility i j offset m) as [m1|] eqn:E; [|done].
    simpl in H. apply storePair_stored in E. destruct E as (Ho & Hc & Hs & Hb).
    apply IH in H. destruct H as (-> & Ho' & Hc' & Hs' & Hb').
    simpl. split; [lia|]. do 3 (split; [congruence|]).
    intros c. destruct (Hb c) as (v & Hv & Hlt & Heq).
    destruct (Hb' c) as (Hlen & Hle & Hout & Hin).
    rewrite Heq, length_insert in Hlen, Hle.
    split; [done|]. split; [|split].
    + intros _. destruct pairs; [simpl; lia|].
      specialize (Hle ltac:(done)). simpl in *. lia.
    + intros k Hk. rewrite Hout, Heq by lia. apply list_lookup_insert_ne. lia.
    + intros n i0 j0 Hn. destruct n as [|n]; simpl in Hn.
      * injection Hn as <- <-. rewrite Nat.add_0_r, Hout, Heq by lia.
        rewrite list_lookup_insert_eq, Hv by done. eauto.
      * replace (offset + S n) with (S offset + n) by lia.
        apply (Hin n i0 j0 Hn).
Qed.

(** The nested loops of the source are the loop over the site pairs. *)
Lemma storeRange_pairs (i : LatticeIterator) (js : list LatticeIterator) :
  forall (offset : nat) (m : XYZMeasurementCorrelation),
    storeRange lattice susceptibility i js offset m
    = storePairs lattice susceptibility ((fun j => (i, j)) <$> js) offset m.
Proof.
  induction js as [|j js IH]; intros offset m; simpl; [done|].
  destruct (storePair lattice susceptibility i j offset m); simpl; [apply IH|done].
Qed.

Lemma storePairs_app (ps qs : list (LatticeIterator * LatticeIterator)) :
  forall (offset : nat) (m : XYZMeasurementCorrelation),
    storePairs lattice susceptibility (ps ++ qs) offset m
    = '(offset, m) ← storePairs lattice susceptibility ps offset m;
      storePairs lattice susceptibility qs offset m.
Proof.
  induction ps as [|[i j] ps IH]; intros offset m; simpl; [done|].
  destruct (storePair lattice susceptibility i j offset m); simpl; [apply IH|done].
Qed.

Lemma storeBasis_pairs (bs : list LatticeIterator) :
  forall (offset : nat) (m : XYZMeasurementCorrelation),
    storeBasis lattice susceptibility bs offset m
    = storePairs lattice susceptibility (pairsOf lattice bs) offset m.
Proof.
  induction bs as [|i bs IH]; intros offset m; simpl; [done|].
  unfold pairsOf. simpl. rewrite storePairs_app, storeRange_pairs.
  destruct (storePairs lattice susceptibility ((fun j => (i, j)) <$> getRange lattice i)
              offset m) as [[offset1 m1]|]; simpl; [apply IH|done].
Qed.

End WriteBack.

(** The frame of one call of [_calculateCorrelation]. *)
Lemma calculateCorrelation_frame
    (lattice : Lattice) (frequency : FrequencyDiscretization)
    (integrator : ImplicitIntegrator) (flow : EffectiveAction)
    (it : nat) (m m' : XYZMeasurementCorrelation) :
  _calculateCorrelation lattice frequency integrator flow it m = Some m' ->
  outfile m' = outfile m /\ _currentCutoff m' = _currentCutoff m
  /\ _memoryStepLattice m' = _memoryStepLattice m
  /\ forall c : SpinComponent.t,
       length (correlations m' c) = length (correlations m c)
       /\ (forall k : nat,
             k < it * _memoryStepLattice m
             \/ it * _memoryStepLattice m + length (sitePairs lattice) <= k ->
             correlations m' c !! k = correlations m c !! k)
       /\ (forall (n : nat) (i j : LatticeIterator),
             sitePairs lattice !! n = Some (i, j) ->
             is_Some (correlations m' c !! (it * _memoryStepLattice m + n))
             /\ correlations m' c !! (it * _memoryStepLattice m + n)
                = representativeValue lattice
                    (susceptibility lattice frequency integrator
                       (vertexSingleParticle flow) (vertexTwoParticle flow)
                       Float.zero (cutoff flow)) i j c).
Proof.
  unfold _calculateCorrelation. rewrite storeBasis_pairs. fold (sitePairs lattice).
  intros H.
  destruct (storePairs _ _ _ _ _) as [[offset' m1]|] eqn:E; [|done].
  simpl in H. injection H as ->.
  apply storePairs_block in E. destruct E as (_ & Ho & Hc & Hs & Hb).
  do 3 (split; [done|]).
  intros c. destruct (Hb c) as (Hlen & _ & Hout & Hin).
  split; [done|]. split; [exact Hout|exact Hin].
Qed.

(** C3, as the code has it.  One call of [_calculateCorrelation] for the
    linear iterator [it] runs over all site pairs: in each of the four flat
    buffers it writes the block that starts at [it * _memoryStepLattice] and
    has one entry per site pair, in the order of the two loops, each entry
    being the representative value of the susceptibility for that pair and
    channel; it changes no entry outside this block, no length and nothing
    else of the measurement.  The entries written do not depend on the
    contents of the buffers, and, when there are at most [_memoryStepLattice]
    site pairs, the blocks of two distinct iterators are disjoint, so that a
    call leaves the block of every other iterator as it was. *)
Theorem calculateCorrelation_block
    (lattice : Lattice) (frequency : FrequencyDiscretization)
    (integrator : ImplicitIntegrator) (flow : EffectiveAction)
    (it : nat) (m m' : XYZMeasurementCorrelation) :
  _calculateCorrelation lattice frequency integrator flow it m = Some m' ->
  outfile m' = outfile m /\ _currentCutoff m' = _currentCutoff m
  /\ _memoryStepLattice m' = _memoryStepLattice m
  /\ forall c : SpinComponent.t,
       length (correlations m' c) = length (correlations m c)
       /\ (forall k : nat,
             k < it * _memoryStepLattice m
             \/ it * _memoryStepLattice m + length (sitePairs lattice) <= k ->
             correlations m' c !! k = correlations m c !! k)
       /\ (forall (n : nat) (i j : LatticeIterator),
             sitePairs lattice !! n = Some (i, j) ->
             is_Some (correlations m' c !! (it * _memoryStepLattice m + n))
             /\ correlations m' c !! (it * _memoryStepLattice m + n)
                = representativeValue lattice
                    (susceptibility lattice frequency integrator
                       (vertexSingleParticle flow) (vertexTwoParticle flow)
                       Float.zero (cutoff flow)) i j c)
       /\ (forall it' n : nat,
             it' <> it ->
             length (sitePairs lattice) <= _memoryStepLattice m ->
             n < length (sitePairs lattice) ->
             correlations m' c !! (it' * _memoryStepLattice m + n)
             = correlations m c !! (it' * _memoryStepLattice m + n)).
Proof.
  intros H. apply calculateCorrelation_frame in H.
  destruct H as (Ho & Hc & Hs & Hb).
  do 3 (split; [done|]).
  intros c. destruct (Hb c) as (Hlen & Hout & Hin).
  split; [done|]. split; [exact Hout|]. split; [exact Hin|].
  intros it' n Hne Hle Hn. apply Hout.
  destruct (decide (it' < it)); [left|right]; nia.
Qed.

Lemma calculateCorrelation_block_witness :
  exists m' : XYZMeasurementCorrelation,
    _calculateCorrelation Example.chain Example.grid Example.integrator
      (Example.flow Float.one Float.one) 0 Example.measurement = Some m'
    /\ correlations m' SpinComponent.None !! 2
       = representativeValue Example.chain
           (susceptibility Example.chain Example.grid Example.integrator
              Example.selfEnergy (Example.vertex Float.one) Float.zero Float.one)
           0 2 SpinComponent.None
    /\ correlations m' SpinComponent.None !! 3
       = correlations Example.measurement SpinComponent.None !! 3.
Proof.
  eexists. split; [vm_compute; reflexivity|].
  match goal with
  | |- context [correlations ?m' _] =>
      destruct (calculateCorrelation_block Example.chain Example.grid Example.integrator
                  (Example.flow Float.one Float.one) 0 Example.measurement m')
        as (_ & _ & _ & H)
  end.
  - vm_compute. reflexivity.
  - destruct (H SpinComponent.None) as (_ & Hout & Hin & _). split.
    + apply (Hin 2 0 2). reflexivity.
    + apply (Hout 3). right. vm_compute. lia.
Defined.

(** C3, as the specification has it, fails on the chain with its three site
    pairs: at the cutoff 2 on the grid from -2 to 2 no sub-interval is
    integrated, and the call for the iterator 0 overwrites the entry 1 (and
    2) of each buffer, which held 9, with the susceptibility 0. *)
Lemma writesOnlyOffset_counterexample :
  ~ Spec.writesOnlyOffset Example.chain Example.grid Example.integrator
      (Example.flow (Float.of_Z 2) Float.zero).
Proof.
  intros H.
  assert (E : _calculateCorrelation Example.chain Example.grid Example.integrator
                (Example.flow (Float.of_Z 2) Float.zero) 0 Example.measurement
              = Some (set_correlations (replicate 3 Float.zero) (replicate 3 Float.zero)
                        (replicate 3 Float.zero) (replicate 3 Float.zero)
                        Example.measurement))
    by (vm_compute; reflexivity).
  specialize (H _ _ _ E SpinComponent.X 1 ltac:(lia)).
  vm_compute in H. discriminate H.
Qed.




(** ** The buffers of the header *)

Lemma length_newFloatArray (junk : nat -> float) (n : nat) :
  length (newFloatArray junk n) = n.
Proof. unfold newFloatArray. by rewrite length_fmap, length_seq. Qed.

Lemma take_newFloatArray (junk : nat -> float) (n : nat) :
  take n (newFloatArray junk n) = newFloatArray junk n.
Proof. apply take_ge. by rewrite length_newFloatArray. Qed.

Lemma store_app (done rest : list float) (k : nat) (v : float) :
  store (length done + k) v (done ++ rest)
  = if decide (k < length rest) then Some (done ++ <[k := v]> rest) else None.
Proof.
  unfold store. rewrite length_app.
  destruct (decide (k < length rest)) as [Hk|Hk].
  - rewrite decide_True by lia. f_equal.
    rewrite insert_app_r_alt by lia. f_equal. f_equal. lia.
  - rewrite decide_False by lia. done.
Qed.

Lemma length_positions (ps : list Vec3) : length (positions ps) = 3 * length ps.
Proof.
  unfold positions. induction ps as [|p ps IH]; [done|].
  rewrite bind_cons, length_app, IH. simpl. lia.
Qed.

Section HeaderBuffers.

Context (lattice : Lattice).

Lemma storePosition_app (i : nat) (p : Vec3) (done rest : list float) :
  length done = 3 * i ->
  storePosition i p (done ++ rest)
  = if decide (3 <= length rest)
    then Some ((done ++ narrowPosition p) ++ drop 3 rest) else None.
Proof.
  intros Hdone. unfold storePosition.
  replace (3 * i) with (length done + 0) by lia.
  replace (length done + 0 + 1) with (length done + 1) by lia.
  replace (length done + 0 + 2) with (length done + 2) by lia.
  destruct rest as [|a [|b [|c rest]]].
  - rewrite store_app. by rewrite !decide_False by (simpl; lia).
  - rewrite store_app, decide_True by (simpl; lia). cbn [mbind option_bind].
    rewrite store_app. by rewrite !decide_False by (simpl; lia).
  - rewrite store_app, decide_True by (simpl; lia). cbn [mbind option_bind].
    rewrite store_app, decide_True by (simpl; lia). cbn [mbind option_bind].
    rewrite store_app. by rewrite !decide_False by (simpl; lia).
  - rewrite store_app, decide_True by (simpl; lia). cbn [mbind option_bind].
    rewrite store_app, decide_True by (simpl; lia). cbn [mbind option_bind].
    rewrite store_app, decide_True by (simpl; lia).
    rewrite decide_True by (simpl; lia). by rewrite <- app_assoc.
Qed.

(** The loop overruns its buffer exactly when the buffer has fewer than
    three floats per position; otherwise it leaves the positions at the
    start of the buffer and the rest of the buffer as it was. *)
Lemma storePositions_app (ps : list Vec3) :
  forall (i : nat) (done rest : list float),
    length done = 3 * i ->
    storePositions ps i (done ++ rest)
    = if decide (3 * length ps <= length rest)
      then Some (done ++ positions ps ++ drop (3 * length ps) rest) else None.
Proof.
  induction ps as [|p ps IH]; intros i done rest Hdone.
  - cbn [storePositions]. by rewrite decide_True by (simpl; lia).
  - cbn [storePositions]. rewrite (storePosition_app i p done rest Hdone).
    destruct (decide (3 <= length rest)) as [H3|H3].
    + cbn [mbind option_bind].
      rewrite (IH (S i)) by (rewrite length_app; simpl; lia).
      rewrite length_drop. cbn [length].
      destruct (decide (3 * S (length ps) <= length rest)) as [Hn|Hn].
      * rewrite decide_True by lia. f_equal.
        unfold positions. rewrite bind_cons, <- !app_assoc. do 3 f_equal.
        rewrite drop_drop. f_equal. lia.
      * by rewrite decide_False by lia.
    + cbn [mbind option_bind length]. by rewrite decide_False by lia.
Qed.

Lemma storePositions_fresh (ps : list Vec3) (junk : nat -> float) (n : nat) :
  storePositions ps 0 (newFloatArray junk n)
  = if decide (3 * length ps <= n)
    then Some (positions ps ++ drop (3 * length ps) (newFloatArray junk n)) else None.
Proof.
  pose proof (storePositions_app ps 0 [] (newFloatArray junk n) eq_refl) as H.
  cbn [app] in H. rewrite H. by rewrite length_newFloatArray.
Qed.

Lemma latticeVectorsDataset_eq (junk : nat -> float) :
  latticeVectorsDataset lattice junk
  = if decide (length (_bravaisLattice lattice) <= 3)
    then Some {| shape := [length (_bravaisLattice lattice)];
                 contents := positions (_bravaisLattice lattice) |}
    else None.
Proof.
  unfold latticeVectorsDataset. rewrite storePositions_fresh.
  destruct (decide (length (_bravaisLattice lattice) <= 3)) as [H|H].
  - rewrite decide_True by lia. cbn [mbind option_bind].
    unfold readFloats. rewrite length_app, length_positions, decide_True by lia.
    cbn [mbind option_bind]. do 2 f_equal.
    rewrite take_app_length'; [done|]. by rewrite length_positions.
  - by rewrite decide_False by lia.
Qed.

Lemma basisDataset_eq (junk : nat -> float) :
  basisDataset lattice junk
  = Some {| shape := [length (_basis lattice)];
            contents := positions (getSitePosition lattice <$> _basis lattice) |}.
Proof.
  unfold basisDataset. rewrite storePositions_fresh, length_fmap.
  rewrite decide_True by lia. cbn [mbind option_bind].
  unfold readFloats. rewrite length_app, length_positions, length_fmap, decide_True by lia.
  cbn [mbind option_bind]. do 2 f_equal.
  rewrite take_app_length'; [done|]. by rewrite length_positions, length_fmap.
Qed.

Lemma sitesDataset_eq (junk : nat -> float) :
  sitesDataset lattice junk
  = if decide (length (rangeSites lattice)
               <= length (_basis lattice) * inRangeCount lattice)
    then Some {| shape := [length (_basis lattice); inRangeCount lattice];
                 contents :=
                   positions (getSitePosition lattice <$> rangeSites lattice)
                   ++ drop (3 * length (rangeSites lattice))
                        (newFloatArray junk
                           (length (_basis lattice) * inRangeCount lattice * 3)) |}
    else None.
Proof.
  unfold sitesDataset. rewrite storePositions_fresh, length_fmap.
  destruct (decide (length (rangeSites lattice)
                    <= length (_basis lattice) * inRangeCount lattice)) as [H|H].
  - rewrite decide_True by lia. cbn [mbind option_bind].
    unfold readFloats.
    rewrite length_app, length_positions, length_fmap, length_drop, length_newFloatArray.
    rewrite decide_True by lia. cbn [mbind option_bind]. do 2 f_equal.
    apply take_ge.
    rewrite length_app, length_positions, length_fmap, length_drop, length_newFloatArray.
    lia.
  - by rewrite decide_False by lia.
Qed.

(** The header stays inside its buffers exactly on the lattices that fit. *)
Lemma metaGroup_is_Some (junk : nat -> float) :
  is_Some (metaGroup lattice junk) <-> headerFits lattice.
Proof.
  unfold metaGroup, headerFits.
  rewrite latticeVectorsDataset_eq, basisDataset_eq, sitesDataset_eq.
  destruct (decide (length (_bravaisLattice lattice) <= 3)) as [H1|H1];
    destruct (decide (length (rangeSites lattice)
                      <= length (_basis lattice) * inRangeCount lattice)) as [H2|H2];
    cbn [mbind option_bind]; split; try (intros [? [=]]); try (intros [? ?]); eauto; lia.
Qed.

End HeaderBuffers.

(** ** The result store *)

Lemma rootOf_with_disk (root : gmap string (Link ObservableGroup)) (w : World) :
  rootOf (with_disk (Hdf5File root) w) = root.
Proof. reflexivity. Qed.

Lemma rootOf_with_log (l : list LogLine) (w : World) :
  rootOf (with_log l w) = rootOf w.
Proof. reflexivity. Qed.

Lemma observableGroup_rootOf (w : World) (name : string) :
  observableGroup w name = H5Gopen (rootOf w !! name).
Proof. unfold observableGroup, rootOf. by destruct (disk w). Qed.

Lemma objectsByIndex_empty : objectsByIndex ∅ = [].
Proof. unfold objectsByIndex. by rewrite map_to_list_empty. Qed.

Section Store.

Context (lattice : Lattice).

(** A snapshot write on a path that cannot be opened or created throws the
    file error and leaves the world as it is. *)
Lemma writeOutfileCorrelation_inaccessible
    (m : XYZMeasurementCorrelation) (g : string) (correlation : list float) (w : World) :
  accessible w = false ->
  _writeOutfileCorrelation lattice m g correlation w = Throws (fileError m) w.
Proof.
  intros Hacc. unfold _writeOutfileCorrelation, openOrCreateFile, H5Fis_hdf5, H5Fopen, H5Fcreate.
  rewrite Hacc. by destruct (disk w).
Qed.

Lemma openOrCreateFile_None (w : World) :
  openOrCreateFile w = None <-> accessible w = false.
Proof.
  unfold openOrCreateFile, H5Fis_hdf5, H5Fopen, H5Fcreate.
  destruct (accessible w), (disk w); simpl; split; congruence.
Qed.

Lemma openOrCreateFile_accessible (w : World) :
  accessible w = true ->
  openOrCreateFile w = Some (rootOf w, with_disk (Hdf5File (rootOf w)) w).
Proof.
  destruct w as [d a l n f u]. simpl. intros ->.
  unfold openOrCreateFile, H5Fis_hdf5, H5Fopen, H5Fcreate, rootOf.
  by destruct d.
Qed.

Lemma openOrCreateGroup_root
    (root : gmap string (Link ObservableGroup)) (g : string) (w : World) :
  disk w = Hdf5File root ->
  openOrCreateGroup root g w
  = match root !! g with
    | Some NotAGroup => None
    | link =>
        Some (default emptyGroup (H5Gopen link),
              with_disk
                (Hdf5File (<[g := Group (default emptyGroup (H5Gopen link))]> root)) w)
    end.
Proof.
  destruct w as [d a l n f u]. simpl. intros ->.
  unfold openOrCreateGroup, H5Gcreate, putGroup, with_disk. simpl.
  destruct (root !! g) as [[group|]|] eqn:E; simpl.
  - by rewrite insert_id.
  - done.
  - done.
Qed.

Lemma writeOutfileHeader_group
    (m : XYZMeasurementCorrelation) (g : string) (w : World)
    (root : gmap string (Link ObservableGroup)) (group : ObservableGroup) :
  accessible w = true -> disk w = Hdf5File root -> root !! g = Some (Group group) ->
  _writeOutfileHeader lattice m g w
  = match meta group with
    | None =>
        match metaGroup lattice (uninitialised w) with
        | Some mgroup =>
            Returns ()
              (with_disk
                 (Hdf5File (<[g := Group {| meta := Some (Group mgroup);
                                            data := data group |}]> root))
                 w)
        | None => Undefined
        end
    | Some _ => warn (WarningMetaExists (outfile m) g) w
    end.
Proof.
  destruct w as [d a l n f u]. simpl. intros -> -> E.
  unfold _writeOutfileHeader, H5Fopen, putGroup, with_disk. simpl. by rewrite E.
Qed.

(** A snapshot write on a path that can be opened or created, outcome by
    outcome: the group error when the link of the observable group leads to
    no group; undefined behaviour when the header is run and overruns a
    buffer; the data error, after the header, when the link [data] leads to
    no group; the warning when the scan finds the current cutoff; and
    otherwise the new measurement group, or undefined behaviour when the
    buffer is shorter than the dataspace. *)
Lemma writeOutfileCorrelation_accessible
    (m : XYZMeasurementCorrelation) (g : string) (correlation : list float) (w : World) :
  accessible w = true ->
  _writeOutfileCorrelation lattice m g correlation w
  = match rootOf w !! g with
    | Some NotAGroup => Throws (groupError g) w
    | link =>
        let group := default emptyGroup (H5Gopen link) in
        match (match meta group with
               | Some ml => Some ml
               | None => Group <$> metaGroup lattice (uninitialised w)
               end) with
        | None => Undefined
        | Some ml =>
            let file objs :=
              with_disk
                (Hdf5File (<[g := Group {| meta := Some ml; data := objs |}]> (rootOf w)))
                w in
            match data group with
            | Some NotAGroup => Throws (dataError g) (file (Some NotAGroup))
            | dlink =>
                let objects := default ∅ (H5Gopen dlink) in
                match scanDatasets (objectsByIndex objects) (_currentCutoff m) 0 with
                | None =>
                    Returns ()
                      (with_log (log w ++ [WarningDuplicate (_currentCutoff m)])
                         (file (Some (Group objects))))
                | Some datasetId =>
                    match createMeasurement lattice objects datasetId (_currentCutoff m)
                            correlation with
                    | Some objects' => Returns () (file (Some (Group objects')))
                    | None => Undefined
                    end
                end
            end
        end
    end.
Proof.
  intros Hacc. unfold _writeOutfileCorrelation.
  rewrite (openOrCreateFile_accessible w Hacc).
  rewrite (openOrCreateGroup_root (rootOf w) g) by (by destruct w).
  assert (Hw : forall d, with_disk d (with_disk (Hdf5File (rootOf w)) w) = with_disk d w)
    by done.
  set (root := rootOf w) in *.
  destruct (root !! g) as [[[gm gd]|]|] eqn:Eg; cbn [H5Gopen default from_option id].
  - rewrite Hw. cbn [meta data]. destruct gm as [ml|].
    + rewrite decide_False by done.
      unfold openOrCreateData, observableGroup, putGroup, warn, dataError.
      cbn -[insert lookup createMeasurement scanDatasets objectsByIndex].
      rewrite lookup_insert_eq.
      cbn -[insert lookup createMeasurement scanDatasets objectsByIndex].
      destruct gd as [[objects|]|].
      * rewrite decide_True by eauto.
        cbn -[insert lookup createMeasurement scanDatasets objectsByIndex].
        destruct (scanDatasets _ _ _); [|done].
        destruct (createMeasurement _ _ _ _ _); [|done].
        by rewrite insert_insert_eq.
      * rewrite decide_True by eauto. done.
      * rewrite decide_False by (by intros [? ?]).
        cbn -[insert lookup createMeasurement scanDatasets objectsByIndex].
        destruct (scanDatasets _ _ _);
          [destruct (createMeasurement _ _ _ _ _); [|done]|];
          by rewrite !insert_insert_eq.
    + rewrite decide_True by done.
      rewrite (writeOutfileHeader_group m g _ (<[g := Group {| meta := None; data := gd |}]> root)
                 {| meta := None; data := gd |})
        by first [exact Hacc | reflexivity | apply lookup_insert_eq].
      cbn [meta data uninitialised with_disk].
      destruct (metaGroup lattice (uninitialised w)) as [mgroup|]; [|done].
      cbn [fmap option_fmap option_map].
      unfold openOrCreateData, observableGroup, putGroup, warn, dataError.
      cbn -[insert lookup createMeasurement scanDatasets objectsByIndex].
      rewrite lookup_insert_eq.
      cbn -[insert lookup createMeasurement scanDatasets objectsByIndex].
      destruct gd as [[objects|]|].
      * rewrite decide_True by eauto.
        cbn -[insert lookup createMeasurement scanDatasets objectsByIndex].
        destruct (scanDatasets _ _ _);
          [destruct (createMeasurement _ _ _ _ _); [|done]|];
          by rewrite !insert_insert_eq.
      * rewrite decide_True by eauto.
        cbn -[insert lookup]. by rewrite !insert_insert_eq.
      * rewrite decide_False by (by intros [? ?]).
        cbn -[insert lookup createMeasurement scanDatasets objectsByIndex].
        destruct (scanDatasets _ _ _);
          [destruct (createMeasurement _ _ _ _ _); [|done]|];
          by rewrite !insert_insert_eq.
  - unfold groupError. f_equal. subst root. unfold rootOf in Eg.
    destruct w as [[| |r] a l n f u]; cbn in *; by rewrite ?lookup_empty in Eg.
  - rewrite Hw. cbn [emptyGroup meta data].
    rewrite decide_True by done.
    rewrite (writeOutfileHeader_group m g _ (<[g := Group emptyGroup]> root) emptyGroup)
      by first [exact Hacc | reflexivity | apply lookup_insert_eq].
    cbn [emptyGroup meta data uninitialised with_disk].
    destruct (metaGroup lattice (uninitialised w)) as [mgroup|]; [|done].
    cbn [fmap option_fmap option_map].
    unfold openOrCreateData, observableGroup, putGroup, warn, dataError.
    cbn -[insert lookup createMeasurement scanDatasets objectsByIndex].
    rewrite lookup_insert_eq.
    cbn -[insert lookup createMeasurement scanDatasets objectsByIndex].
    rewrite decide_False by (by intros [? ?]).
    cbn -[insert lookup createMeasurement scanDatasets objectsByIndex].
    destruct (scanDatasets _ _ _);
      [destruct (createMeasurement _ _ _ _ _); [|done]|];
      by rewrite !insert_insert_eq.
Qed.

End Store.

(** *** The scan for a duplicate *)

Lemma scanDatasets_None (objects : list (string * DataObject)) (current : float) :
  forall datasetId : nat,
    scanDatasets objects current datasetId = None <->
    exists c : float, c ∈ measurementCutoffs objects /\ (c == current)%F = true.
Proof.
  induction objects as [|[name [c d|]] objects IH]; intros datasetId; simpl.
  - split; [done|]. intros (c & Hc & _). by apply elem_of_nil in Hc.
  - destruct (c == current)%F eqn:E.
    + split; [|done]. intros _. exists c. split; [apply list_elem_of_here|done].
    + rewrite IH. split.
      * intros (c' & Hc' & E'). exists c'. split; [by apply list_elem_of_further|done].
      * intros (c' & Hc' & E'). apply elem_of_cons in Hc' as [->|Hc']; [congruence|].
        by exists c'.
  - apply IH.
Qed.

Lemma scanDatasets_Some (objects : list (string * DataObject)) (current : float) :
  forall datasetId datasetId' : nat,
    scanDatasets objects current datasetId = Some datasetId' ->
    datasetId' = datasetId + length (measurementCutoffs objects).
Proof.
  induction objects as [|[name [c d|]] objects IH]; intros datasetId datasetId'; simpl.
  - intros [= <-]. lia.
  - destruct (c == current)%F; [done|]. intros H. apply IH in H. lia.
  - apply IH.
Qed.

Lemma elem_of_measurementCutoffs (objects : list (string * DataObject)) (c : float) :
  c ∈ measurementCutoffs objects <->
  exists (name : string) (d : Dataset), (name, MeasurementGroup c d) ∈ objects.
Proof.
  induction objects as [|[name [c' d|]] objects IH]; simpl.
  - split; [by intros ?%elem_of_nil|]. by intros (? & ? & ?%elem_of_nil).
  - rewrite elem_of_cons, IH. split.
    + intros [->|(name' & d' & H)].
      * exists name, d. apply list_elem_of_here.
      * exists name', d'. by apply list_elem_of_further.
    + intros (name' & d' & H). apply elem_of_cons in H as [[= -> -> ->]|H]; [by left|].
      right. by exists name', d'.
  - rewrite IH. split.
    + intros (name' & d' & H). exists name', d'. by apply list_elem_of_further.
    + intros (name' & d' & H). apply elem_of_cons in H as [[=]|H]. by exists name', d'.
Qed.

Lemma elem_of_objectsByIndex (objects : DataCollection) (name : string) (o : DataObject) :
  (name, o) ∈ objectsByIndex objects <-> objects !! name = Some o.
Proof.
  unfold objectsByIndex. rewrite merge_sort_Permutation. apply elem_of_map_to_list.
Qed.

Lemma length_objectsByIndex (objects : DataCollection) :
  length (objectsByIndex objects) = base.size objects.
Proof.
  unfold objectsByIndex. rewrite merge_sort_Permutation. apply length_map_to_list.
Qed.

(** The scan finds a duplicate exactly when some measurement group of the
    collection stores a cutoff equal to the current one, whatever the order
    of the index. *)
Lemma scan_None (objects : DataCollection) (current : float) :
  scanDatasets (objectsByIndex objects) current 0 = None <->
  exists (name : string) (c : float) (d : Dataset),
    objects !! name = Some (MeasurementGroup c d) /\ (c == current)%F = true.
Proof.
  rewrite scanDatasets_None. split.
  - intros (c & Hc & E). apply elem_of_measurementCutoffs in Hc as (name & d & H).
    apply elem_of_objectsByIndex in H. by exists name, c, d.
  - intros (name & c & d & H & E). exists c. split; [|done].
    apply elem_of_measurementCutoffs. exists name, d. by apply elem_of_objectsByIndex.
Qed.

Lemma length_measurementCutoffs_le (objects : list (string * DataObject)) :
  length (measurementCutoffs objects) <= length objects.
Proof.
  induction objects as [|[name [c d|]] objects IH]; simpl; lia.
Qed.

Lemma length_measurementCutoffs_groups (objects : list (string * DataObject)) :
  (forall no, no ∈ objects -> exists c d, no.2 = MeasurementGroup c d) ->
  length (measurementCutoffs objects) = length objects.
Proof.
  induction objects as [|[name o] objects IH]; intros H; [done|].
  destruct (H (name, o) (list_elem_of_here _ _)) as (c & d & Ho). simpl in Ho. subst o.
  simpl. rewrite IH; [done|]. intros no Hno. apply H. by apply list_elem_of_further.
Qed.

(** Otherwise the scan counts the measurement groups. *)
Lemma scan_Some (objects : DataCollection) (current : float) (datasetId : nat) :
  scanDatasets (objectsByIndex objects) current 0 = Some datasetId ->
  datasetId = length (measurementCutoffs (objectsByIndex objects))
  /\ datasetId <= base.size objects
  /\ forall (name : string) (c : float) (d : Dataset),
       objects !! name = Some (MeasurementGroup c d) -> (c == current)%F = false.
Proof.
  intros H. split; [by apply scanDatasets_Some in H|].
  split.
  { apply scanDatasets_Some in H. subst. rewrite <- length_objectsByIndex.
    apply length_measurementCutoffs_le. }
  intros name c d Hc. destruct (c == current)%F eqn:E; [|done].
  assert (scanDatasets (objectsByIndex objects) current 0 = None) as Hn
    by (apply scan_None; by exists name, c, d).
  congruence.
Qed.

Lemma scan_is_Some (objects : DataCollection) (current : float) :
  (forall (name : string) (c : float) (d : Dataset),
     objects !! name = Some (MeasurementGroup c d) -> (c == current)%F = false) ->
  scanDatasets (objectsByIndex objects) current 0
  = Some (length (measurementCutoffs (objectsByIndex objects))).
Proof.
  intros H. destruct (scanDatasets _ _ _) as [k|] eqn:E.
  - by apply scanDatasets_Some in E as ->.
  - apply scan_None in E as (name & c & d & Hc & E). by rewrite (H name c d Hc) in E.
Qed.

Lemma wellNamed_count (objects : DataCollection) :
  wellNamed objects ->
  length (measurementCutoffs (objectsByIndex objects)) = base.size objects.
Proof.
  intros H. rewrite <- length_objectsByIndex.
  apply length_measurementCutoffs_groups. intros [name o] Hno.
  apply elem_of_objectsByIndex in Hno. by destruct (H name o Hno) as [Hg _].
Qed.

Lemma measurementName_inj (j k : nat) : measurementName j = measurementName k -> j = k.
Proof.
  unfold measurementName. intros H. apply (inj _) in H. by apply (inj pretty) in H.
Qed.

Lemma wellNamed_fresh (objects : DataCollection) :
  wellNamed objects -> objects !! measurementName (base.size objects) = None.
Proof.
  intros H. destruct (objects !! _) as [o|] eqn:E; [|done].
  destruct (H _ o E) as (_ & k & Hk & Heq). apply measurementName_inj in Heq. lia.
Qed.

Lemma wellNamed_insert (objects : DataCollection) (c : float) (d : Dataset) :
  wellNamed objects ->
  wellNamed (<[measurementName (base.size objects) := MeasurementGroup c d]> objects).
Proof.
  intros H name o Ho.
  rewrite map_size_insert_None by by apply wellNamed_fresh.
  apply lookup_insert_Some in Ho as [[<- <-]|[Hne Ho]].
  - split; [by exists c, d|]. exists (base.size objects). split; [lia|done].
  - destruct (H name o Ho) as (Hg & k & Hk & Heq). split; [done|].
    exists k. split; [lia|done].
Qed.

(** *** The outcomes of a snapshot write *)

Lemma objectsOf_rootOf (w : World) (name : string) :
  objectsOf w name
  = default ∅ (H5Gopen (rootOf w !! name) ≫= fun g => H5Gopen (data g)).
Proof. unfold objectsOf. by rewrite observableGroup_rootOf. Qed.

Lemma metaOf_rootOf (w : World) (name : string) :
  metaOf w name = H5Gopen (rootOf w !! name) ≫= meta.
Proof. unfold metaOf. by rewrite observableGroup_rootOf. Qed.

Lemma objectsOf_with_log (l : list LogLine) (w : World) (name : string) :
  objectsOf (with_log l w) name = objectsOf w name.
Proof. reflexivity. Qed.

Lemma metaOf_with_log (l : list LogLine) (w : World) (name : string) :
  metaOf (with_log l w) name = metaOf w name.
Proof. reflexivity. Qed.

Lemma objectsOf_with_calculateCalls (n : nat) (w : World) (name : string) :
  objectsOf (with_calculateCalls n w) name = objectsOf w name.
Proof. reflexivity. Qed.

(** The file with the group [g] replaced. *)
Lemma objectsOf_put (w : World) (g name : string) (ml : option (Link MetaGroup))
    (objects : DataCollection) :
  objectsOf
    (with_disk (Hdf5File (<[g := Group {| meta := ml; data := Some (Group objects) |}]>
                            (rootOf w))) w) name
  = if decide (name = g) then objects else objectsOf w name.
Proof.
  rewrite !objectsOf_rootOf, rootOf_with_disk. destruct (decide (name = g)) as [->|Hne].
  - by rewrite lookup_insert_eq.
  - by rewrite lookup_insert_ne.
Qed.

Lemma metaOf_put (w : World) (g name : string) (ml : option (Link MetaGroup))
    (objects : option (Link DataCollection)) :
  metaOf
    (with_disk (Hdf5File (<[g := Group {| meta := ml; data := objects |}]> (rootOf w))) w)
    name
  = if decide (name = g) then ml else metaOf w name.
Proof.
  rewrite !metaOf_rootOf, rootOf_with_disk. destruct (decide (name = g)) as [->|Hne].
  - by rewrite lookup_insert_eq.
  - by rewrite lookup_insert_ne.
Qed.

(** Replacing a group by itself leaves the world as it is. *)
Lemma with_disk_id (w : World) (g : string) (group : ObservableGroup) :
  rootOf w !! g = Some (Group group) ->
  with_disk (Hdf5File (<[g := Group group]> (rootOf w))) w = w.
Proof.
  intros H. rewrite insert_id by done. unfold rootOf in *.
  destruct w as [[| |root] a l n f u]; cbn in *; by rewrite ?lookup_empty in H.
Qed.

Section Outcomes.

Context (lattice : Lattice).

(** A snapshot write where the path can be opened or created and both links
    can be opened, in terms of the [meta] link and the data collection of
    the group. *)
Lemma writeOutfileCorrelation_openable
    (m : XYZMeasurementCorrelation) (g : string) (correlation : list float) (w : World) :
  accessible w = true -> openable w g ->
  _writeOutfileCorrelation lattice m g correlation w
  = match (match metaOf w g with
           | Some ml => Some ml
           | None => Group <$> metaGroup lattice (uninitialised w)
           end) with
    | None => Undefined
    | Some ml =>
        let file objects :=
          with_disk
            (Hdf5File (<[g := Group {| meta := Some ml; data := Some (Group objects) |}]>
                         (rootOf w)))
            w in
        match scanDatasets (objectsByIndex (objectsOf w g)) (_currentCutoff m) 0 with
        | None =>
            Returns ()
              (with_log (log w ++ [WarningDuplicate (_currentCutoff m)])
                 (file (objectsOf w g)))
        | Some datasetId =>
            match createMeasurement lattice (objectsOf w g) datasetId (_currentCutoff m)
                    correlation with
            | Some objects' => Returns () (file objects')
            | None => Undefined
            end
        end
    end.
Proof.
  intros Hacc [Hg Hd].
  rewrite (writeOutfileCorrelation_accessible lattice m g correlation w Hacc).
  rewrite metaOf_rootOf, objectsOf_rootOf. rewrite observableGroup_rootOf in Hd.
  destruct (rootOf w !! g) as [[[gm gd]|]|]; [|done|]; cbn in *.
  - destruct gm as [ml|]; [|destruct (metaGroup _ _); [|done]]; cbn;
      by destruct gd as [[objects|]|].
  - by destruct (metaGroup _ _).
Qed.

(** A write where a link leads to an object that is no group throws, after
    the header when it is the link [data]. *)
Lemma writeOutfileCorrelation_not_openable
    (m : XYZMeasurementCorrelation) (g : string) (correlation : list float) (w : World) :
  accessible w = true -> ~ openable w g ->
  _writeOutfileCorrelation lattice m g correlation w = Throws (groupError g) w
  \/ _writeOutfileCorrelation lattice m g correlation w = Undefined
  \/ exists ml : Link MetaGroup,
       _writeOutfileCorrelation lattice m g correlation w
       = Throws (dataError g)
           (with_disk
              (Hdf5File (<[g := Group {| meta := Some ml; data := Some NotAGroup |}]>
                           (rootOf w))) w)
       /\ (forall ml', metaOf w g = Some ml' -> ml' = ml).
Proof.
  intros Hacc Hopen.
  rewrite (writeOutfileCorrelation_accessible lattice m g correlation w Hacc).
  unfold openable in Hopen. rewrite observableGroup_rootOf in Hopen.
  rewrite metaOf_rootOf.
  destruct (rootOf w !! g) as [[[gm gd]|]|]; cbn in *.
  - destruct gd as [[objects|]|]; [exfalso; apply Hopen; by split| |exfalso; apply Hopen; by split].
    destruct gm as [ml|]; [|destruct (metaGroup _ _) as [mg|]]; cbn.
    + right. right. exists ml. split; [done|]. by intros ? [= <-].
    + right. right. exists (Group mg). split; [done|]. done.
    + right. by left.
  - by left.
  - exfalso. apply Hopen. by split.
Qed.

End Outcomes.

Section Effect.

Context (lattice : Lattice).

Lemma createMeasurement_cases (objects : DataCollection) (datasetId : nat)
    (current : float) (correlation : list float) (objects' : DataCollection) :
  createMeasurement lattice objects datasetId current correlation = Some objects' ->
  (is_Some (objects !! measurementName datasetId) /\ objects' = objects)
  \/ exists contents : list float,
       objects !! measurementName datasetId = None
       /\ readFloats (length (_basis lattice) * inRangeCount lattice) correlation
          = Some contents
       /\ objects'
          = <[measurementName datasetId :=
                MeasurementGroup current
                  {| shape := [length (_basis lattice); inRangeCount lattice];
                     contents := contents |}]> objects.
Proof.
  unfold createMeasurement. fold (measurementName datasetId).
  destruct (decide (is_Some (objects !! measurementName datasetId))) as [Hs|Hn].
  - intros [= <-]. by left.
  - destruct (readFloats _ _) as [contents|]; [|done]. intros [= <-].
    right. exists contents. split; [|done]. by apply eq_None_not_Some.
Qed.

(** What a snapshot write can do, whatever its outcome: it leaves the world
    outside the file and the log alone, touches no other observable group,
    keeps a [meta] link that is there, logs at most the one warning, and
    leaves the data collection as it was or with one more measurement
    group. *)
Lemma writeOutfileCorrelation_effect
    (m : XYZMeasurementCorrelation) (g : string) (correlation : list float)
    (w w' : World) :
  finalWorld (_writeOutfileCorrelation lattice m g correlation w) = Some w' ->
  accessible w' = accessible w
  /\ calculateCalls w' = calculateCalls w
  /\ flowingFunctional w' = flowingFunctional w
  /\ uninitialised w' = uninitialised w
  /\ (forall name : string, name <> g -> rootOf w' !! name = rootOf w !! name)
  /\ (forall ml : Link MetaGroup, metaOf w g = Some ml -> metaOf w' g = Some ml)
  /\ (log w' = log w \/ log w' = log w ++ [WarningDuplicate (_currentCutoff m)])
  /\ (objectsOf w' g = objectsOf w g
      \/ exists (datasetId : nat) (contents : list float),
           scanDatasets (objectsByIndex (objectsOf w g)) (_currentCutoff m) 0
           = Some datasetId
           /\ objectsOf w g !! measurementName datasetId = None
           /\ readFloats (length (_basis lattice) * inRangeCount lattice) correlation
              = Some contents
           /\ objectsOf w' g
              = <[measurementName datasetId :=
                    MeasurementGroup (_currentCutoff m)
                      {| shape := [length (_basis lattice); inRangeCount lattice];
                         contents := contents |}]> (objectsOf w g)).
Proof.
  destruct (accessible w) eqn:Hacc.
  2: { rewrite (writeOutfileCorrelation_inaccessible lattice m g correlation w Hacc).
       intros [= <-]. rewrite Hacc. repeat split; try done; by left. }
  rewrite (writeOutfileCorrelation_accessible lattice m g correlation w Hacc).
  rewrite metaOf_rootOf. rewrite !(objectsOf_rootOf w).
  destruct (rootOf w !! g) as [[[gm gd]|]|] eqn:Eg; cbn [H5Gopen default from_option id
    mbind option_bind meta data emptyGroup].
  - match goal with
    | |- context [match ?x with Some _ => _ | None => Undefined end] =>
        destruct x as [ml'|] eqn:Eml; [|done]
    end.
    destruct gd as [[objects|]|]; cbn [H5Gopen default from_option id].
    + destruct (scanDatasets _ _ _) as [datasetId|] eqn:Escan;
        [destruct (createMeasurement _ _ _ _ _) as [objects'|] eqn:Ecreate; [|done]|];
        intros [= <-]; cbn [accessible calculateCalls flowingFunctional uninitialised
          with_disk with_log log];
        rewrite ?metaOf_with_log, ?objectsOf_with_log, ?rootOf_with_log, metaOf_put,
          objectsOf_put, !decide_True by done;
        (do 4 (split; [done|]));
        (split; [intros name Hne; by rewrite rootOf_with_disk, lookup_insert_ne|]);
        (split; [intros ml Hml; by destruct gm; simplify_eq|]).
      * split; [by left|].
        apply createMeasurement_cases in Ecreate as [[_ ->]|(contents & H1 & H2 & ->)];
          [by left|right]. by exists datasetId, contents.
      * split; [by right|by left].
    + cbn [finalWorld]. intros H. apply (inj Some) in H. subst w'. cbn [accessible calculateCalls flowingFunctional uninitialised
        with_disk with_log log].
      rewrite metaOf_put, decide_True by done.
      (do 4 (split; [done|])).
      split; [intros name Hne; by rewrite rootOf_with_disk, lookup_insert_ne|].
      split; [intros ml Hml; by destruct gm; simplify_eq|].
      split; [by left|]. left.
      by rewrite objectsOf_rootOf, rootOf_with_disk, lookup_insert_eq.
    + destruct (scanDatasets _ _ _) as [datasetId|] eqn:Escan;
        [destruct (createMeasurement _ _ _ _ _) as [objects'|] eqn:Ecreate; [|done]|];
        intros [= <-]; cbn [accessible calculateCalls flowingFunctional uninitialised
          with_disk with_log log];
        rewrite ?metaOf_with_log, ?objectsOf_with_log, ?rootOf_with_log, metaOf_put,
          objectsOf_put, !decide_True by done;
        (do 4 (split; [done|]));
        (split; [intros name Hne; by rewrite rootOf_with_disk, lookup_insert_ne|]);
        (split; [intros ml Hml; by destruct gm; simplify_eq|]).
      * split; [by left|].
        apply createMeasurement_cases in Ecreate as [[_ ->]|(contents & H1 & H2 & ->)];
          [by left|right]. by exists datasetId, contents.
      * split; [by right|by left].
  - cbn [finalWorld]. intros H. apply (inj Some) in H. subst w'.
    do 4 (split; [done|]). split; [done|]. split; [done|]. split; [by left|].
    left. by rewrite objectsOf_rootOf, Eg.
  - match goal with
    | |- context [match ?x with Some _ => _ | None => Undefined end] =>
        destruct x as [ml'|] eqn:Eml; [|done]
    end.
    destruct (scanDatasets _ _ _) as [datasetId|] eqn:Escan;
      [destruct (createMeasurement _ _ _ _ _) as [objects'|] eqn:Ecreate; [|done]|];
      intros [= <-]; cbn [accessible calculateCalls flowingFunctional uninitialised
        with_disk with_log log];
      rewrite ?metaOf_with_log, ?objectsOf_with_log, ?rootOf_with_log, metaOf_put,
        objectsOf_put, !decide_True by done;
      (do 4 (split; [done|]));
      (split; [intros name Hne; by rewrite rootOf_with_disk, lookup_insert_ne|]);
      (split; [done|]).
    + split; [by left|].
      apply createMeasurement_cases in Ecreate as [[_ ->]|(contents & H1 & H2 & ->)];
        [by left|right]. by exists datasetId, contents.
    + split; [by right|by left].
Qed.

End Effect.

(** *** Writes that return *)

Lemma readFloats_Some (n : nat) (buffer : list float) :
  n <= length buffer -> readFloats n buffer = Some (take n buffer).
Proof. intros H. unfold readFloats. by rewrite decide_True. Qed.

Lemma readFloats_is_Some (n : nat) (buffer contents : list float) :
  readFloats n buffer = Some contents -> n <= length buffer /\ contents = take n buffer.
Proof. unfold readFloats. destruct (decide _); [|done]. by intros [= <-]. Qed.

Lemma stamped_no_file (w : World) : rootOf w = ∅ -> stamped w.
Proof. intros H g group Hg. by rewrite H, lookup_empty in Hg. Qed.

Lemma objectsOf_lookup_Some (w : World) (g name : string) (o : DataObject) :
  objectsOf w g !! name = Some o ->
  exists (ml : option (Link MetaGroup)),
    rootOf w !! g = Some (Group {| meta := ml; data := Some (Group (objectsOf w g)) |}).
Proof.
  rewrite objectsOf_rootOf.
  destruct (rootOf w !! g) as [[[gm [[objects|]|]]|]|]; cbn; try by rewrite lookup_empty.
  intros _. by exists gm.
Qed.

Section Returning.

Context (lattice : Lattice).

(** A snapshot write that finds a measurement group with the current cutoff,
    in a file whose groups have their [meta] links: it returns after the one
    warning, and nothing else in the world has changed. *)
Lemma writeOutfileCorrelation_duplicate
    (m : XYZMeasurementCorrelation) (g : string) (correlation : list float) (w : World)
    (name : string) (c : float) (d : Dataset) :
  accessible w = true -> stamped w ->
  objectsOf w g !! name = Some (MeasurementGroup c d) ->
  (c == _currentCutoff m)%F = true ->
  _writeOutfileCorrelation lattice m g correlation w
  = Returns () (with_log (log w ++ [WarningDuplicate (_currentCutoff m)]) w).
Proof.
  intros Hacc Hstamped Hc Heq.
  destruct (objectsOf_lookup_Some w g name _ Hc) as [gm Hg].
  destruct (Hstamped g _ Hg) as [ml Hml]; [by eexists|]. cbn in Hml. subst gm.
  rewrite writeOutfileCorrelation_openable; [|done|].
  2: { split; [by rewrite Hg|]. by rewrite observableGroup_rootOf, Hg. }
  rewrite metaOf_rootOf, Hg. cbn [H5Gopen mbind option_bind meta].
  rewrite (proj2 (scan_None (objectsOf w g) (_currentCutoff m))) by (by exists name, c, d).
  by rewrite (with_disk_id w g _ Hg).
Qed.

(** A snapshot write leaves a [meta] link in the group it has opened. *)
Lemma writeOutfileCorrelation_stamps
    (m : XYZMeasurementCorrelation) (g : string) (correlation : list float)
    (w w' : World) :
  finalWorld (_writeOutfileCorrelation lattice m g correlation w) = Some w' ->
  rootOf w' = rootOf w
  \/ exists (ml : Link MetaGroup) (dl : option (Link DataCollection)),
       rootOf w' !! g = Some (Group {| meta := Some ml; data := dl |}).
Proof.
  destruct (accessible w) eqn:Hacc.
  2: { rewrite (writeOutfileCorrelation_inaccessible lattice m g correlation w Hacc).
       intros [= <-]. by left. }
  rewrite (writeOutfileCorrelation_accessible lattice m g correlation w Hacc).
  destruct (rootOf w !! g) as [[[gm gd]|]|] eqn:Eg; cbn [H5Gopen default from_option id
    meta data emptyGroup].
  2: { cbn [finalWorld]. intros H. apply (inj Some) in H. subst w'. by left. }
  all: match goal with
       | |- context [match ?x with Some _ => _ | None => Undefined end] =>
           destruct x as [ml'|] eqn:Eml; [|done]
       end.
  all: intros H; right; exists ml'; revert H.
  all: repeat match goal with
         | |- context [match ?x with _ => _ end] => destruct x
         end; cbn [finalWorld]; try done; intros H; apply (inj Some) in H; subst w';
         eexists; rewrite ?rootOf_with_log, rootOf_with_disk; apply lookup_insert_eq.
Qed.

Lemma stamped_write
    (m : XYZMeasurementCorrelation) (g : string) (correlation : list float)
    (w w' : World) :
  stamped w ->
  finalWorld (_writeOutfileCorrelation lattice m g correlation w) = Some w' ->
  stamped w'.
Proof.
  intros Hstamped H.
  pose proof (writeOutfileCorrelation_effect lattice m g correlation w w' H)
    as (_ & _ & _ & _ & Hother & _).
  apply writeOutfileCorrelation_stamps in H as [Hsame|(ml & dl & Hg)].
  - intros g' group. rewrite Hsame. apply Hstamped.
  - intros g' group Hg' Hd. destruct (decide (g' = g)) as [->|Hne].
    + rewrite Hg in Hg'. injection Hg' as <-. by eexists.
    + rewrite (Hother g' Hne) in Hg'. by apply (Hstamped g' group).
Qed.

(** A snapshot write that finds the current cutoff stored writes no
    snapshot, whatever its outcome and whatever the links [meta]. *)
Lemma writeOutfileCorrelation_duplicate_objects
    (m : XYZMeasurementCorrelation) (g : string) (correlation : list float)
    (w w' : World) (name : string) (c : float) (d : Dataset) :
  objectsOf w g !! name = Some (MeasurementGroup c d) ->
  (c == _currentCutoff m)%F = true ->
  finalWorld (_writeOutfileCorrelation lattice m g correlation w) = Some w' ->
  forall name' : string, objectsOf w' name' = objectsOf w name'.
Proof.
  intros Hc Heq H name'.
  pose proof (writeOutfileCorrelation_effect lattice m g correlation w w' H)
    as (_ & _ & _ & _ & Hother & _ & _ & Hobj).
  destruct (decide (name' = g)) as [->|Hne].
  - destruct Hobj as [Hobj|(datasetId & contents & Hscan & _)]; [done|].
    apply scan_Some in Hscan as (_ & _ & Hscan). by rewrite (Hscan name c d Hc) in Heq.
  - by rewrite !objectsOf_rootOf, (Hother name' Hne).
Qed.

(** The first snapshot of a group that the file does not have. *)
Lemma writeOutfileCorrelation_first
    (m : XYZMeasurementCorrelation) (g : string) (correlation : list float) (w : World)
    (mgroup : MetaGroup) :
  accessible w = true -> rootOf w !! g = None ->
  metaGroup lattice (uninitialised w) = Some mgroup ->
  dataspaceSize lattice <= length correlation ->
  _writeOutfileCorrelation lattice m g correlation w
  = Returns ()
      (with_disk
         (Hdf5File
            (<[g := Group
                      {| meta := Some (Group mgroup);
                         data :=
                           Some (Group
                                   {[ measurementName 0 :=
                                        newMeasurementGroup lattice (_currentCutoff m)
                                          (take (dataspaceSize lattice) correlation) ]}) |}]>
               (rootOf w)))
         w).
Proof.
  intros Hacc Hg Hmeta Hlen.
  rewrite writeOutfileCorrelation_openable; [|done|].
  2: { split; [by rewrite Hg|]. by rewrite observableGroup_rootOf, Hg. }
  rewrite metaOf_rootOf, objectsOf_rootOf, Hg, Hmeta.
  cbn [H5Gopen mbind option_bind default from_option id fmap option_fmap option_map].
  rewrite objectsByIndex_empty. cbn [scanDatasets].
  unfold createMeasurement. fold (measurementName 0).
  rewrite decide_False by (rewrite lookup_empty; by intros [? ?]).
  fold (dataspaceSize lattice). rewrite (readFloats_Some _ _ Hlen).
  cbn [mbind option_bind]. by rewrite insert_empty.
Qed.

(** A snapshot write that finds no stored cutoff equal to the current one
    and no object under the name it makes: the new measurement group is put
    under that name. *)
Lemma writeOutfileCorrelation_append
    (m : XYZMeasurementCorrelation) (g : string) (correlation : list float) (w : World)
    (ml : Link MetaGroup) :
  accessible w = true -> openable w g ->
  (match metaOf w g with
   | Some ml => Some ml
   | None => Group <$> metaGroup lattice (uninitialised w)
   end) = Some ml ->
  dataspaceSize lattice <= length correlation ->
  (forall (name : string) (c : float) (d : Dataset),
     objectsOf w g !! name = Some (MeasurementGroup c d) ->
     (c == _currentCutoff m)%F = false) ->
  let datasetId := length (measurementCutoffs (objectsByIndex (objectsOf w g))) in
  objectsOf w g !! measurementName datasetId = None ->
  _writeOutfileCorrelation lattice m g correlation w
  = Returns ()
      (with_disk
         (Hdf5File
            (<[g := Group
                      {| meta := Some ml;
                         data :=
                           Some (Group
                                   (<[measurementName datasetId :=
                                        newMeasurementGroup lattice (_currentCutoff m)
                                          (take (dataspaceSize lattice) correlation)]>
                                      (objectsOf w g))) |}]>
               (rootOf w)))
         w).
Proof.
  intros Hacc Hopen Hmeta Hlen Hnew datasetId Hfresh.
  rewrite writeOutfileCorrelation_openable by done.
  rewrite Hmeta, (scan_is_Some _ _ Hnew). fold datasetId.
  unfold createMeasurement. fold (measurementName datasetId).
  rewrite decide_False by (rewrite Hfresh; by intros [? ?]).
  fold (dataspaceSize lattice). rewrite (readFloats_Some _ _ Hlen).
  done.
Qed.

End Returning.

(** *** The scenarios of the specification *)

Lemma objectsByIndex_singleton (name : string) (o : DataObject) :
  objectsByIndex {[ name := o ]} = [(name, o)].
Proof. unfold objectsByIndex. by rewrite map_to_list_singleton. Qed.

Lemma objectsByIndex_two (o0 o1 : DataObject) :
  objectsByIndex (<[measurementName 1 := o1]> {[ measurementName 0 := o0 ]})
  = [(measurementName 0, o0); (measurementName 1, o1)].
Proof. vm_compute. reflexivity. Qed.

Lemma one_neq_half : (Float.one == Float.half)%F = false.
Proof. reflexivity. Qed.

Lemma one_eq_one : (Float.one == Float.one)%F = true.
Proof. reflexivity. Qed.

Section Scenarios.

Context (lattice : Lattice).

(** Snapshots at the cutoffs 1.0, 1.0 and 0.5, written in this order where
    there was no file, for a lattice that fits the buffers of the header and
    from a buffer that fills the dataspace: the second write only logs, and
    the file then holds the two snapshots 1.0 and 0.5. *)
Lemma deduplication_scenario
    (m : XYZMeasurementCorrelation) (g : string) (correlation : list float) (w : World) :
  disk w = NoFile -> accessible w = true ->
  headerFits lattice -> dataspaceSize lattice <= length correlation ->
  exists w1 w2 w3 : World,
    _writeOutfileCorrelation lattice (set_currentCutoff Float.one m) g correlation w
    = Returns () w1
    /\ _writeOutfileCorrelation lattice (set_currentCutoff Float.one m) g correlation w1
       = Returns () w2
    /\ _writeOutfileCorrelation lattice (set_currentCutoff Float.half m) g correlation w2
       = Returns () w3
    /\ snapshots w1 g = [Float.one]
    /\ w2 = with_log (log w ++ [WarningDuplicate Float.one]) w1
    /\ snapshots w3 g = [Float.one; Float.half]
    /\ log w3 = log w ++ [WarningDuplicate Float.one].
Proof.
  intros Hdisk Hacc Hfits Hlen.
  assert (Hroot : rootOf w = ∅) by (unfold rootOf; by rewrite Hdisk).
  destruct (proj2 (metaGroup_is_Some lattice (uninitialised w)) Hfits) as [mgroup Hmeta].
  set (o0 := newMeasurementGroup lattice Float.one (take (dataspaceSize lattice) correlation)).
  set (o1 := newMeasurementGroup lattice Float.half (take (dataspaceSize lattice) correlation)).
  set (w1 := with_disk
               (Hdf5File {[ g := Group {| meta := Some (Group mgroup);
                                          data := Some (Group {[ measurementName 0 := o0 ]}) |} ]})
               w).
  set (w2 := with_log (log w ++ [WarningDuplicate Float.one]) w1).
  set (w3 := with_disk
               (Hdf5File
                  (<[g := Group {| meta := Some (Group mgroup);
                                   data := Some (Group (<[measurementName 1 := o1]>
                                                          {[ measurementName 0 := o0 ]})) |}]>
                     (rootOf w2)))
               w2).
  assert (Hobj1 : objectsOf w1 g = {[ measurementName 0 := o0 ]}).
  { unfold w1. by rewrite objectsOf_rootOf, rootOf_with_disk, lookup_singleton_eq. }
  assert (Hobj2 : objectsOf w2 g = {[ measurementName 0 := o0 ]}) by done.
  exists w1, w2, w3.
  split.
  { rewrite (writeOutfileCorrelation_first lattice _ g correlation w mgroup);
      [|done|by rewrite Hroot|done|done].
    by rewrite Hroot, insert_empty. }
  split.
  { rewrite (writeOutfileCorrelation_duplicate lattice _ g correlation w1
               (measurementName 0) Float.one
               {| shape := [length (_basis lattice); inRangeCount lattice];
                  contents := take (dataspaceSize lattice) correlation |}).
    - done.
    - done.
    - intros g' group. unfold w1. rewrite rootOf_with_disk.
      intros [<- [= <-]]%lookup_singleton_Some _. by eexists.
    - rewrite Hobj1. apply lookup_singleton_eq.
    - reflexivity. }
  split.
  { rewrite (writeOutfileCorrelation_append lattice _ g correlation w2 (Group mgroup)).
    - cbn zeta. rewrite Hobj2, objectsByIndex_singleton. reflexivity.
    - done.
    - unfold w2, w1. split.
      + by rewrite rootOf_with_log, rootOf_with_disk, lookup_singleton_eq.
      + by rewrite observableGroup_rootOf, rootOf_with_log, rootOf_with_disk,
          lookup_singleton_eq.
    - unfold w2, w1.
      by rewrite metaOf_rootOf, rootOf_with_log, rootOf_with_disk, lookup_singleton_eq.
    - done.
    - rewrite Hobj2. intros name c d [_ [= <- _]]%lookup_singleton_Some. reflexivity.
    - rewrite Hobj2, objectsByIndex_singleton. by apply lookup_singleton_ne. }
  split.
  { unfold snapshots. by rewrite Hobj1, objectsByIndex_singleton. }
  split; [done|].
  split; [|done].
  unfold snapshots, w3. rewrite objectsOf_put, decide_True by done.
  by rewrite objectsByIndex_two.
Qed.

End Scenarios.


Lemma example_fits : headerFits Example.chain.
Proof. split; vm_compute; lia. Qed.

Lemma example_stamped (objects : DataCollection) : stamped (Example.holding objects).
Proof.
  intros g group. unfold Example.holding, Example.world, rootOf. cbn [disk].
  intros [<- [= <-]]%lookup_singleton_Some _. by eexists.
Qed.


(** ** The geometry metadata *)

Section Metadata.

Context (lattice : Lattice).

(** No snapshot write changes or removes a [meta] link, whatever its
    outcome. *)
Lemma writeOutfileCorrelation_meta_kept
    (m : XYZMeasurementCorrelation) (g : string) (correlation : list float)
    (w w' : World) (name : string) (ml : Link MetaGroup) :
  finalWorld (_writeOutfileCorrelation lattice m g correlation w) = Some w' ->
  metaOf w name = Some ml -> metaOf w' name = Some ml.
Proof.
  intros H Hml.
  pose proof (writeOutfileCorrelation_effect lattice m g correlation w w' H)
    as (_ & _ & _ & _ & Hother & Hmeta & _).
  destruct (decide (name = g)) as [->|Hne]; [by apply Hmeta|].
  by rewrite metaOf_rootOf, (Hother name Hne), <- metaOf_rootOf.
Qed.

(** A snapshot write that returns on a group without a [meta] link has run
    the header inside its buffers, and the group has the [meta] group of the
    lattice. *)
Lemma writeOutfileCorrelation_meta_written
    (m : XYZMeasurementCorrelation) (g : string) (correlation : list float)
    (w w' : World) :
  _writeOutfileCorrelation lattice m g correlation w = Returns () w' ->
  metaOf w g = None ->
  exists mgroup : MetaGroup,
    metaGroup lattice (uninitialised w) = Some mgroup
    /\ metaOf w' g = Some (Group mgroup).
Proof.
  destruct (accessible w) eqn:Hacc.
  2: by rewrite (writeOutfileCorrelation_inaccessible lattice m g correlation w Hacc).
  rewrite (writeOutfileCorrelation_accessible lattice m g correlation w Hacc).
  rewrite metaOf_rootOf.
  destruct (rootOf w !! g) as [[[gm gd]|]|] eqn:Eg; cbn [H5Gopen default from_option id
    meta data emptyGroup mbind option_bind]; [|done|].
  all: intros H Hgm; try subst gm;
    destruct (metaGroup lattice (uninitialised w)) as [mgroup|]; [|done];
    exists mgroup; (split; [done|]); revert H;
    cbn [fmap option_fmap option_map];
    repeat match goal with
      | |- context [match ?x with _ => _ end] => destruct x
      end; try done; intros [= <-];
    by rewrite ?metaOf_with_log, metaOf_put, decide_True.
Qed.

(** [_writeOutfileHeader] on a group that has a [meta] link writes nothing
    and logs the warning. *)
Lemma writeOutfileHeader_skips
    (m : XYZMeasurementCorrelation) (g : string) (w : World)
    (group : ObservableGroup) (ml : Link MetaGroup) :
  accessible w = true -> rootOf w !! g = Some (Group group) -> meta group = Some ml ->
  _writeOutfileHeader lattice m g w
  = Returns () (with_log (log w ++ [WarningMetaExists (outfile m) g]) w).
Proof.
  intros Hacc Hg Hml.
  destruct (disk w) as [| |root] eqn:Hdisk;
    [unfold rootOf in Hg; by rewrite Hdisk, lookup_empty in Hg..|].
  assert (root !! g = Some (Group group)) as Hroot
    by (unfold rootOf in Hg; by rewrite Hdisk in Hg).
  by rewrite (writeOutfileHeader_group lattice m g w root group Hacc Hdisk Hroot), Hml.
Qed.

(** Two snapshots written where there was no file, the second one for
    another lattice: the [meta] group is the one of the first write. *)
Lemma metadata_scenario
    (lattice' : Lattice) (m : XYZMeasurementCorrelation) (g : string)
    (correlation : list float) (w : World) :
  disk w = NoFile -> accessible w = true ->
  headerFits lattice -> dataspaceSize lattice <= length correlation ->
  dataspaceSize lattice' <= length correlation ->
  exists (w1 w2 : World) (mgroup : MetaGroup),
    _writeOutfileCorrelation lattice (set_currentCutoff Float.one m) g correlation w
    = Returns () w1
    /\ _writeOutfileCorrelation lattice' (set_currentCutoff Float.half m) g correlation w1
       = Returns () w2
    /\ metaGroup lattice (uninitialised w) = Some mgroup
    /\ metaOf w1 g = Some (Group mgroup)
    /\ metaOf w2 g = Some (Group mgroup)
    /\ snapshots w2 g = [Float.one; Float.half].
Proof.
  intros Hdisk Hacc Hfits Hlen Hlen'.
  assert (Hroot : rootOf w = ∅) by (unfold rootOf; by rewrite Hdisk).
  destruct (proj2 (metaGroup_is_Some lattice (uninitialised w)) Hfits) as [mgroup Hmeta].
  set (o0 := newMeasurementGroup lattice Float.one (take (dataspaceSize lattice) correlation)).
  set (o1 := newMeasurementGroup lattice' Float.half
               (take (dataspaceSize lattice') correlation)).
  set (w1 := with_disk
               (Hdf5File {[ g := Group {| meta := Some (Group mgroup);
                                          data := Some (Group {[ measurementName 0 := o0 ]}) |} ]})
               w).
  set (w2 := with_disk
               (Hdf5File
                  (<[g := Group {| meta := Some (Group mgroup);
                                   data := Some (Group (<[measurementName 1 := o1]>
                                                          {[ measurementName 0 := o0 ]})) |}]>
                     (rootOf w1)))
               w1).
  assert (Hobj1 : objectsOf w1 g = {[ measurementName 0 := o0 ]}).
  { unfold w1. by rewrite objectsOf_rootOf, rootOf_with_disk, lookup_singleton_eq. }
  exists w1, w2, mgroup.
  split.
  { rewrite (writeOutfileCorrelation_first lattice _ g correlation w mgroup);
      [|done|by rewrite Hroot|done|done].
    by rewrite Hroot, insert_empty. }
  split.
  { rewrite (writeOutfileCorrelation_append lattice' _ g correlation w1 (Group mgroup)).
    - cbn zeta. rewrite Hobj1, objectsByIndex_singleton. reflexivity.
    - done.
    - unfold w1. split.
      + by rewrite rootOf_with_disk, lookup_singleton_eq.
      + by rewrite observableGroup_rootOf, rootOf_with_disk, lookup_singleton_eq.
    - unfold w1. by rewrite metaOf_rootOf, rootOf_with_disk, lookup_singleton_eq.
    - done.
    - rewrite Hobj1. intros name c d [_ [= <- _]]%lookup_singleton_Some. reflexivity.
    - rewrite Hobj1, objectsByIndex_singleton. by apply lookup_singleton_ne. }
  split; [done|].
  split.
  { unfold w1. by rewrite metaOf_rootOf, rootOf_with_disk, lookup_singleton_eq. }
  split.
  { unfold w2. by rewrite metaOf_put, decide_True. }
  unfold snapshots, w2. rewrite objectsOf_put, decide_True by done.
  by rewrite objectsByIndex_two.
Qed.

End Metadata.

(** C8.  The geometry metadata is written at most once per observable group.
    No snapshot write, whatever its outcome, changes or removes a [meta]
    link that is there; a write that returns on a group without one has
    written the [meta] group of its lattice; [_writeOutfileHeader], called
    on a group that has a [meta] link, writes nothing and logs a warning;
    and snapshots at the cutoffs 1.0 and 0.5, written into one group where
    there was no file, leave the one [meta] group of the first write, even
    if the second write is for another lattice.  The first write of the
    scenario needs a lattice that fits the buffers of the header, and both
    need a buffer that fills their dataspace. *)
Theorem metadata_written_once
    (lattice : Lattice) (m : XYZMeasurementCorrelation) (g : string)
    (correlation : list float) :
  (forall (w w' : World) (name : string) (ml : Link MetaGroup),
     finalWorld (_writeOutfileCorrelation lattice m g correlation w) = Some w' ->
     metaOf w name = Some ml -> metaOf w' name = Some ml)
  /\ (forall w w' : World,
        _writeOutfileCorrelation lattice m g correlation w = Returns () w' ->
        metaOf w g = None ->
        exists mgroup : MetaGroup,
          metaGroup lattice (uninitialised w) = Some mgroup
          /\ metaOf w' g = Some (Group mgroup))
  /\ (forall (w : World) (group : ObservableGroup) (ml : Link MetaGroup),
        accessible w = true -> rootOf w !! g = Some (Group group) ->
        meta group = Some ml ->
        _writeOutfileHeader lattice m g w
        = Returns () (with_log (log w ++ [WarningMetaExists (outfile m) g]) w))
  /\ (forall (lattice' : Lattice) (w : World),
        disk w = NoFile -> accessible w = true ->
        headerFits lattice -> dataspaceSize lattice <= length correlation ->
        dataspaceSize lattice' <= length correlation ->
        exists (w1 w2 : World) (mgroup : MetaGroup),
          _writeOutfileCorrelation lattice (set_currentCutoff Float.one m) g correlation w
          = Returns () w1
          /\ _writeOutfileCorrelation lattice' (set_currentCutoff Float.half m) g
               correlation w1
             = Returns () w2
          /\ metaGroup lattice (uninitialised w) = Some mgroup
          /\ metaOf w1 g = Some (Group mgroup)
          /\ metaOf w2 g = Some (Group mgroup)
          /\ snapshots w2 g = [Float.one; Float.half]).
Proof.
  split; [|split; [|split]].
  - intros w w' name ml. apply writeOutfileCorrelation_meta_kept.
  - intros w w'. apply writeOutfileCorrelation_meta_written.
  - intros w group ml. apply writeOutfileHeader_skips.
  - intros lattice' w. apply metadata_scenario.
Qed.

Lemma example_geometry (junk : nat -> float) :
  metaGroup Example.chain junk = Some Example.geometry.
Proof. vm_compute. reflexivity. Qed.

Lemma metadata_written_once_witness :
  (exists w' : World,
     _writeOutfileCorrelation Example.chain Example.measurement "XYZCorDD" Example.buffer
       Example.stored = Returns () w'
     /\ metaOf w' "XYZCorDD" = Some (Group Example.geometry))
  /\ (exists w' : World,
        _writeOutfileCorrelation Example.chain Example.measurement "XYZCorDD"
          Example.buffer (Example.world (Hdf5File ∅) Float.one) = Returns () w'
        /\ metaOf w' "XYZCorDD" = Some (Group Example.geometry))
  /\ _writeOutfileHeader Example.chain Example.measurement "XYZCorDD" Example.stored
     = Returns () (with_log [WarningMetaExists "obs.h5" "XYZCorDD"] Example.stored)
  /\ (exists w2 : World,
        metaOf w2 "XYZCorDD" = Some (Group Example.geometry)
        /\ snapshots w2 "XYZCorDD" = [Float.one; Float.half]).
Proof.
  pose proof (metadata_written_once Example.chain Example.measurement "XYZCorDD"
                Example.buffer) as (Hkept & Hwritten & Hheader & Hscenario).
  split; [|split; [|split]].
  - destruct (_writeOutfileCorrelation Example.chain Example.measurement "XYZCorDD"
                Example.buffer Example.stored) as [[] w'| |] eqn:E;
      [|by vm_compute in E..].
    exists w'. split; [reflexivity|].
    apply (Hkept Example.stored w' "XYZCorDD" (Group Example.geometry)).
    + by rewrite E.
    + vm_compute. reflexivity.
  - destruct (_writeOutfileCorrelation Example.chain Example.measurement "XYZCorDD"
                Example.buffer (Example.world (Hdf5File ∅) Float.one)) as [[] w'| |] eqn:E;
      [|by vm_compute in E..].
    exists w'. split; [reflexivity|].
    destruct (Hwritten _ w' E) as (mgroup & Hm & Hw'); [vm_compute; reflexivity|].
    rewrite example_geometry in Hm. by injection Hm as <-.
  - apply (Hheader Example.stored
             {| meta := Some (Group Example.geometry);
                data := Some (Group {[ "measurement_0" := Example.snapshot Float.one ]}) |}
             (Group Example.geometry)); [reflexivity| |reflexivity].
    apply lookup_singleton_eq.
  - destruct (Hscenario Example.chain (Example.world NoFile Float.one))
      as (w1 & w2 & mgroup & _ & _ & Hm & _ & H2 & H3).
    + reflexivity.
    + reflexivity.
    + apply example_fits.
    + vm_compute. lia.
    + vm_compute. lia.
    + exists w2. split; [|exact H3].
      change (uninitialised (Example.world NoFile Float.one)) with (fun _ : nat => Float.of_Z 7) in Hm.
      rewrite example_geometry in Hm. by injection Hm as <-.
Defined.

(** ** The file that is not an HDF5 file *)

Lemma fileError_groupError (m : XYZMeasurementCorrelation) (g : string) :
  fileError m <> groupError g.
Proof. unfold fileError, groupError. intros H. by injection H. Qed.

Lemma fileError_dataError (m : XYZMeasurementCorrelation) (g : string) :
  fileError m <> dataError g.
Proof. unfold fileError, dataError. intros H. by injection H. Qed.

(** What a snapshot write throws: the file error, when the path can be
    neither opened nor created, and otherwise the group error or the data
    error. *)
Lemma writeOutfileCorrelation_throws
    (lattice : Lattice) (m : XYZMeasurementCorrelation) (g : string)
    (correlation : list float) (w w' : World) (e : Exception) :
  _writeOutfileCorrelation lattice m g correlation w = Throws e w' ->
  (accessible w = false /\ e = fileError m /\ w' = w)
  \/ (accessible w = true /\ rootOf w !! g = Some NotAGroup /\ e = groupError g /\ w' = w)
  \/ (accessible w = true
      /\ (observableGroup w g ≫= data) = Some NotAGroup /\ e = dataError g).
Proof.
  destruct (accessible w) eqn:Hacc.
  2: { rewrite (writeOutfileCorrelation_inaccessible lattice m g correlation w Hacc).
       intros [= <- <-]. by left. }
  rewrite (writeOutfileCorrelation_accessible lattice m g correlation w Hacc).
  rewrite observableGroup_rootOf.
  destruct (rootOf w !! g) as [[[gm gd]|]|] eqn:Eg; cbn [H5Gopen default from_option id
    meta data emptyGroup mbind option_bind].
  2: { intros [= <- <-]. right. by left. }
  all: repeat match goal with
         | |- context [match ?x with _ => _ end] => destruct x
         end; try done; intros [= <- <-]; right; right; done.
Qed.

(** C10.  When the path holds a file that is not an HDF5 file, a snapshot
    write on a path that can be created throws nothing: the file is
    truncated and replaced by a new HDF5 file.  For a lattice that fits the
    buffers of the header and a buffer that fills the dataspace the write
    returns, and the new file holds the observable group with its [meta]
    group and the one new snapshot, and nothing of the old file.  On any
    file, the write throws the I/O error that carries the path exactly when
    opening or creating the file fails, and the world is then as it was. *)
Theorem foreign_file_replaced
    (lattice : Lattice) (m : XYZMeasurementCorrelation) (g : string)
    (correlation : list float) (w : World) :
  disk w = ForeignFile ->
  (accessible w = true ->
   (forall (e : Exception) (w' : World),
      _writeOutfileCorrelation lattice m g correlation w <> Throws e w')
   /\ (forall w' : World,
         finalWorld (_writeOutfileCorrelation lattice m g correlation w) = Some w' ->
         exists (ml : Link MetaGroup) (objects : DataCollection),
           disk w'
           = Hdf5File {[ g := Group {| meta := Some ml; data := Some (Group objects) |} ]})
   /\ (headerFits lattice -> dataspaceSize lattice <= length correlation ->
       exists mgroup : MetaGroup,
         metaGroup lattice (uninitialised w) = Some mgroup
         /\ _writeOutfileCorrelation lattice m g correlation w
            = Returns ()
                (with_disk
                   (Hdf5File
                      {[ g := Group
                                {| meta := Some (Group mgroup);
                                   data :=
                                     Some (Group
                                             {[ measurementName 0 :=
                                                  newMeasurementGroup lattice
                                                    (_currentCutoff m)
                                                    (take (dataspaceSize lattice)
                                                          correlation) ]}) |} ]})
                   w)))
  /\ (forall w0 w0' : World,
        _writeOutfileCorrelation lattice m g correlation w0 = Throws (fileError m) w0' <->
        openOrCreateFile w0 = None /\ w0' = w0).
Proof.
  intros Hdisk.
  assert (Hroot : rootOf w = ∅) by (unfold rootOf; by rewrite Hdisk).
  split.
  - intros Hacc.
    assert (Hopen : openable w g).
    { split; [by rewrite Hroot, lookup_empty|].
      by rewrite observableGroup_rootOf, Hroot, lookup_empty. }
    split; [|split].
    + intros e w' H.
      apply writeOutfileCorrelation_throws in H as [(H & _)|[(_ & H & _)|(_ & H & _)]].
      * congruence.
      * by rewrite Hroot, lookup_empty in H.
      * by rewrite observableGroup_rootOf, Hroot, lookup_empty in H.
    + intros w'. rewrite (writeOutfileCorrelation_openable lattice m g correlation w Hacc Hopen).
      cbn zeta.
      repeat match goal with
             | |- context [match ?x with _ => _ end] => destruct x
             end; try done; intros [= <-]; cbn [disk with_disk with_log];
        rewrite Hroot, insert_empty; eauto.
    + intros Hfits Hlen.
      destruct (proj2 (metaGroup_is_Some lattice (uninitialised w)) Hfits) as [mgroup Hmeta].
      exists mgroup. split; [done|].
      rewrite (writeOutfileCorrelation_first lattice m g correlation w mgroup);
        [|done|by rewrite Hroot|done|done].
      by rewrite Hroot, insert_empty.
  - intros w0 w0'. rewrite openOrCreateFile_None. split.
    + intros H.
      apply writeOutfileCorrelation_throws in H
        as [(H & _ & ->)|[(_ & _ & H & _)|(_ & _ & H)]]; [done| |].
      * by apply fileError_groupError in H.
      * by apply fileError_dataError in H.
    + intros [Hacc ->]. by apply writeOutfileCorrelation_inaccessible.
Qed.

Lemma foreign_file_replaced_witness :
  _writeOutfileCorrelation Example.chain Example.measurement "XYZCorDD" Example.buffer
    (Example.world ForeignFile Float.one)
  = Returns ()
      (Example.world
         (Hdf5File
            {[ "XYZCorDD" :=
                 Group {| meta := Some (Group Example.geometry);
                          data := Some (Group {[ "measurement_0" :=
                                                   MeasurementGroup (- Float.one)%F
                                                     {| shape := [1; 3];
                                                        contents := Example.buffer |} ]}) |} ]})
         Float.one).
Proof.
  destruct (proj1 (foreign_file_replaced Example.chain Example.measurement "XYZCorDD"
                     Example.buffer (Example.world ForeignFile Float.one) eq_refl) eq_refl)
    as (_ & _ & H).
  destruct (H example_fits) as (mgroup & Hm & ->); [vm_compute; lia|].
  change (uninitialised (Example.world ForeignFile Float.one))
    with (fun _ : nat => Float.of_Z 7) in Hm.
  rewrite example_geometry in Hm. by injection Hm as <-.
Defined.

(** ** The cutoff cache *)

(** *** Comparisons of floats *)

Lemma SFcompare_antisym (a b : float) :
  SFcompare b a = CompOpp <$> SFcompare a b.
Proof.
  destruct a as [[]|[]| |[] ma ea], b as [[]|[]| |[] mb eb]; simpl; try done;
    rewrite (Z.compare_antisym ea eb); destruct (ea ?= eb)%Z; simpl; try done;
    pose proof (Pos.compare_cont_antisym ma mb Eq) as E; simpl in E; rewrite <- E;
    by destruct (Pos.compare_cont Eq ma mb).
Qed.

Lemma eqb_sym (a b : float) : (a == b)%F = (b == a)%F.
Proof.
  unfold Float.eqb, SFeqb. rewrite (SFcompare_antisym a b).
  by destruct (SFcompare a b) as [[]|].
Qed.

Lemma eqb_nan (a : float) : (a == S754_nan)%F = false.
Proof. by destruct a. Qed.

Lemma neb_nan (a : float) : (a != S754_nan)%F = true.
Proof. by destruct a. Qed.

(** Floats that are equal by [==] compare alike with every float. *)
Lemma eqb_compare (a c b : float) :
  (a == c)%F = true -> SFcompare a b = SFcompare c b.
Proof.
  unfold Float.eqb, SFeqb.
  destruct a as [[]|[]| |[] ma ea], c as [[]|[]| |[] mc ec]; simpl; try done.
  all: destruct (Z.compare_spec ea ec) as [->| |]; try done.
  all: fold (Pos.compare ma mc); destruct (Pos.compare_spec ma mc) as [->| |]; try done;
    simpl; by rewrite ?Pos.compare_cont_refl.
Qed.

Lemma eqb_trans (a b c : float) :
  (a == b)%F = true -> (b == c)%F = true -> (a == c)%F = true.
Proof.
  intros Hab Hbc. unfold Float.eqb, SFeqb in *.
  by rewrite (eqb_compare a b c Hab).
Qed.

Lemma eqb_refl_l (a b : float) : (a == b)%F = true -> (a == a)%F = true.
Proof. intros H. apply (eqb_trans a b a); [done|]. by rewrite eqb_sym. Qed.

Lemma neb_eqb (a b : float) : (a != b)%F = negb (a == b)%F.
Proof. reflexivity. Qed.

(** A float below a float that is strictly below [c] is not equal to [c]. *)
Lemma below_neb (e d c : float) :
  ((e < d) || (e == d))%F = true ->
  ((d < c) || (d == c))%F = true ->
  (d == c)%F = false ->
  (e != c)%F = true.
Proof.
  intros Hed Hdc Hne. rewrite Hne, orb_false_r in Hdc.
  rewrite neb_eqb. destruct (e == c)%F eqn:Hec; [|done]. exfalso.
  unfold Float.ltb, Float.eqb, SFltb, SFeqb in *.
  rewrite (eqb_compare e c d Hec), (SFcompare_antisym d c) in Hed.
  by destruct (SFcompare d c) as [[]|].
Qed.

(** *** Flows whose cutoff decreases *)

Lemma filter_all {A : Type} (p : A -> bool) (l : list A) :
  (forall a, a ∈ l -> p a = true) -> List.filter p l = l.
Proof.
  induction l as [|a l IH]; intros H; [done|]. simpl.
  rewrite (H a) by apply list_elem_of_here. f_equal. apply IH.
  intros b Hb. apply H. by apply list_elem_of_further.
Qed.

Lemma filter_ext_in {A : Type} (p q : A -> bool) (l : list A) :
  (forall a, a ∈ l -> p a = q a) -> List.filter p l = List.filter q l.
Proof.
  induction l as [|a l IH]; intros H; [done|]. simpl.
  rewrite (H a) by apply list_elem_of_here. rewrite IH; [done|].
  intros b Hb. apply H. by apply list_elem_of_further.
Qed.

Lemma elem_of_filter_bool {A : Type} (p : A -> bool) (l : list A) (a : A) :
  a ∈ List.filter p l -> a ∈ l.
Proof.
  induction l as [|b l IH]; [done|]. simpl. destruct (p b).
  - intros [->|H]%elem_of_cons; [apply list_elem_of_here|].
    apply list_elem_of_further. by apply IH.
  - intros H. apply list_elem_of_further. by apply IH.
Qed.

Lemma elem_of_distinctValues (cutoffs : list float) (c : float) :
  c ∈ distinctValues cutoffs -> c ∈ cutoffs.
Proof.
  induction cutoffs as [|d cutoffs IH]; [done|]. simpl.
  intros [->|H]%elem_of_cons; [apply list_elem_of_here|].
  apply list_elem_of_further. apply IH. by apply elem_of_filter_bool in H.
Qed.

Lemma decreasing_cons (c : float) (cutoffs : list float) :
  decreasing (c :: cutoffs) = true ->
  (c == c)%F = true
  /\ (forall e, e ∈ cutoffs -> ((e < c) || (e == c))%F = true)
  /\ decreasing cutoffs = true.
Proof.
  simpl. intros [[H1 H2]%andb_prop H3]%andb_prop.
  split; [done|]. split; [|done].
  intros e He. rewrite forallb_forall in H2. apply H2. by apply list_elem_of_In.
Qed.

Lemma decreasing_head (c : float) (cutoffs : list float) :
  decreasing (c :: cutoffs) = true ->
  forall e, e ∈ c :: cutoffs -> ((e < c) || (e == c))%F = true.
Proof.
  intros (Hc & Hle & _)%decreasing_cons e [->|He]%elem_of_cons; [|by apply Hle].
  by rewrite Hc, orb_true_r.
Qed.

(** After the measurement at the first cutoff of a decreasing flow, the
    recomputations that follow are fewer than the distinct values. *)
Lemma recomputations_after (cutoffs : list float) :
  forall c cache : float,
    decreasing (c :: cutoffs) = true -> (cache == c)%F = true ->
    S (recomputations cache cutoffs) <= length (distinctValues (c :: cutoffs)).
Proof.
  induction cutoffs as [|d cutoffs IH]; intros c cache Hdec Hcache; [simpl; lia|].
  pose proof (decreasing_cons _ _ Hdec) as (Hc & Hle & Hdec').
  cbn [recomputations]. rewrite neb_eqb.
  change (distinctValues (c :: d :: cutoffs))
    with (c :: List.filter (fun c' => (c' != c)%F) (distinctValues (d :: cutoffs))).
  cbn [length].
  destruct (cache == d)%F eqn:Hd; cbn [negb].
  - (* the flow stays at the cutoff of the cache *)
    assert (Hcd : (d == c)%F = true).
    { apply (eqb_trans d cache c); [by rewrite eqb_sym|done]. }
    specialize (IH d cache Hdec' Hd).
    enough (length (distinctValues (d :: cutoffs))
            <= S (length (List.filter (fun c' => (c' != c)%F) (distinctValues (d :: cutoffs)))))
      by lia.
    cbn [distinctValues List.filter]. rewrite neb_eqb, Hcd. cbn [negb length].
    rewrite (filter_all (fun c' => (c' != c)%F)); [lia|].
    intros e He. apply elem_of_filter_bool in He as He'.
    apply list_elem_of_In, filter_In in He as [_ He]. revert He.
    rewrite !neb_eqb. destruct (e == c)%F eqn:Hec; [|done].
    rewrite (eqb_trans e c d Hec); [done|by rewrite eqb_sym].
  - (* the flow moves to a lower cutoff *)
    assert (Hcd : (d == c)%F = false).
    { destruct (d == c)%F eqn:E; [|done].
      rewrite (eqb_trans cache c d Hcache) in Hd; [done|by rewrite eqb_sym]. }
    assert (Hdd : (d == d)%F = true) by (by apply decreasing_cons in Hdec' as (? & _)).
    specialize (IH d d Hdec' Hdd).
    rewrite (filter_all (fun c' => (c' != c)%F)); [lia|].
    intros e He. apply elem_of_distinctValues in He.
    apply (below_neb e d c); [by apply (decreasing_head d cutoffs)| |done].
    apply Hle. apply list_elem_of_here.
Qed.

(** Along a flow whose cutoff decreases, the measurements at which the
    cache differs from the cutoff are at most as many as the distinct
    cutoffs. *)
Lemma recomputations_distinct (cache : float) (cutoffs : list float) :
  decreasing cutoffs = true ->
  recomputations cache cutoffs <= length (distinctValues cutoffs).
Proof.
  destruct cutoffs as [|c cutoffs]; intros Hdec; [done|].
  pose proof (decreasing_cons _ _ Hdec) as (Hc & _).
  cbn [recomputations]. rewrite neb_eqb. destruct (cache == c)%F eqn:E; cbn [negb].
  - pose proof (recomputations_after cutoffs c cache Hdec E). lia.
  - apply (recomputations_after cutoffs c c Hdec Hc).
Qed.

(** *** A measurement, step by step *)

Section Steps.

Context (lattice : Lattice) (frequency : FrequencyDiscretization)
        (integrator : ImplicitIntegrator).

Lemma calculateStack_frame (flow : EffectiveAction) (iterators : list nat) :
  forall m m' : XYZMeasurementCorrelation,
    calculateStack lattice frequency integrator flow iterators m = Some m' ->
    outfile m' = outfile m /\ _currentCutoff m' = _currentCutoff m
    /\ _memoryStepLattice m' = _memoryStepLattice m
    /\ forall c, length (correlations m' c) = length (correlations m c).
Proof.
  induction iterators as [|it iterators IH]; intros m m' H; simpl in H.
  - by injection H as <-.
  - destruct (_calculateCorrelation lattice frequency integrator flow it m) as [m1|] eqn:E;
      [|done].
    simpl in H. apply calculateCorrelation_frame in E.
    destruct E as (Eo & Ec & Es & Eb). apply IH in H. destruct H as (Ho & Hc & Hs & Hb).
    do 3 (split; [congruence|]). intros c. rewrite Hb. by destruct (Eb c).
Qed.

(** What a measurement does, by the comparison of line 87: without a
    recomputation the four writes are made for the measurement as it is; with
    one, [calculate] is counted, the callback runs for the iterator 0 on the
    measurement with the cache set, and the writes are made for its result. *)
Lemma takeMeasurement_cases (state : EffectiveAction) (isMasterTask : bool)
    (m : XYZMeasurementCorrelation) (w : World) :
  takeMeasurement lattice frequency integrator state isMasterTask m w
  = if (_currentCutoff m != cutoff state)%F
    then match _calculateCorrelation lattice frequency integrator (flowingFunctional w) 0
                 (set_currentCutoff (cutoff (flowingFunctional w)) m) with
         | Some m1 =>
             if isMasterTask
             then writeSnapshots lattice m1 (with_calculateCalls (S (calculateCalls w)) w)
             else Returns m1 (with_calculateCalls (S (calculateCalls w)) w)
         | None => Undefined
         end
    else if isMasterTask then writeSnapshots lattice m w else Returns m w.
Proof.
  unfold takeMeasurement, writeSnapshots.
  unfold mbind at 1. unfold Action_bind at 1.
  destruct (_currentCutoff m != cutoff state)%F.
  - unfold calculate, linearSize. cbn [seq calculateStack].
    destruct (_calculateCorrelation _ _ _ _ _ _) as [m1|]; [|done].
    cbn [mbind option_bind]. by destruct isMasterTask.
  - by destruct isMasterTask.
Qed.

(** The four writes, one after the other. *)
Lemma writeSnapshots_steps (m : XYZMeasurementCorrelation) (w w' : World) :
  finalWorld (writeSnapshots lattice m w) = Some w' ->
  exists w1 w2 w3 : World,
    finalWorld (_writeOutfileCorrelation lattice m "XYZCorXX" (_correlationsXX m) w) = Some w1
    /\ (w' = w1
        \/ finalWorld (_writeOutfileCorrelation lattice m "XYZCorYY" (_correlationsYY m) w1)
           = Some w2
           /\ (w' = w2
               \/ finalWorld
                    (_writeOutfileCorrelation lattice m "XYZCorZZ" (_correlationsZZ m) w2)
                  = Some w3
                  /\ (w' = w3
                      \/ finalWorld
                           (_writeOutfileCorrelation lattice m "XYZCorDD"
                              (_correlationsDD m) w3)
                         = Some w'))).
Proof.
  unfold writeSnapshots, mbind, Action_bind, mret, Action_ret.
  destruct (_writeOutfileCorrelation lattice m "XYZCorXX" _ w) as [[] w1|e w1|] eqn:E1;
    [|intros [= <-]; exists w1, w1, w1; rewrite ?E1; split; [done|by left]|done].
  destruct (_writeOutfileCorrelation lattice m "XYZCorYY" _ w1) as [[] w2|e w2|] eqn:E2;
    [|intros [= <-]; exists w1, w2, w2; rewrite ?E1, ?E2; split; [done|]; right;
      split; [done|by left]|done].
  destruct (_writeOutfileCorrelation lattice m "XYZCorZZ" _ w2) as [[] w3|e w3|] eqn:E3;
    [|intros [= <-]; exists w1, w2, w3; rewrite ?E1, ?E2, ?E3; split; [done|]; right;
      split; [done|]; right; split; [done|by left]|done].
  destruct (_writeOutfileCorrelation lattice m "XYZCorDD" _ w3) as [[] w4|e w4|] eqn:E4;
    [| |done]; intros [= <-]; exists w1, w2, w3; rewrite ?E1, ?E2, ?E3, ?E4;
      (split; [done|]); right; (split; [done|]); right; (split; [done|]); by right.
Qed.

Lemma writeSnapshots_returns (m m' : XYZMeasurementCorrelation) (w w' : World) :
  writeSnapshots lattice m w = Returns m' w' ->
  m' = m
  /\ exists w1 w2 w3 : World,
       _writeOutfileCorrelation lattice m "XYZCorXX" (_correlationsXX m) w = Returns () w1
       /\ _writeOutfileCorrelation lattice m "XYZCorYY" (_correlationsYY m) w1 = Returns () w2
       /\ _writeOutfileCorrelation lattice m "XYZCorZZ" (_correlationsZZ m) w2 = Returns () w3
       /\ _writeOutfileCorrelation lattice m "XYZCorDD" (_correlationsDD m) w3 = Returns () w'.
Proof.
  unfold writeSnapshots, mbind, Action_bind, mret, Action_ret.
  destruct (_writeOutfileCorrelation lattice m "XYZCorXX" _ w) as [[] w1|e w1|] eqn:E1;
    [|done..].
  destruct (_writeOutfileCorrelation lattice m "XYZCorYY" _ w1) as [[] w2|e w2|] eqn:E2;
    [|done..].
  destruct (_writeOutfileCorrelation lattice m "XYZCorZZ" _ w2) as [[] w3|e w3|] eqn:E3;
    [|done..].
  destruct (_writeOutfileCorrelation lattice m "XYZCorDD" _ w3) as [[] w4|e w4|] eqn:E4;
    [|done..].
  intros [= <- <-]. split; [done|]. exists w1, w2, w3. by rewrite ?E1, ?E2, ?E3, ?E4.
Qed.

(** The four writes leave the world outside the file and the log alone. *)
Lemma writeSnapshots_frame (m : XYZMeasurementCorrelation) (w w' : World) :
  finalWorld (writeSnapshots lattice m w) = Some w' ->
  accessible w' = accessible w
  /\ calculateCalls w' = calculateCalls w
  /\ flowingFunctional w' = flowingFunctional w
  /\ uninitialised w' = uninitialised w.
Proof.
  intros (w1 & w2 & w3 & H1 & H)%writeSnapshots_steps.
  apply writeOutfileCorrelation_effect in H1 as (A1 & B1 & C1 & D1 & _).
  destruct H as [->|[H2 H]]; [done|].
  apply writeOutfileCorrelation_effect in H2 as (A2 & B2 & C2 & D2 & _).
  destruct H as [->|[H3 H]]; [by rewrite A2, B2, C2, D2|].
  apply writeOutfileCorrelation_effect in H3 as (A3 & B3 & C3 & D3 & _).
  destruct H as [->|H4]; [by rewrite A3, B3, C3, D3, A2, B2, C2, D2|].
  apply writeOutfileCorrelation_effect in H4 as (A4 & B4 & C4 & D4 & _).
  by rewrite A4, B4, C4, D4, A3, B3, C3, D3, A2, B2, C2, D2.
Qed.

End Steps.

(** *** The first measurement *)

Lemma sentinel_not_different : ((- Float.one) != (- Float.one))%F = false.
Proof. reflexivity. Qed.

Lemma length_correlations_construct
    (lattice : Lattice) (outfile : string) (junkXX junkYY junkZZ junkDD : nat -> float)
    (c : SpinComponent.t) :
  length (correlations (construct lattice outfile junkXX junkYY junkZZ junkDD) c)
  = length (_basis lattice) * length (getRangeOfBasis lattice 0).
Proof. destruct c; apply length_newFloatArray. Qed.

(** The four writes where the file has no group yet, for a lattice that
    fits the buffers of the header and buffers that fill the dataspace: each
    channel group receives its [meta] group and the snapshot
    [measurement_0]. *)
Lemma writeSnapshots_first
    (lattice : Lattice) (m : XYZMeasurementCorrelation) (w : World) (mgroup : MetaGroup) :
  accessible w = true -> rootOf w = ∅ ->
  metaGroup lattice (uninitialised w) = Some mgroup ->
  (forall c : SpinComponent.t, dataspaceSize lattice <= length (correlations m c)) ->
  exists w' : World,
    writeSnapshots lattice m w = Returns m w'
    /\ calculateCalls w' = calculateCalls w
    /\ log w' = log w
    /\ forall c : SpinComponent.t,
         rootOf w' !! observableName c
         = Some (Group
                   {| meta := Some (Group mgroup);
                      data :=
                        Some (Group
                                {[ measurementName 0 :=
                                     newMeasurementGroup lattice (_currentCutoff m)
                                       (take (dataspaceSize lattice)
                                             (correlations m c)) ]}) |}).
Proof.
  intros Hacc Hroot Hmeta Hlen.
  unfold writeSnapshots, mbind, Action_bind, mret, Action_ret.
  rewrite (writeOutfileCorrelation_first lattice m "XYZCorXX" _ w mgroup);
    [|done|by rewrite Hroot|done|apply (Hlen SpinComponent.X)].
  rewrite (writeOutfileCorrelation_first lattice m "XYZCorYY" _ _ mgroup);
    [|done|by rewrite rootOf_with_disk, lookup_insert_ne, Hroot|done
     |apply (Hlen SpinComponent.Y)].
  rewrite (writeOutfileCorrelation_first lattice m "XYZCorZZ" _ _ mgroup);
    [|done|by rewrite rootOf_with_disk, !lookup_insert_ne, Hroot|done
     |apply (Hlen SpinComponent.Z)].
  rewrite (writeOutfileCorrelation_first lattice m "XYZCorDD" _ _ mgroup);
    [|done|by rewrite rootOf_with_disk, !lookup_insert_ne, Hroot|done
     |apply (Hlen SpinComponent.None)].
  eexists. split; [reflexivity|]. split; [reflexivity|]. split; [reflexivity|].
  rewrite !rootOf_with_disk.
  intros []; cbn [observableName correlations];
    rewrite ?(lookup_insert_ne (M:=gmap string)) by done;
    by rewrite lookup_insert_eq.
Qed.



(** *** A second measurement at the same cutoff *)

Section Settled.

Context (lattice : Lattice).

Lemma writeOutfileCorrelation_returns_openable
    (m : XYZMeasurementCorrelation) (g : string) (correlation : list float)
    (w w' : World) :
  _writeOutfileCorrelation lattice m g correlation w = Returns () w' ->
  accessible w = true /\ openable w g.
Proof.
  destruct (accessible w) eqn:Hacc.
  2: by rewrite (writeOutfileCorrelation_inaccessible lattice m g correlation w Hacc).
  rewrite (writeOutfileCorrelation_accessible lattice m g correlation w Hacc).
  unfold openable. rewrite observableGroup_rootOf.
  destruct (rootOf w !! g) as [[[gm gd]|]|] eqn:Eg; cbn [H5Gopen default from_option id
    meta data emptyGroup mbind option_bind]; [|done|done].
  destruct gd as [[objects|]|]; [done| |done].
  by repeat match goal with
            | |- context [match ?x with _ => _ end] => destruct x
            end.
Qed.

(** After a snapshot write that returned, at a cutoff that is a number, the
    data collection is settled for that cutoff: the snapshot is there, or
    its name is taken. *)
Lemma writeOutfileCorrelation_settles
    (m : XYZMeasurementCorrelation) (g : string) (correlation : list float)
    (w w' : World) :
  _writeOutfileCorrelation lattice m g correlation w = Returns () w' ->
  (_currentCutoff m == _currentCutoff m)%F = true ->
  settled (objectsOf w' g) (_currentCutoff m).
Proof.
  intros H Hnum.
  destruct (writeOutfileCorrelation_returns_openable m g correlation w w' H) as [Hacc Hopen].
  rewrite (writeOutfileCorrelation_openable lattice m g correlation w Hacc Hopen) in H.
  destruct (match metaOf w g with Some _ => _ | None => _ end) as [ml|]; [|done].
  cbn zeta in H.
  destruct (scanDatasets _ _ _) as [datasetId|] eqn:Escan.
  - destruct (createMeasurement _ _ _ _ _) as [objects'|] eqn:Ecreate; [|done].
    injection H as <-. rewrite objectsOf_put, decide_True by done.
    apply createMeasurement_cases in Ecreate as [[Htaken ->]|(contents & _ & _ & ->)].
    + right. by exists datasetId.
    + left. apply scan_None. eexists _, _, _. split; [apply lookup_insert_eq|done].
  - injection H as <-. rewrite objectsOf_with_log, objectsOf_put, decide_True by done.
    by left.
Qed.

(** A snapshot write into a settled data collection writes no snapshot. *)
Lemma settled_write
    (m : XYZMeasurementCorrelation) (g : string) (correlation : list float)
    (w w' : World) :
  settled (objectsOf w g) (_currentCutoff m) ->
  finalWorld (_writeOutfileCorrelation lattice m g correlation w) = Some w' ->
  forall name : string, objectsOf w' name = objectsOf w name.
Proof.
  intros Hsettled H name.
  pose proof (writeOutfileCorrelation_effect lattice m g correlation w w' H)
    as (_ & _ & _ & _ & Hother & _ & _ & Hobj).
  destruct (decide (name = g)) as [->|Hne].
  - destruct Hobj as [Hobj|(datasetId & contents & Hscan & Hfresh & _)]; [done|].
    destruct Hsettled as [Hnone|(datasetId' & Hscan' & [o Ho])]; [congruence|].
    rewrite Hscan in Hscan'. injection Hscan' as <-. congruence.
  - by rewrite !objectsOf_rootOf, (Hother name Hne).
Qed.

Lemma writeOutfileCorrelation_other_objects
    (m : XYZMeasurementCorrelation) (g : string) (correlation : list float)
    (w w' : World) (name : string) :
  finalWorld (_writeOutfileCorrelation lattice m g correlation w) = Some w' ->
  name <> g -> objectsOf w' name = objectsOf w name.
Proof.
  intros H Hne.
  pose proof (writeOutfileCorrelation_effect lattice m g correlation w w' H)
    as (_ & _ & _ & _ & Hother & _).
  by rewrite !objectsOf_rootOf, (Hother name Hne).
Qed.

(** After the four writes have returned, every channel group is settled. *)
Lemma writeSnapshots_settles (m m' : XYZMeasurementCorrelation) (w w' : World) :
  writeSnapshots lattice m w = Returns m' w' ->
  (_currentCutoff m == _currentCutoff m)%F = true ->
  forall c : SpinComponent.t, settled (objectsOf w' (observableName c)) (_currentCutoff m).
Proof.
  intros (_ & w1 & w2 & w3 & H1 & H2 & H3 & H4)%writeSnapshots_returns Hnum.
  pose proof (writeOutfileCorrelation_settles m _ _ _ _ H1 Hnum) as S1.
  pose proof (writeOutfileCorrelation_settles m _ _ _ _ H2 Hnum) as S2.
  pose proof (writeOutfileCorrelation_settles m _ _ _ _ H3 Hnum) as S3.
  pose proof (writeOutfileCorrelation_settles m _ _ _ _ H4 Hnum) as S4.
  assert (F2 : forall name, name <> "XYZCorYY" -> objectsOf w2 name = objectsOf w1 name).
  { intros name. apply (writeOutfileCorrelation_other_objects m "XYZCorYY"
                          (_correlationsYY m) w1 w2). by rewrite H2. }
  assert (F3 : forall name, name <> "XYZCorZZ" -> objectsOf w3 name = objectsOf w2 name).
  { intros name. apply (writeOutfileCorrelation_other_objects m "XYZCorZZ"
                          (_correlationsZZ m) w2 w3). by rewrite H3. }
  assert (F4 : forall name, name <> "XYZCorDD" -> objectsOf w' name = objectsOf w3 name).
  { intros name. apply (writeOutfileCorrelation_other_objects m "XYZCorDD"
                          (_correlationsDD m) w3 w'). by rewrite H4. }
  intros []; cbn [observableName].
  - by rewrite F4, F3, F2.
  - by rewrite F4, F3.
  - by rewrite F4.
  - done.
Qed.

(** The four writes into settled channel groups write no snapshot, whatever
    their outcome. *)
Lemma settled_writeSnapshots (m : XYZMeasurementCorrelation) (w w' : World) :
  (forall c : SpinComponent.t,
     settled (objectsOf w (observableName c)) (_currentCutoff m)) ->
  finalWorld (writeSnapshots lattice m w) = Some w' ->
  forall name : string, objectsOf w' name = objectsOf w name.
Proof.
  intros Hsettled (w1 & w2 & w3 & H1 & H)%writeSnapshots_steps name.
  pose proof (settled_write m _ _ w w1 (Hsettled SpinComponent.X) H1) as F1.
  destruct H as [->|[H2 H]]; [done|].
  pose proof (Hsettled SpinComponent.Y) as SY. cbn [observableName] in SY.
  rewrite <- F1 in SY.
  pose proof (settled_write m _ _ w1 w2 SY H2) as F2.
  destruct H as [->|[H3 H]]; [by rewrite F2|].
  pose proof (Hsettled SpinComponent.Z) as SZ. cbn [observableName] in SZ.
  rewrite <- F1, <- F2 in SZ.
  pose proof (settled_write m _ _ w2 w3 SZ H3) as F3.
  destruct H as [->|H4]; [by rewrite F3, F2|].
  pose proof (Hsettled SpinComponent.None) as SD. cbn [observableName] in SD.
  rewrite <- F1, <- F2, <- F3 in SD.
  pose proof (settled_write m _ _ w3 w' SD H4) as F4.
  by rewrite F4, F3, F2.
Qed.

End Settled.

(** *** The calls of [calculate] along a flow *)

Section Memoization.

Context (lattice : Lattice) (frequency : FrequencyDiscretization)
        (integrator : ImplicitIntegrator).

(** One step of the flow, when it does not end in undefined behaviour:
    [calculate] is called exactly when the cache differs from the cutoff,
    and a measurement that returns leaves the cache equal to the cutoff. *)
Lemma measureAt_step (isMasterTask : bool) (c : float)
    (m : XYZMeasurementCorrelation) (w : World) :
  let cost := if (_currentCutoff m != c)%F then 1 else 0 in
  match measureAt lattice frequency integrator isMasterTask c m w with
  | Returns m' w' =>
      calculateCalls w' = calculateCalls w + cost
      /\ _currentCutoff m' = (if (_currentCutoff m != c)%F then c else _currentCutoff m)
      /\ (isMasterTask = true ->
          exists w0 : World, writeSnapshots lattice m' w0 = Returns m' w')
  | Throws _ w' => calculateCalls w' = calculateCalls w + cost
  | Undefined => True
  end.
Proof.
  unfold measureAt. rewrite takeMeasurement_cases.
  cbn [cutoff flowingFunctional with_flowingFunctional calculateCalls].
  destruct (_currentCutoff m != c)%F.
  - destruct (_calculateCorrelation _ _ _ _ _ _) as [m1|] eqn:E; [|done].
    apply calculateCorrelation_frame in E as (_ & E & _).
    cbn [set_currentCutoff _currentCutoff] in E.
    destruct isMasterTask.
    + destruct (writeSnapshots lattice m1 _) as [m' w'|e w'|] eqn:Ew; [| |done].
      * pose proof (writeSnapshots_returns lattice _ _ _ _ Ew) as [-> _].
        pose proof (f_equal finalWorld Ew) as Hf. cbn [finalWorld] in Hf.
        apply writeSnapshots_frame in Hf as (_ & Hc & _).
        split; [rewrite Hc; simpl; lia|]. split; [done|]. intros _. by eexists.
      * pose proof (f_equal finalWorld Ew) as Hf. cbn [finalWorld] in Hf.
        apply writeSnapshots_frame in Hf as (_ & Hc & _).
        rewrite Hc. simpl. lia.
    + split; [simpl; lia|]. split; [done|]. done.
  - destruct isMasterTask.
    + destruct (writeSnapshots lattice m _) as [m' w'|e w'|] eqn:Ew; [| |done].
      * pose proof (writeSnapshots_returns lattice _ _ _ _ Ew) as [-> _].
        pose proof (f_equal finalWorld Ew) as Hf. cbn [finalWorld] in Hf.
        apply writeSnapshots_frame in Hf as (_ & Hc & _).
        split; [rewrite Hc; simpl; lia|]. split; [done|]. intros _. by eexists.
      * pose proof (f_equal finalWorld Ew) as Hf. cbn [finalWorld] in Hf.
        apply writeSnapshots_frame in Hf as (_ & Hc & _).
        rewrite Hc. simpl. lia.
    + split; [simpl; lia|]. split; [done|]. done.
Qed.

(** Along any flow, [calculate] is called once per measurement at which the
    cache differs from the cutoff. *)
Lemma measureFlow_calls (isMasterTask : bool) (cutoffs : list float) :
  forall (m : XYZMeasurementCorrelation) (w : World),
    match measureFlow lattice frequency integrator isMasterTask cutoffs m w with
    | Returns m' w' =>
        calculateCalls w' = calculateCalls w + recomputations (_currentCutoff m) cutoffs
    | Throws _ w' =>
        calculateCalls w' <= calculateCalls w + recomputations (_currentCutoff m) cutoffs
    | Undefined => True
    end.
Proof.
  induction cutoffs as [|c cutoffs IH]; intros m w.
  - simpl. lia.
  - cbn [measureFlow recomputations]. unfold mbind at 1. unfold Action_bind at 1.
    pose proof (measureAt_step isMasterTask c m w) as Hstep. cbn zeta in Hstep.
    destruct (measureAt lattice frequency integrator isMasterTask c m w)
      as [m1 w1|e w1|]; [| |done].
    + destruct Hstep as (Hc & Hm1 & _). specialize (IH m1 w1). rewrite Hm1 in IH.
      destruct (measureFlow _ _ _ _ _ m1 w1) as [m2 w2|e w2|]; [| |done];
        destruct (_currentCutoff m != c)%F; lia.
    + destruct (_currentCutoff m != c)%F; lia.
Qed.

(** A second measurement of the master task at the cutoff of one that
    returned: no call of [calculate], and no snapshot. *)
Lemma measureAt_again (c : float) (m m1 : XYZMeasurementCorrelation) (w w1 w2 : World) :
  (c == c)%F = true ->
  measureAt lattice frequency integrator true c m w = Returns m1 w1 ->
  finalWorld (measureAt lattice frequency integrator true c m1 w1) = Some w2 ->
  calculateCalls w2 = calculateCalls w1
  /\ (forall name : string, objectsOf w2 name = objectsOf w1 name)
  /\ (forall (m2 : XYZMeasurementCorrelation),
        measureAt lattice frequency integrator true c m1 w1 = Returns m2 w2 -> m2 = m1).
Proof.
  intros Hnum H1 H2.
  pose proof (measureAt_step true c m w) as Hstep. cbn zeta in Hstep.
  rewrite H1 in Hstep. destruct Hstep as (_ & Hcache & [w0 Hw0]); [done|].
  assert (Hsame : (_currentCutoff m1 != c)%F = false).
  { rewrite Hcache. destruct (_currentCutoff m != c)%F eqn:E; [|done].
    by rewrite neb_eqb, Hnum. }
  assert (Hcur : (_currentCutoff m1 == _currentCutoff m1)%F = true).
  { apply (eqb_refl_l _ c). rewrite neb_eqb in Hsame.
    by destruct (_currentCutoff m1 == c)%F. }
  pose proof (writeSnapshots_settles lattice m1 m1 w0 w1 Hw0 Hcur) as Hsettled.
  revert H2. unfold measureAt. rewrite takeMeasurement_cases. cbn [cutoff].
  rewrite Hsame. intros H2.
  pose proof (writeSnapshots_frame lattice m1 _ w2 H2) as (_ & Hcalls & _).
  match type of H2 with
  | finalWorld (writeSnapshots _ _ ?w1') = _ =>
      assert (Hsettled' : forall c : SpinComponent.t,
                settled (objectsOf w1' (observableName c)) (_currentCutoff m1))
        by exact Hsettled
  end.
  split; [done|]. split.
  - intros name. by rewrite (settled_writeSnapshots lattice m1 _ w2 Hsettled' H2 name).
  - intros m2 Hm2. by apply writeSnapshots_returns in Hm2 as [-> _].
Qed.

End Memoization.



(** A flow that returns to a cutoff it has left recomputes there: the cache
    has one slot.  The cutoffs 1.0, 0.5, 1.0 take three calls for two
    distinct values. *)
Lemma returning_flow_recomputes :
  exists (m' : XYZMeasurementCorrelation) (w' : World),
    measureFlow Example.chain Example.grid Example.integrator true
      [Float.one; Float.half; Float.one] Example.measurement
      (Example.world NoFile Float.one) = Returns m' w'
    /\ calculateCalls w' = 3
    /\ length (distinctValues [Float.one; Float.half; Float.one]) = 2
    /\ decreasing [Float.one; Float.half; Float.one] = false.
Proof. eexists. eexists. split; [vm_compute; reflexivity|]. by vm_compute. Qed.
(** * Further properties of the code *)

(** ** When the write-back loop stays inside the buffers *)

Section WriteBackDefined.

Context (lattice : Lattice) (susceptibility : ValueSuperbundle.t).

Lemma storePair_defined (i j : LatticeIterator) (offset : nat)
    (m : XYZMeasurementCorrelation) :
  (forall c : SpinComponent.t,
     is_Some (representativeValue lattice susceptibility i j c)
     /\ offset < length (correlations m c)) ->
  is_Some (storePair lattice susceptibility i j offset m).
Proof.
  intros H.
  pose proof (H SpinComponent.X) as [[vx Hx] Lx].
  pose proof (H SpinComponent.Y) as [[vy Hy] Ly].
  pose proof (H SpinComponent.Z) as [[vz Hz] Lz].
  pose proof (H SpinComponent.None) as [[vd Hd] Ld].
  revert Hx Hy Hz Hd.
  unfold storePair, representativeValue, representative, signBefore, store.
  simpl in Lx, Ly, Lz, Ld.
  destruct (symmetryTransform lattice i j SpinComponent.X Float.one)
    as [[r1 c1] s1] eqn:E1.
  cbn [fst snd].
  destruct (symmetryTransform lattice i j SpinComponent.Y s1) as [[r2 c2] s2] eqn:E2.
  cbn [fst snd].
  destruct (symmetryTransform lattice i j SpinComponent.Z s2) as [[r3 c3] s3] eqn:E3.
  cbn [fst snd].
  destruct (symmetryTransform lattice i j SpinComponent.None s3) as [[r4 c4] s4] eqn:E4.
  cbn [fst snd].
  intros -> -> -> ->. simpl.
  rewrite !decide_True by done. simpl. eauto.
Qed.

Lemma storePairs_defined (pairs : list (LatticeIterator * LatticeIterator)) :
  forall (offset : nat) (m : XYZMeasurementCorrelation),
    is_Some (storePairs lattice susceptibility pairs offset m) <->
    forall (n : nat) (i j : LatticeIterator),
      pairs !! n = Some (i, j) ->
      forall c : SpinComponent.t,
        is_Some (representativeValue lattice susceptibility i j c)
        /\ offset + n < length (correlations m c).
Proof.
  intros offset m. split.
  - intros [[offset' m'] H] n i j Hn c.
    apply storePairs_block in H. destruct H as (_ & _ & _ & _ & H).
    destruct (H c) as (Hlen & _ & _ & Hin).
    destruct (Hin n i j Hn) as [Hsome Heq]. split.
    + by rewrite <- Heq.
    + rewrite <- Hlen. by apply lookup_lt_is_Some.
  - revert offset m.
    induction pairs as [|[i j] pairs IH]; intros offset m H; simpl; [eauto|].
    destruct (storePair_defined i j offset m) as [m1 E].
    { intros c. destruct (H 0 i j eq_refl c) as [Hv Hl].
      split; [done|]. by rewrite Nat.add_0_r in Hl. }
    rewrite E. simpl. apply IH. intros n i' j' Hn c.
    destruct (H (S n) i' j' Hn c) as [Hv Hl]. split; [done|].
    apply storePair_stored in E. destruct E as (_ & _ & _ & E).
    destruct (E c) as (v & _ & _ & ->). rewrite length_insert. lia.
Qed.

End WriteBackDefined.

Lemma calculateCorrelation_inside
    (lattice : Lattice) (frequency : FrequencyDiscretization)
    (integrator : ImplicitIntegrator) (flow : EffectiveAction)
    (it : nat) (m : XYZMeasurementCorrelation) :
  is_Some (_calculateCorrelation lattice frequency integrator flow it m) <->
  forall (n : nat) (i j : LatticeIterator),
    sitePairs lattice !! n = Some (i, j) ->
    forall c : SpinComponent.t,
      is_Some (representativeValue lattice
                 (susceptibility lattice frequency integrator
                    (vertexSingleParticle flow) (vertexTwoParticle flow)
                    Float.zero (cutoff flow)) i j c)
      /\ it * _memoryStepLattice m + n < length (correlations m c).
Proof.
  unfold _calculateCorrelation. rewrite storeBasis_pairs. fold (sitePairs lattice).
  rewrite <- storePairs_defined. unfold is_Some. split.
  - intros [m' H]. destruct (storePairs _ _ _ _ _) as [[o m1]|]; [eauto|done].
  - intros [[o m1] H]. rewrite H. simpl. eauto.
Qed.

(** X1.  A call of [_calculateCorrelation] stays inside the buffers and the
    bundles exactly when, for every site pair and channel, the representative
    index lies inside the bundle read and the entry of the pair lies inside
    the buffer written. *)
Theorem calculateCorrelation_defined
    (lattice : Lattice) (frequency : FrequencyDiscretization)
    (integrator : ImplicitIntegrator) (flow : EffectiveAction)
    (it : nat) (m : XYZMeasurementCorrelation) :
  is_Some (_calculateCorrelation lattice frequency integrator flow it m) <->
  forall (n : nat) (i j : LatticeIterator),
    sitePairs lattice !! n = Some (i, j) ->
    forall c : SpinComponent.t,
      is_Some (representativeValue lattice
                 (susceptibility lattice frequency integrator
                    (vertexSingleParticle flow) (vertexTwoParticle flow)
                    Float.zero (cutoff flow)) i j c)
      /\ it * _memoryStepLattice m + n < length (correlations m c).
Proof. apply calculateCorrelation_inside. Qed.

Lemma length_pairsOf (lattice : Lattice) (r : nat) (bs : list LatticeIterator) :
  (forall i, i ∈ bs -> length (getRange lattice i) = r) ->
  length (pairsOf lattice bs) = length bs * r.
Proof.
  unfold pairsOf. induction bs as [|i bs IH]; intros H; [done|].
  cbn [mbind list_bind]. rewrite length_app, length_fmap.
  rewrite (H i) by apply list_elem_of_here. simpl.
  rewrite IH; [done|]. intros i' Hi'. apply H. by apply list_elem_of_further.
Qed.

Lemma measurement_eq (m1 m2 : XYZMeasurementCorrelation) :
  outfile m1 = outfile m2 -> _currentCutoff m1 = _currentCutoff m2 ->
  _memoryStepLattice m1 = _memoryStepLattice m2 ->
  (forall c : SpinComponent.t, correlations m1 c = correlations m2 c) ->
  m1 = m2.
Proof.
  destruct m1, m2. simpl. intros -> -> -> H.
  pose proof (H SpinComponent.X) as HX. pose proof (H SpinComponent.Y) as HY.
  pose proof (H SpinComponent.Z) as HZ. pose proof (H SpinComponent.None) as HD.
  simpl in *. by subst.
Qed.

(** X2.  On a measurement as constructed, for a lattice whose basis sites all
    have as many sites in range as the basis site 0, a call for the iterator
    0 that stays in range overwrites every entry of every buffer: each buffer
    is then the list of the representative values of the site pairs, in loop
    order, and nothing of the allocation remains. *)
Theorem calculateCorrelation_fills_allocation
    (lattice : Lattice) (frequency : FrequencyDiscretization)
    (integrator : ImplicitIntegrator) (flow : EffectiveAction)
    (outfile : string) (junkXX junkYY junkZZ junkDD : nat -> float)
    (m' : XYZMeasurementCorrelation) :
  (forall i, i ∈ _basis lattice ->
     length (getRange lattice i) = length (getRangeOfBasis lattice 0)) ->
  _calculateCorrelation lattice frequency integrator flow 0
    (construct lattice outfile junkXX junkYY junkZZ junkDD) = Some m' ->
  forall c : SpinComponent.t,
    Some <$> correlations m' c
    = (fun p => representativeValue lattice
                  (susceptibility lattice frequency integrator
                     (vertexSingleParticle flow) (vertexTwoParticle flow)
                     Float.zero (cutoff flow)) p.1 p.2 c) <$> sitePairs lattice.
Proof.
  intros Huniform H c.
  apply calculateCorrelation_frame in H. destruct H as (_ & _ & _ & H).
  destruct (H c) as (Hlen & _ & Hin).
  rewrite length_correlations_construct in Hlen.
  apply list_eq. intros n. rewrite !list_lookup_fmap.
  destruct (sitePairs lattice !! n) as [[i j]|] eqn:Hn; simpl.
  - destruct (Hin n i j Hn) as [[v Hv] Heq]. simpl in Hv, Heq.
    rewrite Hv. simpl. by rewrite <- Heq, Hv.
  - apply lookup_ge_None in Hn. unfold sitePairs in Hn.
    rewrite (length_pairsOf lattice _ _ Huniform) in Hn.
    rewrite (proj2 (lookup_ge_None _ _)); [done|lia].
Qed.

Lemma calculateCorrelation_fills_allocation_witness :
  exists m' : XYZMeasurementCorrelation,
    _calculateCorrelation Example.chain Example.grid Example.integrator
      (Example.flow Float.one Float.one) 0 Example.measurement = Some m'
    /\ length (correlations m' SpinComponent.None) = 3
    /\ Some <$> correlations m' SpinComponent.None
       = (fun p => representativeValue Example.chain
                     (susceptibility Example.chain Example.grid Example.integrator
                        Example.selfEnergy (Example.vertex Float.one) Float.zero Float.one)
                     p.1 p.2 SpinComponent.None) <$> [(0, 0); (0, 1); (0, 2)].
Proof.
  eexists. split; [vm_compute; reflexivity|]. split; [reflexivity|].
  match goal with
  | |- context [correlations ?m' _] =>
      apply (calculateCorrelation_fills_allocation Example.chain Example.grid
               Example.integrator (Example.flow Float.one Float.one) "obs.h5"
               (fun _ => Float.of_Z 9) (fun _ => Float.of_Z 9)
               (fun _ => Float.of_Z 9) (fun _ => Float.of_Z 9) m')
  end.
  - intros i Hi. reflexivity.
  - vm_compute. reflexivity.
Defined.

(** X3.  On a measurement as constructed, a call for any iterator other than
    0 leaves the allocation with its first store, as soon as the lattice has
    a site pair: the buffers hold one block only. *)
Theorem calculateCorrelation_beyond_allocation
    (lattice : Lattice) (frequency : FrequencyDiscretization)
    (integrator : ImplicitIntegrator) (flow : EffectiveAction)
    (outfile : string) (junkXX junkYY junkZZ junkDD : nat -> float) (it : nat) :
  1 <= it ->
  sitePairs lattice <> [] ->
  _calculateCorrelation lattice frequency integrator flow it
    (construct lattice outfile junkXX junkYY junkZZ junkDD) = None.
Proof.
  intros Hit Hpairs. apply eq_None_not_Some. intros H.
  pose proof (proj1 (calculateCorrelation_inside _ _ _ _ _ _) H) as H'.
  clear H. rename H' into H.
  destruct (sitePairs lattice) as [|[i j] pairs] eqn:E; [done|].
  destruct (H 0 i j eq_refl SpinComponent.X) as [_ Hlt].
  rewrite length_correlations_construct in Hlt.
  cbn [_memoryStepLattice construct] in Hlt. nia.
Qed.

Lemma calculateCorrelation_beyond_allocation_witness :
  _calculateCorrelation Example.chain Example.grid Example.integrator
    (Example.flow Float.one Float.one) 1 Example.measurement = None.
Proof.
  apply (calculateCorrelation_beyond_allocation Example.chain Example.grid
           Example.integrator (Example.flow Float.one Float.one) "obs.h5"
           (fun _ => Float.of_Z 9) (fun _ => Float.of_Z 9)
           (fun _ => Float.of_Z 9) (fun _ => Float.of_Z 9) 1).
  - lia.
  - discriminate.
Defined.

(** ** Repeating and reordering calls of the callback *)

(** Every entry of every buffer after a call: the representative value of
    its pair inside the block, the old entry outside. *)
Lemma calculateCorrelation_lookup
    (lattice : Lattice) (frequency : FrequencyDiscretization)
    (integrator : ImplicitIntegrator) (flow : EffectiveAction)
    (it : nat) (m m' : XYZMeasurementCorrelation) :
  _calculateCorrelation lattice frequency integrator flow it m = Some m' ->
  forall (c : SpinComponent.t) (k : nat),
    correlations m' c !! k
    = match (if decide (it * _memoryStepLattice m <= k)
             then sitePairs lattice !! (k - it * _memoryStepLattice m) else None) with
      | Some (i, j) =>
          representativeValue lattice
            (susceptibility lattice frequency integrator
               (vertexSingleParticle flow) (vertexTwoParticle flow)
               Float.zero (cutoff flow)) i j c
      | None => correlations m c !! k
      end.
Proof.
  intros H c k. apply calculateCorrelation_frame in H.
  destruct H as (_ & _ & _ & H). destruct (H c) as (_ & Hout & Hin).
  destruct (decide (it * _memoryStepLattice m <= k)) as [Hle|Hlt].
  - destruct (sitePairs lattice !! (k - it * _memoryStepLattice m)) as [[i j]|] eqn:E.
    + destruct (Hin _ i j E) as [_ Heq].
      by replace (it * _memoryStepLattice m + (k - it * _memoryStepLattice m)) with k
        in Heq by lia.
    + apply Hout. right. apply lookup_ge_None in E. lia.
  - apply Hout. left. lia.
Qed.

(** X4.  A call of [_calculateCorrelation] that is repeated, for the same
    iterator and flowing functional, returns the measurement the first call
    returned: the values stored do not depend on what the buffers hold. *)
Theorem calculateCorrelation_idempotent
    (lattice : Lattice) (frequency : FrequencyDiscretization)
    (integrator : ImplicitIntegrator) (flow : EffectiveAction)
    (it : nat) (m m' : XYZMeasurementCorrelation) :
  _calculateCorrelation lattice frequency integrator flow it m = Some m' ->
  _calculateCorrelation lattice frequency integrator flow it m' = Some m'.
Proof.
  intros H.
  pose proof (calculateCorrelation_frame _ _ _ _ _ _ _ H) as (Ho & Hc & Hs & Hb).
  assert (Hdef : is_Some (_calculateCorrelation lattice frequency integrator flow it m')).
  { apply calculateCorrelation_inside. intros n i j Hn c.
    destruct (proj1 (calculateCorrelation_inside _ _ _ _ _ _) (mk_is_Some _ _ H) n i j Hn c)
      as [Hv Hl].
    split; [done|]. destruct (Hb c) as (-> & _). by rewrite Hs. }
  destruct Hdef as [m'' H'']. rewrite H''. f_equal.
  pose proof (calculateCorrelation_frame _ _ _ _ _ _ _ H'') as (Ho' & Hc' & Hs' & _).
  apply measurement_eq; [congruence..|].
  intros c. apply list_eq. intros k.
  rewrite (calculateCorrelation_lookup _ _ _ _ _ _ _ H'' c k).
  rewrite (calculateCorrelation_lookup _ _ _ _ _ _ _ H c k), Hs.
  by repeat case_match.
Qed.

Lemma calculateCorrelation_idempotent_witness :
  exists m' : XYZMeasurementCorrelation,
    _calculateCorrelation Example.chain Example.grid Example.integrator
      (Example.flow Float.one Float.one) 0 Example.measurement = Some m'
    /\ _calculateCorrelation Example.chain Example.grid Example.integrator
         (Example.flow Float.one Float.one) 0 m' = Some m'.
Proof.
  eexists. split; [vm_compute; reflexivity|].
  apply (calculateCorrelation_idempotent Example.chain Example.grid Example.integrator
           (Example.flow Float.one Float.one) 0 Example.measurement).
  vm_compute. reflexivity.
Defined.


(** ** The data collection under snapshot writes *)

(** X6.  A snapshot write removes and changes no object of any data
    collection: whatever its outcome, every object that a data collection
    held before the write is held afterwards, under the same name and with
    the same contents. *)
Theorem snapshots_append_only
    (lattice : Lattice) (m : XYZMeasurementCorrelation) (g : string)
    (correlation : list float) (w w' : World) :
  finalWorld (_writeOutfileCorrelation lattice m g correlation w) = Some w' ->
  forall name : string, objectsOf w name ⊆ objectsOf w' name.
Proof.
  intros H name.
  pose proof (writeOutfileCorrelation_effect lattice m g correlation w w' H)
    as (_ & _ & _ & _ & Hother & _ & _ & Hobj).
  destruct (decide (name = g)) as [->|Hne].
  - destruct Hobj as [->|(datasetId & contents & _ & Hfresh & _ & ->)]; [done|].
    by apply insert_subseteq.
  - by rewrite !objectsOf_rootOf, (Hother name Hne).
Qed.

Lemma snapshots_append_only_witness :
  exists w' : World,
    finalWorld (_writeOutfileCorrelation Example.chain
                  (set_currentCutoff Float.half Example.measurement) "XYZCorDD"
                  Example.buffer Example.stored) = Some w'
    /\ objectsOf w' "XYZCorDD" !! "measurement_0" = Some (Example.snapshot Float.one)
    /\ base.size (objectsOf w' "XYZCorDD") = 2.
Proof.
  eexists. split; [vm_compute; reflexivity|].
  split; [|vm_compute; reflexivity].
  match goal with
  | |- objectsOf ?w' _ !! _ = _ =>
      pose proof (snapshots_append_only Example.chain
                    (set_currentCutoff Float.half Example.measurement) "XYZCorDD"
                    Example.buffer Example.stored w') as H
  end.
  eapply lookup_weaken; [|apply H; vm_compute; reflexivity].
  vm_compute. reflexivity.
Defined.

Section Collections.

Context (lattice : Lattice).

Lemma metaStep_is_Some (w : World) (g : string) :
  is_Some (metaOf w g) \/ headerFits lattice ->
  exists ml : Link MetaGroup,
    (match metaOf w g with
     | Some ml => Some ml
     | None => Group <$> metaGroup lattice (uninitialised w)
     end) = Some ml.
Proof.
  destruct (metaOf w g) as [ml|]; [by eexists|].
  intros [[? [=]]|Hfits].
  destruct (proj2 (metaGroup_is_Some lattice (uninitialised w)) Hfits) as [mgroup ->].
  by eexists.
Qed.

(** A snapshot write that appends, in terms of the data collection. *)
Lemma writeOutfileCorrelation_appends
    (m : XYZMeasurementCorrelation) (g : string) (correlation : list float) (w : World) :
  accessible w = true -> openable w g ->
  is_Some (metaOf w g) \/ headerFits lattice ->
  dataspaceSize lattice <= length correlation ->
  wellNamed (objectsOf w g) ->
  (forall (name : string) (c : float) (d : Dataset),
     objectsOf w g !! name = Some (MeasurementGroup c d) ->
     (c == _currentCutoff m)%F = false) ->
  exists w' : World,
    _writeOutfileCorrelation lattice m g correlation w = Returns () w'
    /\ log w' = log w
    /\ objectsOf w g !! measurementName (base.size (objectsOf w g)) = None
    /\ objectsOf w' g
       = <[measurementName (base.size (objectsOf w g)) :=
             newMeasurementGroup lattice (_currentCutoff m)
               (take (dataspaceSize lattice) correlation)]> (objectsOf w g)
    /\ forall name : string, name <> g -> objectsOf w' name = objectsOf w name.
Proof.
  intros Hacc Hopen Hmeta Hlen Hnamed Hnew.
  destruct (metaStep_is_Some w g Hmeta) as [ml Hml].
  pose proof (wellNamed_fresh _ Hnamed) as Hfresh.
  pose proof (writeOutfileCorrelation_append lattice m g correlation w ml
                Hacc Hopen Hml Hlen Hnew) as H.
  cbn zeta in H. rewrite (wellNamed_count _ Hnamed) in H. specialize (H Hfresh).
  eexists. split; [exact H|]. split; [done|]. split; [done|].
  split.
  - by rewrite objectsOf_put, decide_True.
  - intros name Hne. by rewrite objectsOf_put, decide_False.
Qed.

End Collections.

(** X7.  A snapshot write into a data collection as the source builds it,
    which holds no snapshot with the current cutoff, returns without a
    warning and puts one measurement group into the collection, under the
    name [measurement_k] for the [k] objects counted, which is free: the
    group has the current cutoff as its attribute and the first floats of
    the buffer, as many as the dataspace has cells, as its data.  The path
    and the links can be opened, the group has its [meta] link or the
    lattice fits the buffers of the header, and the buffer fills the
    dataspace. *)
Theorem snapshot_appended_in_sequence
    (lattice : Lattice) (m : XYZMeasurementCorrelation) (g : string)
    (correlation : list float) (w : World) :
  accessible w = true -> openable w g ->
  is_Some (metaOf w g) \/ headerFits lattice ->
  dataspaceSize lattice <= length correlation ->
  wellNamed (objectsOf w g) ->
  (forall (name : string) (c : float) (d : Dataset),
     objectsOf w g !! name = Some (MeasurementGroup c d) ->
     (c == _currentCutoff m)%F = false) ->
  exists w' : World,
    _writeOutfileCorrelation lattice m g correlation w = Returns () w'
    /\ log w' = log w
    /\ objectsOf w g !! measurementName (base.size (objectsOf w g)) = None
    /\ objectsOf w' g
       = <[measurementName (base.size (objectsOf w g)) :=
             newMeasurementGroup lattice (_currentCutoff m)
               (take (dataspaceSize lattice) correlation)]> (objectsOf w g)
    /\ forall name : string, name <> g -> objectsOf w' name = objectsOf w name.
Proof. apply writeOutfileCorrelation_appends. Qed.

Lemma example_objects (objects : DataCollection) :
  objectsOf (Example.holding objects) "XYZCorDD" = objects.
Proof.
  unfold Example.holding, Example.world. rewrite objectsOf_rootOf.
  cbn [rootOf disk]. by rewrite lookup_singleton_eq.
Qed.

Lemma example_openable (objects : DataCollection) :
  openable (Example.holding objects) "XYZCorDD".
Proof.
  unfold openable, Example.holding, Example.world.
  rewrite observableGroup_rootOf. cbn [rootOf disk].
  by rewrite lookup_singleton_eq.
Qed.

Lemma example_meta (objects : DataCollection) :
  metaOf (Example.holding objects) "XYZCorDD" = Some (Group Example.geometry).
Proof.
  unfold Example.holding, Example.world. rewrite metaOf_rootOf.
  cbn [rootOf disk]. by rewrite lookup_singleton_eq.
Qed.

Lemma example_wellNamed_one (o : DataObject) :
  (exists c d, o = MeasurementGroup c d) -> wellNamed {[ "measurement_0" := o ]}.
Proof.
  intros Ho name o' [<- <-]%lookup_singleton_Some. split; [done|].
  exists 0. rewrite map_size_singleton. split; [lia|reflexivity].
Qed.

Lemma snapshot_appended_in_sequence_witness :
  exists w' : World,
    _writeOutfileCorrelation Example.chain
      (set_currentCutoff Float.half Example.measurement) "XYZCorDD" Example.buffer
      Example.stored = Returns () w'
    /\ objectsOf w' "XYZCorDD"
       = <[ "measurement_1" :=
              MeasurementGroup Float.half {| shape := [1; 3]; contents := Example.buffer |} ]>
           {[ "measurement_0" := Example.snapshot Float.one ]}.
Proof.
  destruct (snapshot_appended_in_sequence Example.chain
              (set_currentCutoff Float.half Example.measurement) "XYZCorDD"
              Example.buffer Example.stored) as (w' & Hw' & _ & _ & Hobj & _).
  - reflexivity.
  - apply example_openable.
  - left. unfold Example.stored. rewrite example_meta. by eexists.
  - vm_compute. lia.
  - unfold Example.stored. rewrite example_objects.
    apply example_wellNamed_one. by eexists _, _.
  - unfold Example.stored. rewrite example_objects.
    intros name c d [_ [= <- _]]%lookup_singleton_Some. reflexivity.
  - exists w'. split; [exact Hw'|]. rewrite Hobj.
    unfold Example.stored. rewrite example_objects. reflexivity.
Defined.

(** X8.  Snapshot writes keep a data collection as the source builds it: if,
    before a write, the objects of an observable group are measurement
    groups under the first names of the sequence [measurement_0],
    [measurement_1], ... and no two of them store cutoffs that are equal by
    [==], the same holds after the write, whatever its outcome and whichever
    group was written. *)
Theorem snapshot_invariants_kept
    (lattice : Lattice) (m : XYZMeasurementCorrelation) (g : string)
    (correlation : list float) (w w' : World) (name : string) :
  finalWorld (_writeOutfileCorrelation lattice m g correlation w) = Some w' ->
  wellNamed (objectsOf w name) ->
  distinctCutoffs (objectsOf w name) ->
  wellNamed (objectsOf w' name) /\ distinctCutoffs (objectsOf w' name).
Proof.
  intros H Hnamed Hdistinct.
  pose proof (writeOutfileCorrelation_effect lattice m g correlation w w' H)
    as (_ & _ & _ & _ & Hother & _ & _ & Hobj).
  destruct (decide (name = g)) as [->|Hne].
  2: by rewrite !objectsOf_rootOf, (Hother name Hne), <- !objectsOf_rootOf.
  destruct Hobj as [->|(datasetId & contents & Hscan & Hfresh & _ & ->)]; [done|].
  apply scan_Some in Hscan as (Hid & _ & Hnew).
  rewrite (wellNamed_count _ Hnamed) in Hid. subst datasetId.
  split; [by apply wellNamed_insert|].
  intros n1 n2 c1 c2 d1 d2 Hn H1 H2.
  apply lookup_insert_Some in H1 as [[<- [= <- <-]]|[Hn1 H1]];
    apply lookup_insert_Some in H2 as [[<- [= <- <-]]|[Hn2 H2]].
  - done.
  - rewrite eqb_sym. by apply (Hnew n2 c2 d2).
  - by apply (Hnew n1 c1 d1).
  - by apply (Hdistinct n1 n2 c1 c2 d1 d2).
Qed.

Lemma snapshot_invariants_kept_witness :
  exists w' : World,
    finalWorld (_writeOutfileCorrelation Example.chain
                  (set_currentCutoff Float.half Example.measurement) "XYZCorDD"
                  Example.buffer Example.stored) = Some w'
    /\ wellNamed (objectsOf w' "XYZCorDD")
    /\ distinctCutoffs (objectsOf w' "XYZCorDD").
Proof.
  eexists. split; [vm_compute; reflexivity|].
  match goal with
  | |- wellNamed (objectsOf ?w' _) /\ _ =>
      apply (snapshot_invariants_kept Example.chain
               (set_currentCutoff Float.half Example.measurement) "XYZCorDD"
               Example.buffer Example.stored w' "XYZCorDD")
  end.
  - vm_compute. reflexivity.
  - unfold Example.stored. rewrite example_objects.
    apply example_wellNamed_one. by eexists _, _.
  - unfold Example.stored. rewrite example_objects.
    intros n1 n2 c1 c2 d1 d2 Hn [<- _]%lookup_singleton_Some [<- _]%lookup_singleton_Some.
    done.
Defined.

(** X9.  A snapshot with a NaN cutoff is never recognised as a duplicate:
    the comparison [c == _currentCutoff] fails for every stored cutoff, so a
    write into a data collection as the source builds it puts one more
    snapshot into it, even if snapshots with a NaN cutoff are stored
    already.  The path and the links can be opened, the group has its [meta]
    link or the lattice fits the buffers of the header, and the buffer fills
    the dataspace. *)
Theorem nan_cutoff_always_appended
    (lattice : Lattice) (m : XYZMeasurementCorrelation) (g : string)
    (correlation : list float) (w : World) :
  _currentCutoff m = S754_nan ->
  accessible w = true -> openable w g ->
  is_Some (metaOf w g) \/ headerFits lattice ->
  dataspaceSize lattice <= length correlation ->
  wellNamed (objectsOf w g) ->
  exists w' : World,
    _writeOutfileCorrelation lattice m g correlation w = Returns () w'
    /\ log w' = log w
    /\ objectsOf w g !! measurementName (base.size (objectsOf w g)) = None
    /\ objectsOf w' g
       = <[measurementName (base.size (objectsOf w g)) :=
             newMeasurementGroup lattice S754_nan
               (take (dataspaceSize lattice) correlation)]> (objectsOf w g).
Proof.
  intros Hnan Hacc Hopen Hmeta Hlen Hnamed.
  destruct (writeOutfileCorrelation_appends lattice m g correlation w
              Hacc Hopen Hmeta Hlen Hnamed) as (w' & Hw' & Hlog & Hfresh & Hobj & _).
  { intros name c d _. rewrite Hnan. apply eqb_nan. }
  exists w'. by rewrite <- Hnan.
Qed.

Lemma nan_cutoff_always_appended_witness :
  exists w' : World,
    _writeOutfileCorrelation Example.chain
      (set_currentCutoff S754_nan Example.measurement) "XYZCorDD" Example.buffer
      (Example.holding {[ "measurement_0" := Example.snapshot S754_nan ]}) = Returns () w'
    /\ snapshots w' "XYZCorDD" = [S754_nan; S754_nan].
Proof.
  destruct (nan_cutoff_always_appended Example.chain
              (set_currentCutoff S754_nan Example.measurement) "XYZCorDD" Example.buffer
              (Example.holding {[ "measurement_0" := Example.snapshot S754_nan ]}))
    as (w' & Hw' & _ & _ & Hobj).
  - reflexivity.
  - reflexivity.
  - apply example_openable.
  - left. rewrite example_meta. by eexists.
  - vm_compute. lia.
  - rewrite example_objects. apply example_wellNamed_one. by eexists _, _.
  - exists w'. split; [exact Hw'|]. unfold snapshots. rewrite Hobj, example_objects.
    vm_compute. reflexivity.
Defined.



(** ** The header on its own *)

Lemma writeOutfileCorrelation_returns_group
    (lattice : Lattice) (m : XYZMeasurementCorrelation) (g : string)
    (correlation : list float) (w w' : World) :
  _writeOutfileCorrelation lattice m g correlation w = Returns () w' ->
  accessible w' = true
  /\ exists (ml : Link MetaGroup) (objects : DataCollection),
       rootOf w' !! g = Some (Group {| meta := Some ml; data := Some (Group objects) |}).
Proof.
  intros H.
  destruct (writeOutfileCorrelation_returns_openable lattice m g correlation w w' H)
    as [Hacc Hopen].
  rewrite (writeOutfileCorrelation_openable lattice m g correlation w Hacc Hopen) in H.
  destruct (match metaOf w g with Some _ => _ | None => _ end) as [ml|]; [|done].
  cbn zeta in H.
  destruct (scanDatasets _ _ _) as [datasetId|];
    [destruct (createMeasurement _ _ _ _ _) as [objects'|]; [|done]|];
    injection H as <-; (split; [done|]); eexists _, _;
    rewrite ?rootOf_with_log, rootOf_with_disk; apply lookup_insert_eq.
Qed.

(** X11.  After a snapshot write that returned, a call of
    [_writeOutfileHeader] for the same observable group, for whatever
    lattice, writes nothing: it returns with the warning that the [meta]
    group exists. *)
Theorem header_after_write_only_warns
    (lattice lattice' : Lattice) (m m' : XYZMeasurementCorrelation) (g : string)
    (correlation : list float) (w w1 : World) :
  _writeOutfileCorrelation lattice m g correlation w = Returns () w1 ->
  _writeOutfileHeader lattice' m' g w1
  = Returns () (with_log (log w1 ++ [WarningMetaExists (outfile m') g]) w1).
Proof.
  intros H.
  apply writeOutfileCorrelation_returns_group in H as (Hacc & ml & objects & Hg).
  by apply (writeOutfileHeader_skips lattice' m' g w1 _ ml Hacc Hg).
Qed.

Lemma header_after_write_only_warns_witness :
  exists w1 : World,
    _writeOutfileCorrelation Example.chain Example.measurement "XYZCorDD" Example.buffer
      (Example.world NoFile Float.one) = Returns () w1
    /\ _writeOutfileHeader Example.uneven Example.measurement "XYZCorDD" w1
       = Returns () (with_log [WarningMetaExists "obs.h5" "XYZCorDD"] w1).
Proof.
  eexists. split; [vm_compute; reflexivity|].
  match goal with
  | |- _writeOutfileHeader _ _ _ ?w1 = _ =>
      apply (header_after_write_only_warns Example.chain Example.uneven
               Example.measurement Example.measurement "XYZCorDD" Example.buffer
               (Example.world NoFile Float.one) w1)
  end.
  vm_compute. reflexivity.
Defined.

(** X12.  [_writeOutfileHeader] creates neither the file nor the observable
    group: it throws exactly when the path cannot be opened as an HDF5 file
    or the file has no such group, and the world is then as it was.  Whatever
    its outcome, it changes no data collection and no other observable
    group. *)
Theorem header_creates_nothing
    (lattice : Lattice) (m : XYZMeasurementCorrelation) (g : string) (w : World) :
  ((exists e : Exception, _writeOutfileHeader lattice m g w = Throws e w)
   <-> H5Fopen w = None \/ H5Gopen (rootOf w !! g) = None)
  /\ (forall (e : Exception) (w' : World),
        _writeOutfileHeader lattice m g w = Throws e w' -> w' = w)
  /\ (forall w' : World,
        finalWorld (_writeOutfileHeader lattice m g w) = Some w' ->
        forall name : string,
          objectsOf w' name = objectsOf w name
          /\ (name <> g -> rootOf w' !! name = rootOf w !! name)).
Proof.
  unfold _writeOutfileHeader, H5Fopen, putGroup, warn.
  setoid_rewrite objectsOf_rootOf. unfold rootOf.
  destruct w as [d acc l n f u]. cbn [disk accessible log uninitialised].
  destruct d as [| |root].
  1, 2: split; [split; [eauto|intros _; eauto]|];
        split; [by intros e w' [= _ <-]|]; by intros w' [= <-] name.
  destruct acc.
  2: { split; [split; [eauto|intros _; eauto]|].
       split; [by intros e w' [= _ <-]|]. by intros w' [= <-] name. }
  destruct (root !! g) as [[group|]|] eqn:Eg; cbn [H5Gopen].
  2, 3: split; [split; [eauto|intros _; eauto]|];
        split; [by intros e w' [= _ <-]|]; by intros w' [= <-] name.
  split.
  { split.
    - intros [e H]. destruct (meta group); [done|]. by destruct (metaGroup _ _).
    - by intros [|]. }
  split.
  { intros e w'. destruct (meta group); [done|]. by destruct (metaGroup _ _). }
  intros w'. destruct (meta group) as [ml|] eqn:Em.
  - intros [= <-] name. done.
  - destruct (metaGroup _ _) as [mgroup|]; [|done].
    intros [= <-] name. cbn [disk with_disk].
    destruct (decide (name = g)) as [->|Hne].
    + rewrite lookup_insert_eq, Eg. done.
    + rewrite lookup_insert_ne by done. done.
Qed.

Lemma header_creates_nothing_witness :
  (exists e : Exception,
     _writeOutfileHeader Example.chain Example.measurement "XYZCorDD"
       (Example.world NoFile Float.one) = Throws e (Example.world NoFile Float.one))
  /\ (exists w' : World,
        finalWorld (_writeOutfileHeader Example.chain Example.measurement "XYZCorDD"
                      Example.stored) = Some w'
        /\ objectsOf w' "XYZCorDD" = objectsOf Example.stored "XYZCorDD").
Proof.
  destruct (header_creates_nothing Example.chain Example.measurement "XYZCorDD"
              (Example.world NoFile Float.one)) as (Hthrows & _ & _).
  split; [apply Hthrows; by left|].
  destruct (header_creates_nothing Example.chain Example.measurement "XYZCorDD"
              Example.stored) as (_ & _ & Hframe).
  eexists. split; [vm_compute; reflexivity|].
  apply Hframe. vm_compute. reflexivity.
Defined.

(** X20.  [_writeOutfileHeader], called on a group without a [meta] link in
    a file that can be opened, runs into undefined behaviour exactly on the
    lattices that do not fit its buffers: more than three lattice vectors
    overrun [latticeBuffer], and more sites in the ranges of the basis sites
    than [inRangeCount] per basis site overrun [SitesReferenceBuffer]. *)
Theorem header_overruns_buffers
    (lattice : Lattice) (m : XYZMeasurementCorrelation) (g : string) (w : World)
    (group : ObservableGroup) :
  accessible w = true -> rootOf w !! g = Some (Group group) -> meta group = None ->
  _writeOutfileHeader lattice m g w = Undefined <-> ~ headerFits lattice.
Proof.
  intros Hacc Hg Hmeta.
  destruct (disk w) as [| |root] eqn:Hdisk;
    [unfold rootOf in Hg; by rewrite Hdisk, lookup_empty in Hg..|].
  assert (root !! g = Some (Group group)) as Hroot
    by (unfold rootOf in Hg; by rewrite Hdisk in Hg).
  rewrite (writeOutfileHeader_group lattice m g w root group Hacc Hdisk Hroot), Hmeta.
  rewrite <- (metaGroup_is_Some lattice (uninitialised w)).
  destruct (metaGroup lattice (uninitialised w)) as [mgroup|].
  - split; [done|]. intros H. exfalso. apply H. by eexists.
  - split; [|done]. by intros _ [? ?].
Qed.

Lemma header_overruns_buffers_witness :
  _writeOutfileHeader Example.uneven Example.measurement "XYZCorDD"
    (Example.world (Hdf5File {[ "XYZCorDD" := Group emptyGroup ]}) Float.one)
  = Undefined.
Proof.
  apply (header_overruns_buffers Example.uneven Example.measurement "XYZCorDD"
           (Example.world (Hdf5File {[ "XYZCorDD" := Group emptyGroup ]}) Float.one)
           emptyGroup eq_refl (lookup_singleton_eq _ _) eq_refl).
  intros [_ H]. vm_compute in H. lia.
Defined.



(** ** Measurements of the master task and of the other tasks *)

(** X13.  A task that is not the master task neither writes nor logs: a
    measurement it takes leaves the file and the log as they were, whatever
    the outcome; and it returns the very measurement object that the master
    task returns, after as many calls of [calculate]. *)
Theorem worker_writes_nothing
    (lattice : Lattice) (frequency : FrequencyDiscretization)
    (integrator : ImplicitIntegrator) (state : EffectiveAction)
    (m : XYZMeasurementCorrelation) (w : World) :
  (forall w' : World,
     finalWorld (takeMeasurement lattice frequency integrator state false m w) = Some w' ->
     disk w' = disk w /\ log w' = log w)
  /\ (forall (m1 : XYZMeasurementCorrelation) (w1 : World),
        takeMeasurement lattice frequency integrator state true m w = Returns m1 w1 ->
        exists w2 : World,
          takeMeasurement lattice frequency integrator state false m w = Returns m1 w2
          /\ calculateCalls w2 = calculateCalls w1).
Proof.
  rewrite !takeMeasurement_cases.
  destruct (_currentCutoff m != cutoff state)%F.
  - destruct (_calculateCorrelation _ _ _ _ _ _) as [m0|]; [|done].
    split; [by intros w' [= <-]|].
    intros m1 w1 H.
    pose proof (writeSnapshots_returns lattice _ _ _ _ H) as [-> _].
    pose proof (f_equal finalWorld H) as Hf. cbn [finalWorld] in Hf.
    apply writeSnapshots_frame in Hf as (_ & Hcalls & _). eauto.
  - split; [by intros w' [= <-]|].
    intros m1 w1 H.
    pose proof (writeSnapshots_returns lattice _ _ _ _ H) as [-> _].
    pose proof (f_equal finalWorld H) as Hf. cbn [finalWorld] in Hf.
    apply writeSnapshots_frame in Hf as (_ & Hcalls & _). eauto.
Qed.

Lemma worker_writes_nothing_witness :
  exists (m1 : XYZMeasurementCorrelation) (w2 : World),
    takeMeasurement Example.chain Example.grid Example.integrator
      (Example.flow Float.one Float.zero) false Example.measurement
      (Example.world NoFile Float.one) = Returns m1 w2
    /\ disk w2 = NoFile /\ log w2 = [] /\ calculateCalls w2 = 1.
Proof.
  destruct (worker_writes_nothing Example.chain Example.grid Example.integrator
              (Example.flow Float.one Float.zero) Example.measurement
              (Example.world NoFile Float.one)) as [Hquiet Hsame].
  destruct (takeMeasurement Example.chain Example.grid Example.integrator
              (Example.flow Float.one Float.zero) true Example.measurement
              (Example.world NoFile Float.one)) as [m1 w1| |] eqn:E;
    [|by vm_compute in E..].
  destruct (Hsame m1 w1 eq_refl) as (w2 & Hw2 & Hcalls).
  exists m1, w2. split; [exact Hw2|].
  destruct (Hquiet w2) as [Hdisk Hlog]; [by rewrite Hw2|].
  split; [exact Hdisk|]. split; [exact Hlog|].
  rewrite Hcalls. vm_compute in E. by injection E as <- <-.
Defined.

(** X14.  A measurement that returns keeps the file name, the memory step
    and the length of each buffer of the measurement object.  Without a
    recomputation the object is returned as it was; with one, the cache of
    the object returned holds the cutoff of the flowing functional of the
    core, whatever the cutoff of the state passed in. *)
Theorem measurement_keeps_object
    (lattice : Lattice) (frequency : FrequencyDiscretization)
    (integrator : ImplicitIntegrator) (state : EffectiveAction) (isMasterTask : bool)
    (m m' : XYZMeasurementCorrelation) (w w' : World) :
  takeMeasurement lattice frequency integrator state isMasterTask m w = Returns m' w' ->
  outfile m' = outfile m
  /\ _memoryStepLattice m' = _memoryStepLattice m
  /\ (forall c, length (correlations m' c) = length (correlations m c))
  /\ (if (_currentCutoff m != cutoff state)%F
      then _currentCutoff m' = cutoff (flowingFunctional w)
           /\ calculateCalls w' = S (calculateCalls w)
      else m' = m /\ calculateCalls w' = calculateCalls w).
Proof.
  rewrite takeMeasurement_cases.
  destruct (_currentCutoff m != cutoff state)%F.
  - destruct (_calculateCorrelation _ _ _ _ _ _) as [m0|] eqn:E; [|done].
    apply calculateCorrelation_frame in E. destruct E as (Eo & Ec & Es & Eb).
    intros H.
    assert (m' = m0 /\ calculateCalls w' = S (calculateCalls w)) as [-> Hcalls].
    { destruct isMasterTask; [|by injection H as <- <-].
      pose proof (writeSnapshots_returns lattice _ _ _ _ H) as [-> _].
      pose proof (f_equal finalWorld H) as Hf. cbn [finalWorld] in Hf.
      by apply writeSnapshots_frame in Hf as (_ & Hcalls & _). }
    split; [done|]. split; [done|]. split; [intros c; by destruct (Eb c)|done].
  - intros H.
    assert (m' = m /\ calculateCalls w' = calculateCalls w) as [-> Hcalls].
    { destruct isMasterTask; [|by injection H as <- <-].
      pose proof (writeSnapshots_returns lattice _ _ _ _ H) as [-> _].
      pose proof (f_equal finalWorld H) as Hf. cbn [finalWorld] in Hf.
      by apply writeSnapshots_frame in Hf as (_ & Hcalls & _). }
    done.
Qed.

Lemma measurement_keeps_object_witness :
  exists (m' : XYZMeasurementCorrelation) (w' : World),
    takeMeasurement Example.chain Example.grid Example.integrator
      (Example.flow Float.half Float.zero) true Example.measurement
      (Example.world NoFile Float.one) = Returns m' w'
    /\ outfile m' = "obs.h5" /\ _memoryStepLattice m' = 3
    /\ length (correlations m' SpinComponent.X) = 3
    /\ _currentCutoff m' = Float.one /\ calculateCalls w' = 1.
Proof.
  destruct (takeMeasurement Example.chain Example.grid Example.integrator
              (Example.flow Float.half Float.zero) true Example.measurement
              (Example.world NoFile Float.one)) as [m' w'| |] eqn:E;
    [|by vm_compute in E..].
  exists m', w'. split; [reflexivity|].
  destruct (measurement_keeps_object Example.chain Example.grid Example.integrator
              (Example.flow Float.half Float.zero) true Example.measurement m'
              (Example.world NoFile Float.one) w' E) as (Ho & Hs & Hl & Hc & Hn).
  split; [exact Ho|]. split; [exact Hs|]. split; [exact (Hl SpinComponent.X)|].
  split; [exact Hc|exact Hn].
Defined.

(** X15.  With a NaN cutoff in the state the comparison of line 87 always
    holds: the measurement calls [calculate] once more each time it is taken,
    also when the cache holds NaN already. *)
Theorem nan_cutoff_always_recomputes
    (lattice : Lattice) (frequency : FrequencyDiscretization)
    (integrator : ImplicitIntegrator) (state : EffectiveAction) (isMasterTask : bool)
    (m : XYZMeasurementCorrelation) (w w' : World) :
  cutoff state = S754_nan ->
  finalWorld (takeMeasurement lattice frequency integrator state isMasterTask m w)
  = Some w' ->
  calculateCalls w' = S (calculateCalls w).
Proof.
  intros Hnan. rewrite takeMeasurement_cases, Hnan, neb_nan.
  destruct (_calculateCorrelation _ _ _ _ _ _) as [m0|]; [|done].
  destruct isMasterTask; [|by intros [= <-]].
  by intros (_ & H & _)%writeSnapshots_frame.
Qed.

Lemma nan_cutoff_always_recomputes_witness :
  exists w' : World,
    finalWorld (takeMeasurement Example.chain Example.grid Example.integrator
                  (Example.flow S754_nan Float.zero) false
                  (set_currentCutoff S754_nan Example.measurement)
                  (Example.world NoFile S754_nan)) = Some w'
    /\ calculateCalls w' = 1.
Proof.
  eexists. split; [vm_compute; reflexivity|].
  apply (nan_cutoff_always_recomputes Example.chain Example.grid Example.integrator
           (Example.flow S754_nan Float.zero) false
           (set_currentCutoff S754_nan Example.measurement)
           (Example.world NoFile S754_nan)); [reflexivity|].
  vm_compute. reflexivity.
Defined.

(** ** The kernel at a NaN cutoff *)

Lemma subIntervals_nan (frequency : FrequencyDiscretization) (nu : float) :
  subIntervals frequency nu S754_nan = [].
Proof.
  unfold subIntervals, Float.gtb, Float.ltb, Float.neg, Float.add, Float.sub.
  by destruct nu, (deref frequency (beginNegative frequency)).
Qed.

Lemma integrateDomain_nan
    (frequency : FrequencyDiscretization) (integrator : ImplicitIntegrator)
    (nu : float) (kernel : float -> ValueSuperbundle.t) (acc : ValueSuperbundle.t) :
  integrateDomain frequency integrator nu S754_nan kernel acc = acc.
Proof.
  unfold integrateDomain, Float.gtb, Float.ltb, Float.neg, Float.add, Float.sub.
  by destruct nu, (deref frequency (beginNegative frequency)).
Qed.

(** X16.  At a NaN cutoff of the flowing functional the three guards of the
    frequency domain are all false: the integrator is not called, and a call
    of [_calculateCorrelation] that returns has stored 0 in every entry of
    its block, whatever the vertices and the integrator are. *)
Theorem nan_cutoff_integrates_nothing
    (lattice : Lattice) (frequency : FrequencyDiscretization)
    (integrator : ImplicitIntegrator) (flow : EffectiveAction)
    (it : nat) (m m' : XYZMeasurementCorrelation) :
  cutoff flow = S754_nan ->
  _calculateCorrelation lattice frequency integrator flow it m = Some m' ->
  subIntervals frequency Float.zero (cutoff flow) = []
  /\ forall (c : SpinComponent.t) (n : nat),
       n < length (sitePairs lattice) ->
       correlations m' c !! (it * _memoryStepLattice m + n) = Some Float.zero.
Proof.
  intros Hnan H. rewrite Hnan. split; [apply subIntervals_nan|].
  intros c n Hn.
  apply calculateCorrelation_frame in H. destruct H as (_ & _ & _ & H).
  destruct (H c) as (_ & _ & Hin).
  destruct (lookup_lt_is_Some_2 _ _ Hn) as [[i j] Hij].
  destruct (Hin n i j Hij) as [[v Hv] Heq].
  rewrite Hv in Heq. rewrite Hv. f_equal.
  revert Heq. rewrite Hnan. unfold susceptibility. rewrite integrateDomain_nan.
  unfold representativeValue. destruct (representative lattice i j c) as [rid component].
  intros Heq. symmetry in Heq.
  assert (ValueBundle.zeros (size lattice) !! rid = Some v) as Hz
    by (by destruct component).
  unfold ValueBundle.zeros in Hz. by apply lookup_replicate in Hz as [-> _].
Qed.

Lemma nan_cutoff_integrates_nothing_witness :
  exists m' : XYZMeasurementCorrelation,
    _calculateCorrelation Example.chain Example.grid Example.integrator
      (Example.flow S754_nan Float.one) 0 Example.measurement = Some m'
    /\ correlations m' SpinComponent.None !! 2 = Some Float.zero.
Proof.
  eexists. split; [vm_compute; reflexivity|].
  match goal with
  | |- correlations ?m' _ !! _ = _ =>
      destruct (nan_cutoff_integrates_nothing Example.chain Example.grid
                  Example.integrator (Example.flow S754_nan Float.one) 0
                  Example.measurement m' eq_refl) as [_ H]
  end.
  - vm_compute. reflexivity.
  - apply (H SpinComponent.None 2). vm_compute. lia.
Defined.


(** ** The first measurement of a run *)



(** ** The datasets of [meta] *)

Lemma length_bind_uniform {A B : Type} (f : A -> list B) (l : list A) (n : nat) :
  (forall a, a ∈ l -> length (f a) = n) -> length (l ≫= f) = length l * n.
Proof.
  induction l as [|a l IH]; intros H; [done|].
  rewrite bind_cons, length_app, (H a) by apply list_elem_of_here.
  rewrite IH; [simpl; lia|]. intros b Hb. apply H. by apply list_elem_of_further.
Qed.

(** X18.  The datasets [basis] and [sites] of [meta] have elements of three
    floats.  The buffer of [basis] is filled exactly; the buffer of [sites],
    allocated for [inRangeCount] sites per basis site, is filled exactly when
    every basis site has as many sites in range as the basis site 0: the
    loops then stay inside both buffers, and the datasets hold the positions
    and nothing of what the allocation held. *)
Theorem meta_datasets_fit_dataspace (lattice : Lattice) (junk : nat -> float) :
  (forall b : nat, b < length (_basis lattice) ->
     length (getRangeOfBasis lattice b) = inRangeCount lattice) ->
  exists basis sites : Dataset,
    basisDataset lattice junk = Some basis
    /\ sitesDataset lattice junk = Some sites
    /\ shape basis = [length (_basis lattice)]
    /\ contents basis = positions (getSitePosition lattice <$> _basis lattice)
    /\ length (contents basis) = length (_basis lattice) * 3
    /\ shape sites = [length (_basis lattice); inRangeCount lattice]
    /\ contents sites = positions (getSitePosition lattice <$> rangeSites lattice)
    /\ length (contents sites) = length (_basis lattice) * (inRangeCount lattice * 3).
Proof.
  intros Huniform.
  assert (Hsites : length (rangeSites lattice)
                   = length (_basis lattice) * inRangeCount lattice).
  { unfold rangeSites.
    rewrite (length_bind_uniform _ _ (inRangeCount lattice)); [by rewrite length_seq|].
    intros b Hb. apply elem_of_seq in Hb. apply Huniform. lia. }
  eexists _, _. split; [apply basisDataset_eq|].
  split. { rewrite sitesDataset_eq, decide_True by lia. reflexivity. }
  cbn [shape contents].
  rewrite !length_positions, !length_fmap, Hsites.
  rewrite drop_ge by (rewrite length_newFloatArray; lia).
  rewrite app_nil_r, length_positions, length_fmap, Hsites.
  repeat split; lia.
Qed.

Lemma meta_datasets_fit_dataspace_witness :
  exists sites : Dataset,
    sitesDataset Example.chain (fun _ => Float.of_Z 7) = Some sites
    /\ length (contents sites) = 9
    /\ shape sites = [1; 3].
Proof.
  destruct (meta_datasets_fit_dataspace Example.chain (fun _ => Float.of_Z 7))
    as (basis & sites & _ & Hs & _ & _ & _ & Hshape & _ & Hlen).
  - intros b Hb. destruct b; [reflexivity|]. simpl in Hb. lia.
  - exists sites. split; [exact Hs|]. split; [exact Hlen|exact Hshape].
Defined.

(** ** A path that cannot be opened *)

(** X19.  Where the file can be neither opened nor created, a measurement of
    the master task never returns.  Without a recomputation it throws the
    file error at once; with one, the recomputation comes first: [calculate]
    is counted before the error is thrown, and a callback that leaves its
    buffers is undefined behaviour before any file is touched.  The file and
    the log stay as they were. *)
Theorem measurement_without_access
    (lattice : Lattice) (frequency : FrequencyDiscretization)
    (integrator : ImplicitIntegrator) (state : EffectiveAction)
    (m : XYZMeasurementCorrelation) (w : World) :
  accessible w = false ->
  takeMeasurement lattice frequency integrator state true m w
  = if (_currentCutoff m != cutoff state)%F
    then match _calculateCorrelation lattice frequency integrator (flowingFunctional w) 0
                 (set_currentCutoff (cutoff (flowingFunctional w)) m) with
         | Some _ => Throws (fileError m) (with_calculateCalls (S (calculateCalls w)) w)
         | None => Undefined
         end
    else Throws (fileError m) w.
Proof.
  intros Hacc. rewrite takeMeasurement_cases.
  destruct (_currentCutoff m != cutoff state)%F.
  - destruct (_calculateCorrelation _ _ _ _ _ _) as [m1|] eqn:E; [|done].
    apply calculateCorrelation_frame in E. destruct E as (Eo & _).
    unfold writeSnapshots. unfold mbind at 1, Action_bind at 1.
    rewrite (writeOutfileCorrelation_inaccessible lattice m1) by done.
    unfold fileError. by rewrite Eo.
  - unfold writeSnapshots. unfold mbind at 1, Action_bind at 1.
    by rewrite (writeOutfileCorrelation_inaccessible lattice m) by done.
Qed.

Lemma measurement_without_access_witness :
  exists (e : Exception) (w' : World),
    takeMeasurement Example.chain Example.grid Example.integrator
      (Example.flow Float.one Float.zero) true Example.measurement
      {| disk := NoFile; accessible := false; log := []; calculateCalls := 0;
         flowingFunctional := Example.flow Float.one Float.zero;
         uninitialised := fun _ => Float.of_Z 7 |} = Throws e w'
    /\ calculateCalls w' = 1 /\ disk w' = NoFile.
Proof.
  rewrite (measurement_without_access Example.chain Example.grid Example.integrator
             (Example.flow Float.one Float.zero) Example.measurement
             {| disk := NoFile; accessible := false; log := []; calculateCalls := 0;
                flowingFunctional := Example.flow Float.one Float.zero;
                uninitialised := fun _ => Float.of_Z 7 |} eq_refl).
  change (_currentCutoff Example.measurement != cutoff (Example.flow Float.one Float.zero))%F
    with true.
  destruct (_calculateCorrelation _ _ _ _ _ _) as [m1|] eqn:E; [|by vm_compute in E].
  eexists. eexists. split; [reflexivity|]. split; reflexivity.
Defined.

Lemma calculateCorrelation_defined_witness :
  is_Some (_calculateCorrelation Example.chain Example.grid Example.integrator
             (Example.flow Float.one Float.one) 0 Example.measurement)
  /\ 0 * _memoryStepLattice Example.measurement + 2
     < length (correlations Example.measurement SpinComponent.Z).
Proof.
  assert (is_Some (_calculateCorrelation Example.chain Example.grid Example.integrator
                     (Example.flow Float.one Float.one) 0 Example.measurement)) as H
    by (eexists; vm_compute; reflexivity).
  split; [exact H|].
  exact (proj2 (proj1 (calculateCorrelation_defined Example.chain Example.grid
                         Example.integrator (Example.flow Float.one Float.one) 0
                         Example.measurement) H 2 0 2 eq_refl SpinComponent.Z)).
Defined.
